(** * Thread-scaling experiment driver ([scripts/master.py])

    A shallow embedding of the driver that runs thread-scaling experiments
    for Bowtie, Bowtie 2, HISAT and BWA, and the properties of its catalog
    parser, build resolver, read partitioner, process supervisor and sweep
    controller, and of the run as a whole.

    Conventions of the embedding.
    - The script is a Python 2 program ([from __future__ import
      print_function], and [i /= 26] on an [int] in [slice_lab]): [/] on two
      integers is floor division.  Integers are [Z].
    - A raised exception is a value: functions that can raise return
      [result].  Functions with side effects run in the monad [M], which
      threads the file system and the log of performed effects, and keeps both
      when an exception propagates.
    - External programs ([os.system], the aligner processes) and the library
      calls that make and remove directory trees ([os.makedirs],
      [shutil.rmtree]) are oracles, taken as [Variable]s of a [Section]; what
      the script does with their answers is modelled, what they do is not.
    - The worker processes of a repetition run beside the script: what a
      worker does, its [SIGTERM] to the aligner included, is logged when the
      script joins it.
    - [print] is not modelled. *)

From Stdlib Require Import ZArith String Ascii List Bool Lia.
From stdpp Require Import base option list gmap strings pretty.
From Equations Require Import Equations.

Local Open Scope string_scope.
Local Open Scope Z_scope.

(** ** Exceptions and results *)

Inductive exn : Type :=
  | RuntimeError (msg : string)
  | AssertionError
  | IndexError
  | ValueError
  | KeyError
  | TypeError
  | ZeroDivisionError
  | OSError
  | CalledProcessError
  | Blocked.  (* not an exception: a [join()] that never returns *)

Inductive result (A : Type) : Type :=
  | Ok (a : A)
  | Raise (e : exn).
Arguments Ok {A} a.
Arguments Raise {A} e.

Definition rbind {A B} (r : result A) (k : A -> result B) : result B :=
  match r with
  | Ok a => k a
  | Raise e => Raise e
  end.

Notation "x <-? r ;; k" := (rbind r (fun x => k))
  (at level 100, r at next level, right associativity).

Definition raises {A} (r : result A) : Prop :=
  match r with Ok _ => False | Raise _ => True end.

(** ** Python string operations used by the script *)

Module Py.

Definition tab : ascii := ascii_of_nat 9.
Definition newline : ascii := ascii_of_nat 10.

(** [str.split(sep)] for a one-character separator: never the empty list. *)
Fixpoint split_on (sep : ascii) (s : string) : list string :=
  match s with
  | EmptyString => [EmptyString]
  | String c s' =>
      if Ascii.eqb c sep then EmptyString :: split_on sep s'
      else match split_on sep s' with
           | tok :: toks => String c tok :: toks
           | [] => [String c EmptyString]
           end
  end.

Definition startswith (s p : string) : bool := String.prefix p s.

Fixpoint endswith_aux (rs rp : list ascii) : bool :=
  match rp, rs with
  | [], _ => true
  | _ :: _, [] => false
  | c :: rp', d :: rs' => Ascii.eqb c d && endswith_aux rs' rp'
  end.

Definition endswith (s p : string) : bool :=
  endswith_aux (rev (list_ascii_of_string s)) (rev (list_ascii_of_string p)).

(** [p in s] on strings. *)
Fixpoint contains (s p : string) : bool :=
  String.prefix p s ||
  match s with
  | EmptyString => false
  | String _ s' => contains s' p
  end.

(** The characters [str.strip], [str.rstrip] and [str.split()] treat as
    white space: space, and the controls 9 to 13. *)
Definition is_space (c : ascii) : bool :=
  let n := nat_of_ascii c in
  Nat.eqb n 32 || (Nat.leb 9 n && Nat.leb n 13).

Fixpoint lstrip_list (l : list ascii) : list ascii :=
  match l with
  | c :: l' => if is_space c then lstrip_list l' else l
  | [] => []
  end.

Definition rstrip (s : string) : string :=
  string_of_list_ascii (rev (lstrip_list (rev (list_ascii_of_string s)))).

Definition strip (s : string) : string :=
  string_of_list_ascii
    (rev (lstrip_list (rev (lstrip_list (list_ascii_of_string s))))).

(** [str.split()] with no argument: maximal runs of non-space characters. *)
Fixpoint words_aux (cur : list ascii) (l : list ascii) : list string :=
  let flush := match cur with
               | [] => []
               | _ => [string_of_list_ascii (rev cur)]
               end in
  match l with
  | [] => flush
  | c :: l' =>
      if is_space c then flush ++ words_aux [] l'
      else words_aux (c :: cur) l'
  end.

Definition words (s : string) : list string :=
  words_aux [] (list_ascii_of_string s).

Definition digit_val (c : ascii) : option Z :=
  let n := nat_of_ascii c in
  if Nat.leb 48 n && Nat.leb n 57 then Some (Z.of_nat (n - 48)) else None.

Fixpoint digits_val (acc : Z) (l : list ascii) : option Z :=
  match l with
  | [] => Some acc
  | c :: l' =>
      match digit_val c with
      | Some d => digits_val (10 * acc + d) l'
      | None => None
      end
  end.

(** [int(s)] on a string: surrounding white space is ignored, then an
    optional sign and one or more decimal digits; anything else is a
    [ValueError]. *)
Definition int (s : string) : result Z :=
  let body := list_ascii_of_string (strip s) in
  let '(neg, ds) :=
    match body with
    | c :: r => if Ascii.eqb c "-" then (true, r)
                else if Ascii.eqb c "+" then (false, r)
                else (false, body)
    | [] => (false, [])
    end in
  match ds with
  | [] => Raise ValueError
  | _ => match digits_val 0 ds with
         | Some v => Ok (if neg then - v else v)
         | None => Raise ValueError
         end
  end.

(** ["%d" % n] *)
Definition str (n : Z) : string := pretty n.

(** [os.path.join] on two components (POSIX). *)
Definition join (a b : string) : string :=
  if startswith b "/" then b
  else if String.eqb a "" || endswith a "/" then a ++ b
  else a ++ "/" ++ b.

Definition join3 (a b c : string) : string := join (join a b) c.

Definition is_alnum (c : ascii) : bool :=
  let n := nat_of_ascii c in
  (Nat.leb 48 n && Nat.leb n 57) || (Nat.leb 65 n && Nat.leb n 90)
  || (Nat.leb 97 n && Nat.leb n 122).

(** [str.isalnum] *)
Definition isalnum (s : string) : bool :=
  match list_ascii_of_string s with
  | [] => false
  | l => forallb is_alnum l
  end.

Fixpoint drop_slashes (l : list ascii) : list ascii :=
  match l with
  | c :: l' => if Ascii.eqb c "/" then drop_slashes l' else l
  | [] => []
  end.

(** The reversed path from its last slash on. *)
Fixpoint from_slash (l : list ascii) : list ascii :=
  match l with
  | c :: l' => if Ascii.eqb c "/" then l else from_slash l'
  | [] => []
  end.

(** [os.path.dirname] (POSIX): the part up to the last slash, without
    trailing slashes unless it consists of slashes only. *)
Definition dirname (p : string) : string :=
  let head := from_slash (rev (list_ascii_of_string p)) in
  match drop_slashes head with
  | [] => string_of_list_ascii (rev head)
  | h => string_of_list_ascii (rev h)
  end.

End Py.

(** ** Slice labels ([slice_lab]) *)

Definition alphabet : string := "abcdefghijklmnopqrstuvwxyz".

(** The first loop of [slice_lab]: [while i > 0], peel the least
    significant base-26 digit and prepend its letter. *)
Equations? slice_lab_digits (i : Z) (ret : string) : result string
  by wf (Z.to_nat i) lt :=
  slice_lab_digits i ret with Z_lt_dec 0 i := {
    | left _ with String.get (Z.to_nat (i mod 26)) alphabet := {
        | Some remc => slice_lab_digits (i / 26) (String remc ret)
        | None => Raise IndexError }
    | right _ => Ok ret }.
Proof.
  apply Z2Nat.inj_lt; try lia.
  - apply Z.div_pos; lia.
  - apply Z.div_lt; lia.
Qed.

(** The second loop: [while len(ret) < 3: ret = 'a' + ret]. *)
Equations? slice_lab_pad (ret : string) : string
  by wf (3 - String.length ret)%nat lt :=
  slice_lab_pad ret with lt_dec (String.length ret) 3 := {
    | left _ => slice_lab_pad (String "a" ret)
    | right _ => ret }.
Proof. simpl. lia. Qed.

Definition slice_lab (i : Z) : result string :=
  digits <-? slice_lab_digits i "" ;;
  let ret := slice_lab_pad digits in
  if Nat.eqb (String.length ret) 3 then Ok ret else Raise AssertionError.

(** [range(n)] *)
Definition py_range (n : Z) : list Z := map Z.of_nat (seq 0 (Z.to_nat n)).

(** [l[k]] for a non-negative constant [k]. *)
Definition py_index {A} (l : list A) (k : nat) : result A :=
  match l !! k with
  | Some x => Ok x
  | None => Raise IndexError
  end.

(** ** The catalog ([get_configs]) *)

Record config : Type := Config {
  cf_name : string;
  cf_tool : string;
  cf_branch : string;
  cf_mp_mt : Z;
  cf_preproc : string;
  cf_args : string
}.

(** The test [toks[0] == 'name' and toks[1] == 'tool' and toks[2] ==
    'branch'], with Python's left-to-right evaluation: a later token is only
    indexed when the earlier comparisons succeeded. *)
Definition header_test (toks : list string) : result bool :=
  t0 <-? py_index toks 0 ;;
  if String.eqb t0 "name" then
    t1 <-? py_index toks 1 ;;
    if String.eqb t1 "tool" then
      t2 <-? py_index toks 2 ;;
      Ok (String.eqb t2 "branch")
    else Ok false
  else Ok false.

(** One iteration of the loop of [get_configs] on the line [ln] (as file
    iteration delivers it, with its line terminator): [Ok None] when the line
    is skipped, [Ok (Some c)] when [c] is yielded. *)
Definition get_configs_line (ln : string) : result (option config) :=
  let toks := Py.split_on Py.tab ln in
  hdr <-? header_test toks ;;
  if hdr then Ok None
  else if Nat.eqb (length toks) 0 || Py.startswith ln "#" then Ok None
  else if negb (Nat.eqb (length toks) 6) then
    Raise (RuntimeError "Expected 6 tokens")
  else
    match toks with
    | [name; tool; branch; mp_mt; preproc; args] =>
        n <-? Py.int mp_mt ;;
        Ok (Some (Config name tool branch n preproc (Py.rstrip args)))
    | _ => Raise ValueError
    end.

(** The generator as a whole: the entries yielded, in order, and the
    exception that ends the iteration, if any.  The generator has no effect
    besides reading its file, so a consumer loop sees exactly the entries
    before the exception. *)
Fixpoint get_configs (lines : list string) : list config * option exn :=
  match lines with
  | [] => ([], None)
  | ln :: rest =>
      match get_configs_line ln with
      | Raise e => ([], Some e)
      | Ok None => get_configs rest
      | Ok (Some c) => let '(cs, e) := get_configs rest in (c :: cs, e)
      end
  end.

(** What the catalog format calls a header line: the first three
    tab-separated fields are [name], [tool], [branch]. *)
Definition is_header (toks : list string) : Prop :=
  exists rest, toks = "name" :: "tool" :: "branch" :: rest.

(** A catalog line written from its fields. *)
Definition tsv_line (fields : list string) : string :=
  String.concat (String Py.tab "") fields ++ String Py.newline "".

(** ** Tools *)

Definition tool_exe (tool : string) : result string :=
  if String.eqb tool "bowtie2" || String.eqb tool "bowtie"
     || String.eqb tool "hisat" then Ok (tool ++ "-align-s")
  else if String.eqb tool "bwa" then Ok "bwa"
  else Raise (RuntimeError "Unknown tool").

Definition tool_ext (tool : string) : result string :=
  if String.eqb tool "bowtie2" || String.eqb tool "hisat" then Ok "bt2"
  else if String.eqb tool "bowtie" then Ok "ebwt"
  else Raise (RuntimeError "Unknown tool").

Definition repos : gmap string string :=
  list_to_map
    [("bowtie", "https://github.com/BenLangmead/bowtie.git");
     ("bowtie2", "https://github.com/BenLangmead/bowtie2.git");
     ("hisat", "https://github.com/BenLangmead/hisat.git");
     ("bwa", "https://github.com/BenLangmead/bwa.git")].

(** [repos[tool]] *)
Definition repos_lookup (tool : string) : result string :=
  match repos !! tool with
  | Some url => Ok url
  | None => Raise KeyError
  end.

(** ** The file system and the effects of the script *)

Inductive node : Type :=
  | File (nlines : Z)
  | Dir.

(** Paths present in the file system, as the probes of [os.path] see them: a
    symbolic link counts as what it points to.  A file carries the number of
    lines [wc -l] reports for it (after decompression for a [.gz] file). *)
Abbreviation fs := (gmap string node).

Inductive effect : Type :=
  | Sys (cmd : string)                 (* os.system(cmd) *)
  | Remove (path : string)             (* os.remove(path) *)
  | Rmtree (path : string)             (* shutil.rmtree(path) *)
  | Makedirs (path : string)           (* os.makedirs(path) *)
  | OpenW (path : string)              (* open(path, 'w') *)
  | Popen (cmd : list string) (sink : string)
  | Kill (cmd : list string)
  | Start (cmd : list string) (ofn efn : string)  (* proc.start() *)
  | JoinTimed (i : nat)                (* proc.join(args.timeout) *)
  | SetDone                            (* done_val.value = 1 *)
  | Sigterm (i : nat)                  (* os.kill(proc.pid, SIGTERM) *)
  | JoinProc (i : nat)                 (* p2.join() *)
  | PrepareReads (nthread mp_mt : Z) (dir : string) (blocked : bool)
                                       (* mark: prepare_reads is called *)
  | Attempt (run_name : string) (nthreads idx_rev : Z).
                                       (* mark: a repetition begins *)

Record outcome (A : Type) : Type := Outcome {
  res : result A;
  fs_after : fs;
  effects : list effect
}.
Arguments Outcome {A} res fs_after effects.
Arguments res {A} o.
Arguments fs_after {A} o.
Arguments effects {A} o.

(** Computations with effects: from the file system before to the result,
    the file system after and the effects performed, in order.  An exception
    keeps what happened before it. *)
Definition M (A : Type) : Type := fs -> outcome A.

Definition ret {A} (a : A) : M A := fun s => Outcome (Ok a) s [].

Definition raise {A} (e : exn) : M A := fun s => Outcome (Raise e) s [].

Definition bind {A B} (m : M A) (k : A -> M B) : M B := fun s =>
  let o := m s in
  match res o with
  | Ok a =>
      let o' := k a (fs_after o) in
      Outcome (res o') (fs_after o') (effects o ++ effects o')
  | Raise e => Outcome (Raise e) (fs_after o) (effects o)
  end.

Notation "x <- m ;; k" := (bind m (fun x => k))
  (at level 100, m at next level, right associativity).
Notation "m >> k" := (bind m (fun _ => k))
  (at level 100, k at level 200, right associativity).

Definition lift {A} (r : result A) : M A :=
  match r with
  | Ok a => ret a
  | Raise e => raise e
  end.

Definition emit (e : effect) : M unit := fun s => Outcome (Ok tt) s [e].

(** [if b: <an effect>] *)
Definition emit_when (b : bool) (e : effect) : M unit :=
  if b then emit e else ret tt.

Definition assert_ (b : bool) : M unit :=
  if b then ret tt else raise AssertionError.

(** [for x in xs: body x] *)
Fixpoint for_each {A} (xs : list A) (body : A -> M unit) : M unit :=
  match xs with
  | [] => ret tt
  | x :: rest => body x >> for_each rest body
  end.

(** A loop that threads a state through its iterations. *)
Fixpoint for_fold {A S} (xs : list A) (body : S -> A -> M S) (s : S) : M S :=
  match xs with
  | [] => ret s
  | x :: rest => s' <- body s x ;; for_fold rest body s'
  end.

(** A loop that collects one value per iteration. *)
Fixpoint for_collect {A B} (xs : list A) (body : A -> M B) : M (list B) :=
  match xs with
  | [] => ret []
  | x :: rest => y <- body x ;; ys <- for_collect rest body ;; ret (y :: ys)
  end.

(** *** Probes *)

Definition exists_ (p : string) : M bool := fun s =>
  Outcome (Ok (match s !! p with Some _ => true | None => false end)) s [].

Definition isdir (p : string) : M bool := fun s =>
  Outcome (Ok (match s !! p with Some Dir => true | _ => false end)) s [].

Definition isfile (p : string) : M bool := fun s =>
  Outcome (Ok (match s !! p with Some (File _) => true | _ => false end)) s [].

(** [wcl]: both branches run [wc -l] through [subprocess.check_output],
    which raises when the command fails, as it does on a missing file. *)
Definition wcl (fn : string) : M Z := fun s =>
  match s !! fn with
  | Some (File n) => Outcome (Ok n) s []
  | _ => Outcome (Raise CalledProcessError) s []
  end.

(** *** File operations *)

Definition os_remove (p : string) : M unit := fun s =>
  match s !! p with
  | Some (File _) => Outcome (Ok tt) (delete p s) [Remove p]
  | _ => Outcome (Raise OSError) s []
  end.

(** The [errno] of an [OSError]; the script tells [EEXIST] from the rest. *)
Inductive errno : Type := EEXIST | ENOENT | ENOTDIR | EACCES.

Definition open_w (p : string) : M unit := fun s =>
  Outcome (Ok tt) (<[p := File 0]> s) [OpenW p].

(** ** Command-line arguments *)

Record args : Type := Args {
  a_index : string;
  a_config : list string;        (* the lines of the catalog file *)
  a_output_dir : string;
  a_build_dir : string;
  a_m1 : string;
  a_m1b : string;
  a_m2 : option string;
  a_m2b : option string;
  a_timeout : nat;               (* seconds *)
  a_tempdir : string;
  a_preproc : option string;
  a_force_builds : bool;
  a_pull : bool;
  a_sam_output_dir : bool;
  a_sam_dev_null : bool;
  a_delete_sam : bool;
  a_stop_on_fail : bool;
  a_reads_per_thread : Z
}.

Definition pe_str (a : args) : string :=
  match a_m2 a with Some _ => "pe" | None => "unp" end.

(** ** Worker processes *)

(** How the wrapper process of one aligner command behaves when left alone:
    whether it manages to open its sinks and spawn the aligner, after how
    many seconds the aligner exits by itself ([None]: never), and the files
    the aligner creates. *)
Record behaviour : Type := Behaviour {
  b_spawns : bool;
  b_runtime : option nat;
  b_writes : list string
}.

(** When the wrapper ends if the flag is never set: at once when [worker]
    raises, else when the polling loop sees the aligner gone. *)
Definition natural_end (b : behaviour) : option nat :=
  if b_spawns b then b_runtime b else Some 0%nat.

(** [proc.exitcode] of an ended wrapper: [worker] returns normally both when
    the aligner exits and after it has sent [SIGTERM] (exit code 0); an
    exception in [worker] ends the process with exit code 1. *)
Definition exitcode (b : behaviour) : Z := if b_spawns b then 0 else 1.

(** The supervisor's view: the time, and when [done_val] was set. *)
Record sup_state : Type := SupState {
  clock : nat;
  done_at : option nat
}.

Definition done_val (st : sup_state) : Z :=
  match done_at st with Some _ => 1 | None => 0 end.

(** A wrapper that is running when the flag is set sees it at its next poll,
    one second later, signals the aligner and leaves its loop. *)
Definition end_time (st : sup_state) (b : behaviour) : option nat :=
  match done_at st, natural_end b with
  | None, e => e
  | Some t, Some e => Some (Nat.min e (t + 1))
  | Some t, None => Some (t + 1)%nat
  end.

Definition is_alive (st : sup_state) (b : behaviour) : bool :=
  match end_time st b with
  | Some e => Nat.ltb (clock st) e
  | None => true
  end.

(** The wrapper was still running when the flag was set at time [t]: it is
    the flag that ends it. *)
Definition killed_by_flag (t : nat) (b : behaviour) : bool :=
  match natural_end b with
  | Some e => Nat.ltb t e
  | None => true
  end.

(** [proc.join(timeout)] *)
Definition join_timed (timeout : nat) (st : sup_state) (b : behaviour)
  : sup_state :=
  let deadline := (clock st + timeout)%nat in
  match end_time st b with
  | Some e =>
      if Nat.leb e deadline then SupState (Nat.max (clock st) e) (done_at st)
      else SupState deadline (done_at st)
  | None => SupState deadline (done_at st)
  end.

(** [p2.join()]: [None] when the process never ends. *)
Definition join (st : sup_state) (b : behaviour) : option sup_state :=
  match end_time st b with
  | Some e => Some (SupState (Nat.max (clock st) e) (done_at st))
  | None => None
  end.

(** [done_val.value = 1] *)
Definition set_done (st : sup_state) : sup_state :=
  SupState (clock st)
           (match done_at st with Some t => Some t | None => Some (clock st) end).

(** What the wrapper number [j] has done when it is joined after the flag was
    set: if the flag found it polling, it has left its loop through
    [os.kill(proc.pid, signal.SIGTERM)]. *)
Definition wrapper_events (j : nat) (st : sup_state) (b : behaviour)
  : list effect :=
  match done_at st with
  | Some t => if killed_by_flag t b then [Sigterm j] else []
  | None => []
  end.

(** [for p2 in procs: p2.join()] *)
Fixpoint join_all (j : nat) (procs : list behaviour) (st : sup_state)
  : option (sup_state * list effect) :=
  match procs with
  | [] => Some (st, [])
  | b :: rest =>
      match join st b with
      | None => None
      | Some st1 =>
          match join_all (S j) rest st1 with
          | None => None
          | Some (st2, evs) =>
              Some (st2, (wrapper_events j st b ++ JoinProc j :: evs)%list)
          end
      end
  end.

Record sup_result : Type := SupResult {
  sr_state : sup_state;
  sr_exitlevels : list (option Z);
  sr_events : list effect
}.

(** The body of [for proc in procs] in the joining loop, for the process
    number [i] with behaviour [b]; [all] is the whole group. *)
Definition join_step (timeout : nat) (all : list behaviour)
    (r : sup_result) (i : nat) (b : behaviour) : option sup_result :=
  let st1 := join_timed timeout (sr_state r) b in
  if is_alive st1 b then
    match join_all 0 all (set_done st1) with
    | None => None
    | Some (st2, evs) =>
        Some (SupResult st2 (sr_exitlevels r ++ [None])
                (sr_events r ++ JoinTimed i :: SetDone :: evs))
    end
  else
    Some (SupResult st1 (sr_exitlevels r ++ [Some (exitcode b)])
            (sr_events r ++ [JoinTimed i])).

Fixpoint join_loop (timeout : nat) (all : list behaviour) (i : nat)
    (todo : list behaviour) (r : sup_result) : option sup_result :=
  match todo with
  | [] => Some r
  | b :: rest =>
      match join_step timeout all r i b with
      | None => None
      | Some r' => join_loop timeout all (S i) rest r'
      end
  end.

(** All processes have been started at time 0; the joining loop. *)
Definition supervise (timeout : nat) (procs : list behaviour)
  : option sup_result :=
  join_loop timeout procs 0 procs (SupResult (SupState 0 None) [] []).

(** The wait for process [i] expires with the process still running. *)
Definition wait_expires (timeout : nat) (procs : list behaviour) (i : nat)
  : Prop :=
  exists b r,
    procs !! i = Some b /\
    join_loop timeout procs 0 (take i procs) (SupResult (SupState 0 None) [] [])
      = Some r /\
    is_alive (join_timed timeout (sr_state r) b) b = true.

Inductive status : Type := SUCCEED | FAIL | TIME_OUT.

(** The classification of the collected exit levels. *)
Definition classify (exitlevels : list (option Z)) : status :=
  if existsb (fun x => match x with None => true | Some _ => false end)
       exitlevels then TIME_OUT
  else if existsb (fun x => match x with
                            | Some c => negb (Z.eqb c 0)
                            | None => true
                            end) exitlevels then FAIL
  else SUCCEED.

Definition status_ext (s : status) : string :=
  match s with
  | SUCCEED => ".SUCCEED"
  | FAIL => ".FAIL"
  | TIME_OUT => ".TIME_OUT"
  end.

(** [int(q + 0.01)] for an integer quotient [q]: [int] truncates toward
    zero, so a negative [q] comes out one larger. *)
Definition int_plus_eps (q : Z) : Z := if q <? 0 then q + 1 else q.

(** [a / b] on integers. *)
Definition py_div (a b : Z) : result Z :=
  if Z.eqb b 0 then Raise ZeroDivisionError else Ok (a / b).

(** The state of the loop that sets up the binaries. *)
Record build_state : Type := BuildState {
  last_name : string;
  last_tool : string;
  last_branch : string;
  last_preproc : string;
  last_build_dir : string;
  npull : Z;
  nbuild : Z;
  ncopy : Z;
  nlink : Z
}.

Definition build_state0 : build_state := BuildState "" "" "" "" "" 0 0 0 0.

(** The commands given to [os.system] among the effects, in order. *)
Definition sys_cmds (evs : list effect) : list string :=
  flat_map (fun e => match e with Sys cmd => [cmd] | _ => [] end) evs.



(** An effect other than the two markers. *)
Definition plain (e : effect) : Prop :=
  match e with
  | PrepareReads _ _ _ _ | Attempt _ _ _ => False
  | _ => True
  end.

Section Driver.

(** [os.system(cmd)]: the exit status, and the file system afterwards. *)
Variable shell : string -> fs -> Z * fs.

(** The wrapper process that runs an aligner command. *)
Variable aligner : list string -> behaviour.

(** [sys.platform == 'darwin'] *)
Variable darwin : bool.

(** [os.makedirs(path)]: the [errno] of the [OSError] it raises, if it raises,
    and the file system afterwards (with the parents it made). *)
Variable os_makedirs : string -> fs -> option errno * fs.

(** [shutil.rmtree(path)]: the same; it raises on a regular file and on a
    symbolic link. *)
Variable shutil_rmtree : string -> fs -> option errno * fs.

Definition os_system (cmd : string) : M Z := fun s =>
  let '(r, s') := shell cmd s in Outcome (Ok r) s' [Sys cmd].

Definition makedirs (dr : string) : M (option errno) := fun s =>
  let '(e, s') := os_makedirs dr s in Outcome (Ok e) s' [Makedirs dr].

(** [mkdir_quiet]: nothing when the directory is there; of the errors of
    [os.makedirs] only [EEXIST] is swallowed. *)
Definition mkdir_quiet (dr : string) : M unit :=
  d <- isdir dr ;;
  if d then ret tt
  else
    e <- makedirs dr ;;
    match e with
    | None | Some EEXIST => ret tt
    | Some _ => raise OSError
    end.

Definition rmtree (p : string) : M unit := fun s =>
  let '(e, s') := shutil_rmtree p s in
  Outcome (match e with None => Ok tt | Some _ => Raise OSError end)
          s' [Rmtree p].

(** *** The partitioner *)

(** The pipeline of [slice_all_fastq]: feed, [head], [split]. *)
Definition slice_all_cmd (reads_per n : Z) (ifn ofn : string) : string :=
  let feed_cmd :=
    if Py.endswith ifn ".gz" then "gzip -dc " ++ ifn else "cat " ++ ifn in
  let head_cmd := "head -n " ++ Py.str (reads_per * n * 4) in
  let split_cmd :=
    "split -l " ++ Py.str (reads_per * 4) ++ " -a 3 - " ++ ofn in
  feed_cmd ++ " | " ++ head_cmd ++ " | " ++ split_cmd.

(** [slice_all_fastq], as it is always called: [sanity=True]. *)
Definition slice_all_fastq (reads_per n : Z) (ifn ofn : string) : M unit :=
  assert_ (negb (Py.contains ifn "block")) >>
  r <- os_system (slice_all_cmd reads_per n ifn ofn) ;;
  if negb (Z.eqb r 0) then raise (RuntimeError "Exitlevel from command")
  else
    for_each (py_range n) (fun i =>
      lab <- lift (slice_lab i) ;;
      actual_nlines <- wcl (ofn ++ lab) ;;
      if negb (Z.eqb actual_nlines (reads_per * 4))
      then raise (RuntimeError "Expected lines, found other")
      else ret tt).

Definition slice_fastq (begin end_ : Z) (ifn ofn : string) : M unit :=
  let cmd := "sed -n '" ++ Py.str (begin * 4 + 1) ++ "," ++ Py.str (end_ * 4)
             ++ "p;" ++ Py.str (end_ * 4 + 1) ++ "q' < " ++ ifn ++ " > " ++ ofn in
  r <- os_system cmd ;;
  if negb (Z.eqb r 0) then raise (RuntimeError "Exitlevel from command")
  else
    actual_nlines <- wcl ofn ;;
    if negb (Z.eqb actual_nlines ((end_ - begin) * 4))
    then raise (RuntimeError "Expected lines, found other")
    else ret tt.

(** ["%s" % x] for an optional path. *)
Definition str_opt (x : option string) : string :=
  match x with Some p => p | None => "None" end.

(** The body of [for i in range(nprocess)] in [prepare_reads]: the read
    set of process [i]. *)
Definition expected_slices (a : args) (tmpdir : string) (i : Z)
  : M (list string) :=
  lab <- lift (slice_lab i) ;;
  let fn0 := Py.join tmpdir ("1_" ++ lab) in
  let fn1 := Py.join tmpdir ("2_" ++ lab) in
  e0 <- exists_ fn0 ;;
  if negb e0 then raise (RuntimeError "Split failed to create file")
  else
    match a_m2 a with
    | Some _ =>
        e1 <- exists_ fn1 ;;
        if negb e1 then raise (RuntimeError "Split failed to create file")
        else ret [fn0; fn1]
    | None => ret [fn0]
    end.

Definition prepare_reads (a : args) (nthread mp_mt : Z) (tmpdir : string)
    (blocked : bool) : M (list (list string)) :=
  if 0 <? mp_mt then
    if blocked then
      raise (RuntimeError
               "Unexpected combination of multiprocessing and blocked input")
    else
      assert_ (Z.eqb (nthread mod mp_mt) 0) >>
      let nprocess := int_plus_eps (nthread / mp_mt) in
      q <- lift (py_div (a_reads_per_thread a * nthread) nprocess) ;;
      let nreads_per_process := int_plus_eps q in
      slice_all_fastq nreads_per_process nprocess (a_m1 a)
                      (Py.join tmpdir "1_") >>
      match a_m2 a with
      | Some m2 =>
          slice_all_fastq nreads_per_process nprocess m2
                          (Py.join tmpdir "2_")
      | None => ret tt
      end >>
      read_sets <- for_collect (py_range nprocess) (expected_slices a tmpdir) ;;
      lab <- lift (slice_lab nprocess) ;;
      extra <- exists_ (Py.join tmpdir ("1_" ++ lab)) ;;
      if extra then
        raise (RuntimeError "Got one more output file than expected from split")
      else ret read_sets
  else
    let rds_1 := Py.join tmpdir "1.fq" in
    let rds_2 := Py.join tmpdir "2.fq" in
    let nreads := a_reads_per_thread a * nthread in
    slice_fastq 0 nreads (if blocked then a_m1b a else a_m1 a) rds_1 >>
    match a_m2 a with
    | Some m2 =>
        slice_fastq 0 nreads (if blocked then str_opt (a_m2b a) else m2) rds_2 >>
        ret [[rds_1; rds_2]]
    | None => ret [[rds_1]]
    end.

(** *** The build resolver *)

Definition make_cmd (build_dir preproc exe : string) : string :=
  "make -e -C " ++ build_dir ++ " " ++ preproc ++ " " ++ exe.

Definition make_tool_version (name tool preproc build_dir : string)
  : M unit :=
  exe <- lift (tool_exe tool) ;;
  r <- os_system (make_cmd build_dir preproc exe) ;;
  if negb (Z.eqb r 0) then raise (RuntimeError "non-zero return from make")
  else ret tt.

Definition clone_cmd (url branch build_dir : string) : string :=
  if Nat.eqb (String.length branch) 40 && Py.isalnum branch then
    "git clone " ++ url ++ " -- " ++ build_dir ++ " && cd " ++ build_dir
    ++ " && git reset --hard " ++ branch
  else "git clone " ++ url ++ " -b " ++ branch ++ " -- " ++ build_dir.

(** [install_tool_version], as it is called: [make_tool=True]. *)
Definition install_tool_version (name tool url branch preproc build_dir
    : string) : M unit :=
  r <- os_system (clone_cmd url branch build_dir) ;;
  if negb (Z.eqb r 0) then
    raise (RuntimeError "non-zero return from git clone")
  else make_tool_version name tool preproc build_dir.

(** How the entry is marked: [(build, pull)]. *)
Definition mark_entry (a : args) (build_dir : string) : M (bool * bool) :=
  ex <- exists_ build_dir ;;
  if ex && a_force_builds a then rmtree build_dir >> ret (true, false)
  else if ex then ret (false, true)
  else ret (true, false).

Definition link_cmd (target build_dir : string) : string :=
  "ln -s -f " ++ target ++ " " ++ build_dir.

Definition copy_cmd (src build_dir : string) : string :=
  "cp -r " ++ src ++ " " ++ build_dir.

Definition pull_cmd (build_dir : string) : string :=
  "cd " ++ build_dir ++ " && git pull".

(** The build flags of an entry, with those of [--preproc] added. *)
Definition entry_preproc (a : args) (c : config) : string :=
  match a_preproc a with
  | Some p => cf_preproc c ++ " " ++ p
  | None => cf_preproc c
  end.

Definition build_dir_of (a : args) (c : config) : string :=
  Py.join3 (a_build_dir a) (pe_str a) (cf_name c).

(** The body of the loop over the catalog in "Setting up binaries". *)
Definition setup_entry (a : args) (st : build_state) (c : config)
  : M build_state :=
  let name := cf_name c in
  let tool := cf_tool c in
  let branch := cf_branch c in
  let preproc := entry_preproc a c in
  if String.eqb name "name" && String.eqb branch "branch" then ret st
  else
    let last_tool1 :=
      if Nat.eqb (String.length (last_tool st)) 0 then tool
      else last_tool st in
    assert_ (String.eqb tool last_tool1) >>
    let build_dir := build_dir_of a c in
    marks <- mark_entry a build_dir ;;
    let '(build, pull) := marks in
    counts <-
      (if pull && a_pull a then
         os_system (pull_cmd build_dir) >>
         make_tool_version name tool preproc build_dir >>
         ret (npull st + 1, nbuild st, ncopy st, nlink st)
       else if build && String.eqb tool last_tool1
               && String.eqb branch (last_branch st)
               && String.eqb preproc (last_preproc st) then
         mkdir_quiet (Py.dirname build_dir) >>
         os_system (link_cmd (last_name st) build_dir) >>
         ret (npull st, nbuild st, ncopy st, nlink st + 1)
       else if build && String.eqb tool last_tool1
               && String.eqb branch (last_branch st) then
         mkdir_quiet (Py.dirname build_dir) >>
         os_system (copy_cmd (last_build_dir st) build_dir) >>
         exe <- lift (tool_exe tool) ;;
         os_remove (Py.join build_dir exe) >>
         make_tool_version name tool preproc build_dir >>
         ret (npull st, nbuild st, ncopy st + 1, nlink st)
       else if build then
         url <- lift (repos_lookup tool) ;;
         install_tool_version name tool url branch preproc build_dir >>
         ret (npull st, nbuild st + 1, ncopy st, nlink st)
       else ret (npull st, nbuild st, ncopy st, nlink st)) ;;
    let '(np, nb, nc, nl) := counts in
    ret (BuildState name tool branch preproc build_dir np nb nc nl).

(** "Setting up binaries": the loop over the catalog. *)
Definition setup_binaries (a : args) : M build_state :=
  let '(cs, e) := get_configs (a_config a) in
  st <- for_fold cs (setup_entry a) build_state0 ;;
  match e with
  | Some x => raise x
  | None => ret st
  end.

(** *** The process supervisor and one attempt *)

Definition devnull : string := "/dev/null".

(** The name of the run of worker [i]:
    ['%s_%s_%d_%d_%d_%d' % (name, pe_str, mp_mt, i, nthreads, idx_rev)]. *)
Definition run_name_of (a : args) (c : config) (nthreads idx_rev i : Z)
  : string :=
  cf_name c ++ "_" ++ pe_str a ++ "_" ++ Py.str (cf_mp_mt c) ++ "_"
  ++ Py.str i ++ "_" ++ Py.str nthreads ++ "_" ++ Py.str idx_rev.

Definition output_dir_of (a : args) (c : config) : string :=
  Py.join3 (a_output_dir a) (pe_str a) (cf_name c).

Record sinks : Type := Sinks {
  stdout_ofns : list string;
  stderr_ofns : list string;
  sam_ofns : list string
}.

(** The sinks of one repetition: everything goes to [/dev/null] unless
    this is the repetition with [idx_rev == 1]. *)
Definition sinks_of (a : args) (c : config) (nprocess idx_rev : Z)
    (run_names : list string) : sinks :=
  let odir := output_dir_of a c in
  let discard := replicate (Z.to_nat nprocess) devnull in
  if Z.eqb idx_rev 1 then
    let outs := map (fun rn => Py.join odir (rn ++ ".out")) run_names in
    let errs := map (fun rn => Py.join odir (rn ++ ".err")) run_names in
    if negb (a_sam_dev_null a) then
      let samdir := if a_sam_output_dir a then odir else a_tempdir a in
      let rundir rn := Py.join (Py.join3 samdir (cf_name c) (pe_str a)) rn in
      Sinks outs errs
            (map (fun rn => Py.join (rundir rn) "out.sam") run_names)
    else Sinks outs errs discard
  else Sinks discard discard discard.

(** "Set up output files": the directories of the alignment outputs are
    made on the way. *)
Definition setup_sinks (a : args) (c : config) (nprocess idx_rev : Z)
    (run_names : list string) : M sinks :=
  let odir := output_dir_of a c in
  (if Z.eqb idx_rev 1 && negb (a_sam_dev_null a) then
     let samdir := if a_sam_output_dir a then odir else a_tempdir a in
     let rundir rn := Py.join (Py.join3 samdir (cf_name c) (pe_str a)) rn in
     for_each run_names (fun rn => mkdir_quiet (rundir rn))
   else ret tt) >>
  ret (sinks_of a c nprocess idx_rev run_names).

Definition is_bt2_like (tool : string) : bool :=
  String.eqb tool "bowtie2" || String.eqb tool "hisat".

(** [read_set[i][k]] *)
Definition read_file (rs : list (list string)) (i : Z) (k : nat)
  : result string :=
  l <-? py_index rs (Z.to_nat i) ;; py_index l k.

(** The command of worker [i] with its two sinks, as handed to
    [spawn_worker]. *)
Definition worker_spec (a : args) (c : config) (ntpp : Z)
    (rs : list (list string)) (sk : sinks) (i : Z)
  : result (list string * string * string) :=
  let tool := cf_tool c in
  let build_dir := build_dir_of a c in
  let extra :=
    if Nat.ltb 0 (String.length (cf_args c)) then Py.words (cf_args c)
    else [] in
  exe <-? tool_exe tool ;;
  let exe_path := build_dir ++ "/" ++ exe in
  efn <-? py_index (stderr_ofns sk) (Z.to_nat i) ;;
  if String.eqb tool "bwa" then
    r0 <-? read_file rs i 0 ;;
    mates <-? match a_m2 a with
              | Some _ => r1 <-? read_file rs i 1 ;; Ok [r0; r1]
              | None => Ok [r0]
              end ;;
    sam <-? py_index (sam_ofns sk) (Z.to_nat i) ;;
    Ok (([exe_path; "mem"; "-t"; Py.str ntpp] ++ extra
         ++ [a_index a] ++ mates)%list, sam, efn)
  else
    reads <-? match a_m2 a with
              | Some _ =>
                  r0 <-? read_file rs i 0 ;;
                  r1 <-? read_file rs i 1 ;;
                  Ok ["-1"; r0; "-2"; r1]
              | None =>
                  r0 <-? read_file rs i 0 ;;
                  Ok (if is_bt2_like tool then ["-U"; r0] else [r0])
              end ;;
    sam <-? py_index (sam_ofns sk) (Z.to_nat i) ;;
    ofn <-? py_index (stdout_ofns sk) (Z.to_nat i) ;;
    Ok (([exe_path; "-p"; Py.str ntpp] ++ extra
         ++ (if is_bt2_like tool then ["-x"] else [])
         ++ [a_index a; "-t"]
         ++ (if 0 <? cf_mp_mt c then ["--mm"] else [])
         ++ reads ++ ["-S"; sam])%list, ofn, efn).

Fixpoint result_collect {A B} (f : A -> result B) (xs : list A)
  : result (list B) :=
  match xs with
  | [] => Ok []
  | x :: rest => y <-? f x ;; ys <-? result_collect f rest ;; Ok (y :: ys)
  end.

Definition create_sink (p : string) (s : fs) : fs :=
  if String.eqb p devnull then s else <[p := File 0]> s.

(** [proc.start()]: the wrapper opens its two sinks and spawns the
    aligner, which creates its own files. *)
Definition start_worker (w : list string * string * string) : M unit :=
  fun s =>
    let '(cmd, ofn, efn) := w in
    let b := aligner cmd in
    let s' :=
      if b_spawns b then
        foldr (fun p acc => <[p := File 0]> acc)
              (create_sink efn (create_sink ofn s)) (b_writes b)
      else s in
    Outcome (Ok tt) s' [Start cmd ofn efn].

Definition emit_all (evs : list effect) : M unit := fun s =>
  Outcome (Ok tt) s evs.

(** The joining loop, then the collected exit levels. *)
Definition join_workers (a : args)
    (ws : list (list string * string * string)) : M (list (option Z)) :=
  match supervise (a_timeout a) (map (fun w => aligner w.1.1) ws) with
  | Some r => emit_all (sr_events r) >> ret (sr_exitlevels r)
  | None => raise Blocked
  end.

Definition touch_cmd (a : args) (c : config) (run_name ext : string)
  : string :=
  "touch " ++ Py.join (output_dir_of a c) (run_name ++ ext).

Definition touch (a : args) (c : config) (run_name ext : string) : M unit :=
  os_system (touch_cmd a c run_name ext) >> ret tt.

(** What follows the joining loop: the [JOIN] marker, then the marker of
    the outcome. *)
Definition record_outcome (a : args) (c : config) (run_name : string)
    (exitlevels : list (option Z)) : M unit :=
  touch a c run_name ".JOIN" >>
  match classify exitlevels with
  | TIME_OUT => touch a c run_name ".TIME_OUT"
  | FAIL =>
      touch a c run_name ".FAIL" >>
      if a_stop_on_fail a then
        raise (RuntimeError
                 "At least one subprocess exited with non-zero exit level")
      else ret tt
  | SUCCEED => touch a c run_name ".SUCCEED"
  end.

Definition iostat_cmd (iostat_x : bool) : list string :=
  (["iostat"] ++ (if iostat_x then ["-x"] else []) ++ ["2"])%list.

Definition top_cmd : list string :=
  if darwin then Py.words "top -l 0 -s 2" else Py.words "top -b -d 2".

Definition which (prog : string) : string :=
  "which " ++ prog ++ " >/dev/null 2>/dev/null".

Definition run_names_of (a : args) (c : config) (nthreads nprocess idx_rev : Z)
  : list string :=
  map (run_name_of a c nthreads idx_rev) (py_range nprocess).

(** The commands of the worker group of one repetition, with their sinks. *)
Definition workers_of (a : args) (c : config) (nthreads nprocess ntpp : Z)
    (rs : list (list string)) (idx_rev : Z)
  : result (list (list string * string * string)) :=
  let sk := sinks_of a c nprocess idx_rev
                     (run_names_of a c nthreads nprocess idx_rev) in
  result_collect (worker_spec a c ntpp rs sk) (py_range nprocess).

(** One iteration of [for idx in range(redo)], with [idx_rev = redo - idx]. *)
Definition attempt (a : args) (iostat_x : bool) (c : config)
    (nthreads nprocess ntpp : Z) (rs : list (list string)) (idx_rev : Z)
  : M unit :=
  let odir := output_dir_of a c in
  let run_names := run_names_of a c nthreads nprocess idx_rev in
  run_name <- lift (py_index run_names 0) ;;
  emit (Attempt run_name nthreads idx_rev) >>
  sk <- setup_sinks a c nprocess idx_rev run_names ;;
  ws <- lift (workers_of a c nthreads nprocess ntpp rs idx_rev) ;;
  let iostat_fn := Py.join odir (run_name ++ ".iostat") in
  let top_fn := Py.join odir (run_name ++ ".top") in
  open_w top_fn >>
  open_w iostat_fn >>
  wi <- os_system (which "iostat") ;;
  emit_when (Z.eqb wi 0) (Popen (iostat_cmd iostat_x) iostat_fn) >>
  wt <- os_system (which "top") ;;
  emit_when (Z.eqb wt 0) (Popen top_cmd top_fn) >>
  for_each ws start_worker >>
  exitlevels <- join_workers a ws ;;
  emit_when (Z.eqb wi 0) (Kill (iostat_cmd iostat_x)) >>
  emit_when (Z.eqb wt 0) (Kill top_cmd) >>
  record_outcome a c run_name exitlevels >>
  if a_delete_sam a then
    for_each (sam_ofns sk) (fun sam_ofn =>
      if negb (String.eqb sam_ofn devnull) then os_remove sam_ofn else ret tt)
  else ret tt.

(** *** The sweep controller *)

Record ctl_state : Type := CtlState {
  indexes_verified : gset string;
  read_set : option (list (list string));
  last_mp_mt : option Z;
  last_blocked : bool
}.

Definition all_exist (paths : list string) : M bool := fun s =>
  Outcome
    (Ok (forallb (fun p => match s !! p with Some _ => true | None => false end)
                 paths))
    s [].

Definition verify_index (basename tool : string) : M bool :=
  if String.eqb tool "bwa" then
    all_exist (map (fun x => basename ++ x)
                   [".amb"; ".ann"; ".pac"; ".bwt"; ".sa"])
  else
    te <- lift (tool_ext tool) ;;
    ok <- all_exist (map (fun x => basename ++ x ++ te)
                         [".1."; ".2."; ".3."; ".4."; ".rev.1."; ".rev.2."]) ;;
    if ok && String.eqb tool "hisat" then
      all_exist (map (fun x => basename ++ x ++ te)
                     [".5."; ".6."; ".rev.5."; ".rev.6."])
    else ret ok.

(** "Purging some old reads" *)
Definition purge (rs : option (list (list string))) : M unit :=
  match rs with
  | None => ret tt
  | Some read_set =>
      for_each read_set (fun read_list => for_each read_list os_remove)
  end.

(** [mp_mt != 0 and (nthreads % mp_mt != 0)] *)
Definition skipped (nthreads mp_mt : Z) : bool :=
  negb (Z.eqb mp_mt 0) && negb (Z.eqb (nthreads mod mp_mt) 0).

Definition is_blocked (c : config) : bool :=
  Py.contains (cf_args c) "block-bytes".

(** [last_mp_mt is None or mp_mt != last_mp_mt or blocked != last_blocked] *)
Definition regime_changed (st : ctl_state) (c : config) : bool :=
  match last_mp_mt st with
  | None => true
  | Some m => negb (Z.eqb (cf_mp_mt c) m)
  end
  || negb (Bool.eqb (is_blocked c) (last_blocked st)).

Definition reads_dir (a : args) (c : config) : string :=
  Py.join3 (a_tempdir a) (cf_name c) (pe_str a).

(** The loop body up to the attempts: the state afterwards, and [redo]
    unless the entry is skipped for this number of threads. *)
Definition pair_prologue (a : args) (nthreads : Z) (st : ctl_state)
    (c : config) : M (ctl_state * option Z) :=
  let odir := output_dir_of a c in
  ex <- exists_ odir ;;
  (if negb ex then mkdir_quiet odir else ret tt) >>
  verified <-
    (if decide (cf_tool c ∈ indexes_verified st) then ret (st, 1)
     else
       verify_index (a_index a) (cf_tool c) >>
       ret (CtlState ({[cf_tool c]} ∪ indexes_verified st) (read_set st)
                     (last_mp_mt st) (last_blocked st), 2)) ;;
  let '(st1, redo1) := verified in
  if skipped nthreads (cf_mp_mt c) then ret (st1, None)
  else
    prepared <-
      (if regime_changed st1 c then
         purge (read_set st1) >>
         mkdir_quiet (reads_dir a c) >>
         emit (PrepareReads nthreads (cf_mp_mt c) (reads_dir a c)
                            (is_blocked c)) >>
         rs <- prepare_reads a nthreads (cf_mp_mt c) (reads_dir a c)
                             (is_blocked c) ;;
         ret (CtlState (indexes_verified st1) (Some rs)
                       (Some (cf_mp_mt c)) (last_blocked st1), 2)
       else ret (st1, redo1)) ;;
    let '(st2, redo) := prepared in
    ret (CtlState (indexes_verified st2) (read_set st2) (last_mp_mt st2)
                  (is_blocked c), Some redo).

(** What follows the preparation of the reads for an entry that is not
    skipped: the [redo] repetitions, numbered [redo, ..., 1]. *)
Definition repetitions (a : args) (iostat_x : bool) (nthreads : Z)
    (st : ctl_state) (c : config) (redo : Z) : M unit :=
  let mp_mt := cf_mp_mt c in
  let nprocess := if Z.eqb mp_mt 0 then 1 else nthreads / mp_mt in
  assert_ (1 <=? nprocess) >>
  let ntpp := if Z.eqb mp_mt 0 then nthreads else mp_mt in
  rs <- match read_set st with
        | Some rs => ret rs
        | None => raise TypeError
        end ;;
  for_each (py_range redo) (fun idx =>
    attempt a iostat_x c nthreads nprocess ntpp rs (redo - idx)).

(** The body of the loop over the catalog for one number of threads. *)
Definition pair_step (a : args) (iostat_x : bool) (nthreads : Z)
    (st : ctl_state) (c : config) : M ctl_state :=
  plan <- pair_prologue a nthreads st c ;;
  let '(st', redo_opt) := plan in
  match redo_opt with
  | None => ret st'
  | Some redo => repetitions a iostat_x nthreads st' c redo >> ret st'
  end.

(** The body of [for nthreads in series]. *)
Definition nthreads_step (a : args) (iostat_x : bool) (st : ctl_state)
    (nthreads : Z) : M ctl_state :=
  let st0 := CtlState (indexes_verified st) (read_set st) None false in
  let '(cs, e) := get_configs (a_config a) in
  st' <- for_fold cs (pair_step a iostat_x nthreads) st0 ;;
  match e with
  | Some x => raise x
  | None => ret st'
  end.

Definition iostat_probe : string := "iostat --help 2>&1 | grep -q '\-x'".

(** The two nested loops of [go]. *)
Definition sweep_loops (a : args) (series : list Z) : M ctl_state :=
  r <- os_system iostat_probe ;;
  for_fold series (nthreads_step a (Z.eqb r 0)) (CtlState ∅ None None false).

(** [go], from "Generating commands" to its end: the loops, then the final
    purge. *)
Definition sweep (a : args) (series : list Z) : M unit :=
  st <- sweep_loops a series ;;
  purge (read_set st).

(** *** The whole run ([go]) *)

(** [verify_reads]: a name that is given must be that of a regular file;
    the only value ever returned is [True]. *)
Definition verify_reads (fns : list (option string)) : M bool :=
  for_each fns (fun fn =>
    match fn with
    | None => ret tt
    | Some p =>
        ex <- exists_ p ;;
        if negb ex then raise (RuntimeError "No such reads file")
        else
          f <- isfile p ;;
          if negb f then raise (RuntimeError "No such reads file")
          else ret tt
    end) >>
  ret true.

(** "Setting up temporary directory", with [--tempdir] given. *)
Definition setup_tmpdir (a : args) : M unit :=
  let tmpdir := a_tempdir a in
  ex <- exists_ tmpdir ;;
  (if negb ex then mkdir_quiet tmpdir else ret tt) >>
  d <- isdir tmpdir ;;
  if negb d then
    raise (RuntimeError "Temporary directory isn't a directory")
  else
    os_system ("rm -f " ++ Py.join tmpdir "1_???") >>
    os_system ("rm -f " ++ Py.join tmpdir "2_???") >>
    ret tt.

Definition setup_output_dir (a : args) : M unit :=
  ex <- exists_ (a_output_dir a) ;;
  if negb ex then mkdir_quiet (a_output_dir a) else ret tt.

(** [list(map(int, nthread_series.split(',')))], then
    [assert len(series) > 0]. *)
Definition parse_series (nthread_series : string) : result (list Z) :=
  series <-? result_collect Py.int (Py.split_on "," nthread_series) ;;
  if Nat.ltb 0 (length series) then Ok series else Raise AssertionError.

(** [max(l)] *)
Definition py_max (l : list Z) : result Z :=
  match l with
  | [] => Raise ValueError
  | x :: rest => Ok (fold_left Z.max rest x)
  end.

(** "Counting total # reads": what [go] does unless [--no-count] is given. *)
Definition count_reads (a : args) (series : list Z) : M unit :=
  nlines_tot <- wcl (a_m1 a) ;;
  wcl (a_m1b a) >>
  let nreads_tot := nlines_tot / 4 in
  biggest <- lift (py_max series) ;;
  let nreads_needed := a_reads_per_thread a * biggest in
  if nreads_tot <? nreads_needed then
    raise (RuntimeError
             "# reads required for biggest experiment exceeds number of input reads")
  else ret tt.

(** [go] up to "Generating commands": the directories, the binaries, the
    series and the checks of the input. *)
Definition prepare_run (a : args) (nthread_series : string) (no_count : bool)
  : M (list Z) :=
  setup_tmpdir a >>
  setup_output_dir a >>
  setup_binaries a >>
  series <- lift (parse_series nthread_series) ;;
  verify_reads [Some (a_m1 a); a_m2 a; Some (a_m1b a); a_m2b a] >>
  (if negb no_count then count_reads a series else ret tt) >>
  ret series.

(** [go], for the options [--nthread-series] and [--no-count] besides those
    of [args]. *)
Definition go (a : args) (nthread_series : string) (no_count : bool)
  : M unit :=
  series <- prepare_run a nthread_series no_count ;;
  sweep a series.

End Driver.

(** ** Notions used to state the properties *)

Local Open Scope list_scope.

(** [m] run from [s] returns [a], leaves [s'] and performs [evs]. *)
Definition runs {A} (m : M A) (s : fs) (a : A) (s' : fs) (evs : list effect)
  : Prop :=
  m s = Outcome (Ok a) s' evs.

(** The letter of a base-26 digit. *)
Definition letter (d : Z) : ascii := ascii_of_nat (97 + Z.to_nat d).

(** The label the format of the split files prescribes for slice [i]: the
    base-26 representation of [i] over [a..z], on three letters. *)
Definition suffix3 (i : Z) : string :=
  String (letter (i / 676))
    (String (letter (i / 26 mod 26)) (String (letter (i mod 26)) "")).

(** The supervisor before the joining loop. *)
Definition sup0 : sup_result := SupResult (SupState 0 None) [] [].

(** What holds of the result once the joining loop has handled the
    processes [done], the first of the group [all]. *)
Record handled (timeout : nat) (all done : list behaviour) (r : sup_result)
  : Prop := {
  h_codes :
    Forall2 (fun b x => x = None \/ x = Some (exitcode b))
            done (sr_exitlevels r);
  h_quiet :
    done_at (sr_state r) = None ->
    forall k, sr_exitlevels r !! k <> Some None
              /\ ((k < length done)%nat -> ~ wait_expires timeout all k);
  h_cancelled :
    forall t, done_at (sr_state r) = Some t ->
      (forall b, In b all -> is_alive (sr_state r) b = false) /\
      In SetDone (sr_events r) /\
      exists k,
        wait_expires timeout all k /\ (k < length done)%nat /\
        sr_exitlevels r !! k = Some None /\
        forall i b, done !! i = Some b -> i <> k ->
          sr_exitlevels r !! i = Some (Some (exitcode b))
}.

(** The trace of the joining loop after [n] of its waits, by the time [t] at
    which the flag was set: the timed waits, and when the wait for process
    [k] expired, the flag and the final joins after it.  There every process
    of the group is joined, and exactly those that were running at [t] have
    sent [SIGTERM] to their aligner. *)
Definition traced (timeout : nat) (all : list behaviour) (n : nat)
    (r : sup_result) : Prop :=
  match done_at (sr_state r) with
  | None => sr_events r = map JoinTimed (seq 0 n)
  | Some t =>
      exists k final,
        (k < n)%nat /\ wait_expires timeout all k /\
        sr_events r
        = (map JoinTimed (seq 0 (S k)) ++ SetDone :: final
           ++ map JoinTimed (seq (S k) (n - S k)))%list /\
        (Forall (fun e => exists i, e = Sigterm i \/ e = JoinProc i) final /\
         (forall i, In (JoinProc i) final <-> (i < length all)%nat) /\
         (forall i, In (Sigterm i) final <->
                    exists b, all !! i = Some b /\ killed_by_flag t b = true))
  end.



(** The effect is a call of [os.makedirs]. *)
Definition made_dir (e : effect) : Prop :=
  match e with
  | Makedirs _ => True
  | _ => False
  end.

(** The threads of each process, for [nthreads] threads in all and the field
    [mp_mt] of the entry. *)
Definition ntpp_of (nthreads mp_mt : Z) : Z :=
  if mp_mt =? 0 then nthreads else mp_mt.

(** The removals of a purge that returns. *)
Definition purge_effects (rs : option (list (list string))) : list effect :=
  match rs with
  | Some l => map Remove (concat l)
  | None => []
  end.


(** Letters read as base-26 digits over [a..z], the most significant first,
    from the value [acc] of the letters before them. *)
Definition letters_value (acc : Z) (l : list ascii) : Z :=
  fold_left (fun acc c => 26 * acc + (Z.of_nat (nat_of_ascii c) - 97)) l acc.

(** The number a label stands for. *)
Definition label_value (lab : string) : Z :=
  letters_value 0 (list_ascii_of_string lab).

(** [os.path.exists] on the file system [s]. *)
Definition present (s : fs) (p : string) : bool :=
  match s !! p with Some _ => true | None => false end.

(** The index files of each tool, for the basename given to [--index]. *)
Definition index_files (basename tool : string) : list string :=
  if String.eqb tool "bwa" then
    map (fun x => basename +:+ x) [".amb"; ".ann"; ".pac"; ".bwt"; ".sa"]
  else if String.eqb tool "bowtie" then
    map (fun x => basename +:+ x +:+ "ebwt")
        [".1."; ".2."; ".3."; ".4."; ".rev.1."; ".rev.2."]
  else if String.eqb tool "bowtie2" then
    map (fun x => basename +:+ x +:+ "bt2")
        [".1."; ".2."; ".3."; ".4."; ".rev.1."; ".rev.2."]
  else if String.eqb tool "hisat" then
    map (fun x => basename +:+ x +:+ "bt2")
        [".1."; ".2."; ".3."; ".4."; ".rev.1."; ".rev.2.";
         ".5."; ".6."; ".rev.5."; ".rev.6."]
  else [].

(** A reads file as [verify_reads] wants it: not given, or the name of a
    regular file. *)
Definition regular_file (s : fs) (fn : option string) : bool :=
  match fn with
  | None => true
  | Some p => match s !! p with Some (File _) => true | _ => false end
  end.

(** The command of [slice_fastq]. *)
Definition sed_cmd (begin end_ : Z) (ifn ofn : string) : string :=
  "sed -n '" +:+ Py.str (begin * 4 + 1) +:+ "," +:+ Py.str (end_ * 4)
  +:+ "p;" +:+ Py.str (end_ * 4 + 1) +:+ "q' < " +:+ ifn +:+ " > " +:+ ofn.

(** An entry the loop that sets up the binaries does not pass over. *)
Definition processed (c : config) : Prop :=
  ~ (cf_name c = "name" /\ cf_branch c = "branch").

(** What that loop remembers of an entry, with the counters [np], [nb],
    [nc] and [nl]. *)
Definition remembered (a : args) (c : config) (np nb nc nl : Z)
  : build_state :=
  BuildState (cf_name c) (cf_tool c) (cf_branch c) (entry_preproc a c)
             (build_dir_of a c) np nb nc nl.



(** The directories of the alignment outputs of a repetition are there, or
    [mk] makes them: "Set up output files" returns. *)
Definition sinks_ready (mk : string -> fs -> option errno * fs) (a : args)
    (c : config) (nthreads nprocess idx_rev : Z) (s : fs) : Prop :=
  exists sk,
    res (setup_sinks mk a c nprocess idx_rev
           (run_names_of a c nthreads nprocess idx_rev) s) = Ok sk.

(** Where the alignment output of the repetition numbered 1 goes, for the
    worker with the run name [rn]. *)
Definition sam_sink (a : args) (c : config) (rn : string) : string :=
  if a_sam_dev_null a then devnull
  else
    Py.join
      (Py.join (Py.join3 (if a_sam_output_dir a then output_dir_of a c
                          else a_tempdir a) (cf_name c) (pe_str a)) rn)
      "out.sam".

(** The sinks of a started worker are those of worker [i] of the repetition
    numbered [idx_rev]: the discard sink throughout unless [idx_rev] is 1,
    and then the files under the output directory, with the alignment output
    in the standard output of [bwa] and given with [-S] to the others. *)
Definition started_with (a : args) (c : config) (nthreads idx_rev i : Z)
    (cmd : list string) (ofn efn : string) : Prop :=
  let rn := run_name_of a c nthreads idx_rev i in
  let odir := output_dir_of a c in
  if idx_rev =? 1 then
    efn = Py.join odir (rn +:+ ".err") /\
    if String.eqb (cf_tool c) "bwa" then ofn = sam_sink a c rn
    else ofn = Py.join odir (rn +:+ ".out")
         /\ exists pre, cmd = pre ++ ["-S"; sam_sink a c rn]
  else
    efn = devnull /\ ofn = devnull /\
    (cf_tool c <> "bwa" -> exists pre, cmd = pre ++ ["-S"; devnull]).


(** The options [a] without [--delete-sam]. *)
Definition keep_sam (a : args) : args :=
  Args (a_index a) (a_config a) (a_output_dir a) (a_build_dir a) (a_m1 a)
       (a_m1b a) (a_m2 a) (a_m2b a) (a_timeout a) (a_tempdir a) (a_preproc a)
       (a_force_builds a) (a_pull a) (a_sam_output_dir a) (a_sam_dev_null a)
       false (a_stop_on_fail a) (a_reads_per_thread a).

(** The number of files a read set holds for each process. *)
Definition mates (a : args) : nat :=
  match a_m2 a with Some _ => 2%nat | None => 1%nat end.

(** The effects of setting a run up: commands given to the shell, and
    files and directories made or removed.  No process is among them. *)
Definition setup_effect (e : effect) : Prop :=
  match e with
  | Sys _ | Remove _ | Rmtree _ | Makedirs _ => True
  | _ => False
  end.

(** The number of processes of an entry with [mp_mt] threads per process
    when the experiment has [nthreads] threads. *)
Definition nprocess_of (nthreads mp_mt : Z) : Z :=
  if mp_mt =? 0 then 1 else nthreads / mp_mt.

(** The read set holds the files of the mates in use for each of [nprocess]
    processes. *)
Definition fits (a : args) (nprocess : Z) (rs : list (list string)) : Prop :=
  forall k, (k < Z.to_nat nprocess)%nat ->
    exists l, rs !! k = Some l /\ (mates a <= length l)%nat.

(** The tracker, when set, vouches for the read set in use: it fits the
    processes of the tracked number of threads per process. *)
Definition read_set_sized (a : args) (nthreads : Z) (st : ctl_state) : Prop :=
  forall m, last_mp_mt st = Some m ->
    exists rs, read_set st = Some rs /\ fits a (nprocess_of nthreads m) rs.

(** ** Concrete runs *)

(** A catalog line whose thread field is not a number, and a regular one. *)
Definition bad_threads_line : string :=
  tsv_line ["x"; "bowtie2"; "master"; "two"; ""; "-k 1"].

Definition good_line : string :=
  tsv_line ["x"; "bowtie2"; "master"; "2"; "-DFOO"; "-k 1"].

(** A shell whose commands succeed and leave the files as they are. *)
Definition shell_idle (cmd : string) (s : fs) : Z * fs := (0, s).

(** [os.makedirs] on a file system it may write to: the directory is made
    with its missing parents; a path that is there gives [EEXIST], a regular
    file on the way [ENOTDIR]. *)
Fixpoint ancestors (fuel : nat) (p : string) : list string :=
  match fuel with
  | O => []
  | S k => if String.eqb p "" then [] else p :: ancestors k (Py.dirname p)
  end.

Definition makedirs_plain (p : string) (s : fs) : option errno * fs :=
  let up := ancestors (String.length p) p in
  match s !! p with
  | Some _ => (Some EEXIST, s)
  | None =>
      if existsb (fun q => match s !! q with
                           | Some (File _) => true
                           | _ => false
                           end) up
      then (Some ENOTDIR, s)
      else (None, foldr (fun q s' => <[q := Dir]> s') s up)
  end.

(** [os.makedirs] on a file system it may not write to. *)
Definition makedirs_denied (p : string) (s : fs) : option errno * fs :=
  (Some EACCES, s).

(** [shutil.rmtree]: a directory goes with all that is under it. *)
Definition under (dir : string) (p : string) : bool :=
  String.eqb p dir || Py.startswith p (dir ++ "/").

Definition rmtree_plain (p : string) (s : fs) : option errno * fs :=
  match s !! p with
  | Some Dir => (None, filter (fun kv => negb (under p kv.1) = true) s)
  | Some (File _) => (Some ENOTDIR, s)
  | None => (Some ENOENT, s)
  end.

Definition paired_args : args :=
  Args "idx" [] "out" "build" "r1.fq" "r1b.fq" (Some "r2.fq") (Some "r2b.fq")
       5%nat "tmp" None false false false false false false 1.

(** Two slices of eight lines for each mate, and one more mate-2 slice. *)
Definition fs_extra_mate2 : fs :=
  list_to_map
    [("tmp/x/pe/1_aaa", File 8); ("tmp/x/pe/1_aab", File 8);
     ("tmp/x/pe/2_aaa", File 8); ("tmp/x/pe/2_aab", File 8);
     ("tmp/x/pe/2_aac", File 8)].

(** Two slices of eight lines for each mate, and a mate-1 slice two labels
    further on. *)
Definition fs_stray_mate1 : fs :=
  list_to_map
    [("tmp/x/pe/1_aaa", File 8); ("tmp/x/pe/1_aab", File 8);
     ("tmp/x/pe/2_aaa", File 8); ("tmp/x/pe/2_aab", File 8);
     ("tmp/x/pe/1_aad", File 8)].

(** Two aligners that never exit by themselves. *)
Definition two_stuck : list behaviour :=
  [Behaviour true None []; Behaviour true None []].

(** A catalog of one single-process Bowtie 2 entry, and a run on it. *)
Definition catalog_x : list string :=
  [tsv_line ["name"; "tool"; "branch"; "mp_mt"; "preproc"; "args"];
   tsv_line ["x"; "bowtie2"; "master"; "0"; ""; "-k 1"]].

Definition entry_x : config := Config "x" "bowtie2" "master" 0 "" "-k 1".

Definition unpaired_args (stop_on_fail : bool) : args :=
  Args "idx" catalog_x "out" "build" "r1.fq" "r1b.fq" None None
       5%nat "tmp" None false false false false false stop_on_fail 2.

(** An aligner that never exits, one that exits after three seconds, and one
    that cannot be started. *)
Definition aligner_stuck (cmd : list string) : behaviour :=
  Behaviour true None [].

Definition aligner_ok (cmd : list string) : behaviour :=
  Behaviour true (Some 3%nat) [].

Definition aligner_broken (cmd : list string) : behaviour :=
  Behaviour false None [].

(** An aligner that is done with the first slice after three seconds, never
    with the second, and with any other after twenty; the read sets of three
    processes. *)
Definition aligner_by_slice (cmd : list string) : behaviour :=
  if existsb (String.eqb "tmp/1_aaa") cmd then Behaviour true (Some 3%nat) []
  else if existsb (String.eqb "tmp/1_aab") cmd then Behaviour true None []
  else Behaviour true (Some 20%nat) [].

Definition three_slices : list (list string) :=
  [["tmp/1_aaa"]; ["tmp/1_aab"]; ["tmp/1_aac"]].

(** A shell in which [sed] writes the sixteen lines of the reads of
    [entry_x] for two threads, and every command succeeds. *)
Definition shell_sed (cmd : string) (s : fs) : Z * fs :=
  if String.prefix "sed " cmd then (0, <["tmp/x/unp/1.fq" := File 16]> s)
  else (0, s).

(** The start of the worker of [entry_x] with the given sinks. *)
Definition start_x (sam out err : string) : effect :=
  Start ["build/unp/x/bowtie2-align-s"; "-p"; "2"; "-k"; "1"; "-x"; "idx";
         "-t"; "-U"; "tmp/x/unp/1.fq"; "-S"; sam] out err.

(** The worker group of the first of two repetitions of [entry_x]. *)
Definition workers_x_warm_up : list (list string * string * string) :=
  [(["build/unp/x/bowtie2-align-s"; "-p"; "2"; "-k"; "1"; "-x"; "idx"; "-t";
     "-U"; "tmp/x/unp/1.fq"; "-S"; "/dev/null"], "/dev/null", "/dev/null")].






(** The artifact of [entry_x] in place, and the run on [catalog_x] with
    [--pull]. *)
Definition fs_built_x : fs := {["build/unp/x" := Dir]}.

Definition pull_args : args :=
  Args "idx" catalog_x "out" "build" "r1.fq" "r1b.fq" None None
       5%nat "tmp" None false true false false false false 2.

(** A catalog of two Bowtie 2 entries, with both artifacts in place. *)
Definition entry_y : config := Config "y" "bowtie2" "master" 2 "" "-k 1".

Definition two_entry_args : args :=
  Args "idx"
       [tsv_line ["x"; "bowtie2"; "master"; "0"; ""; "-k 1"];
        tsv_line ["y"; "bowtie2"; "master"; "2"; ""; "-k 1"]]
       "out" "build" "r1.fq" "r1b.fq" None None
       5%nat "tmp" None false false false false false false 2.

Definition fs_built_xy : fs :=
  {["build/unp/x" := Dir; "build/unp/y" := Dir]}.

(** Two aligners that exit by themselves, after five and after ten
    seconds. *)
Definition two_slow : list behaviour :=
  [Behaviour true (Some 5%nat) []; Behaviour true (Some 10%nat) []].

(** The run on [catalog_x] with [--delete-sam]. *)
Definition delete_sam_args : args :=
  Args "idx" catalog_x "out" "build" "r1.fq" "r1b.fq" None None
       5%nat "tmp" None false false false false true false 2.

(** The reads of the run on [catalog_x], 40 lines each, with the artifact
    of [entry_x] and the directories in place. *)
Definition fs_ready_x : fs :=
  {["build/unp/x" := Dir; "tmp" := Dir; "out" := Dir;
    "r1.fq" := File 40; "r1b.fq" := File 40]}.

(** * Properties *)

(** ** Reasoning about computations in [M] *)

Lemma res_ok_runs {A} (m : M A) (s : fs) (a : A) :
  res (m s) = Ok a -> runs m s a (fs_after (m s)) (effects (m s)).
Proof. unfold runs. destruct (m s) as [r s' evs]. cbn. intros ->. reflexivity. Qed.

Lemma runs_bind_inv {A B} (m : M A) (k : A -> M B) s b s2 evs :
  runs (bind m k) s b s2 evs ->
  exists a s1 e1 e2,
    runs m s a s1 e1 /\ runs (k a) s1 b s2 e2 /\ evs = e1 ++ e2.
Proof.
  unfold runs, bind. destruct (m s) as [[a|e] s1 e1]; cbn; [|discriminate].
  destruct (k a s1) as [r s2' e2] eqn:Hk. cbn. intros [= -> -> <-].
  exists a, s1, e1, e2. rewrite Hk. auto.
Qed.


Lemma runs_ret_inv {A} (a b : A) s s' evs :
  runs (ret a) s b s' evs -> b = a /\ s' = s /\ evs = [].
Proof. unfold runs, ret. intros [= -> -> <-]. auto. Qed.

Lemma runs_raise_inv {A} (e : exn) s (b : A) s' evs :
  runs (raise e) s b s' evs -> False.
Proof. unfold runs, raise. discriminate. Qed.

Lemma runs_lift_inv {A} (r : result A) s b s' evs :
  runs (lift r) s b s' evs -> r = Ok b /\ s' = s /\ evs = [].
Proof.
  destruct r as [a|e]; cbn [lift]; intros H.
  - apply runs_ret_inv in H as (-> & -> & ->). auto.
  - destruct (runs_raise_inv _ _ _ _ _ H).
Qed.

Lemma runs_assert_inv (c : bool) s b s' evs :
  runs (assert_ c) s b s' evs -> c = true /\ s' = s /\ evs = [].
Proof.
  destruct c; cbn [assert_]; intros H.
  - apply runs_ret_inv in H as (_ & -> & ->). auto.
  - destruct (runs_raise_inv _ _ _ _ _ H).
Qed.

Lemma runs_emit_inv e s b s' evs :
  runs (emit e) s b s' evs -> s' = s /\ evs = [e].
Proof. unfold runs, emit. intros [= _ -> <-]. auto. Qed.

Lemma runs_exists_inv p s b s' evs :
  runs (exists_ p) s b s' evs ->
  b = (match s !! p with Some _ => true | None => false end) /\ s' = s /\ evs = [].
Proof. unfold runs, exists_. intros [= <- -> <-]. auto. Qed.

Lemma runs_wcl_inv fn s n s' evs :
  runs (wcl fn) s n s' evs -> s !! fn = Some (File n) /\ s' = s /\ evs = [].
Proof.
  unfold runs, wcl. destruct (s !! fn) as [[m|]|]; try discriminate.
  intros [= -> -> <-]. auto.
Qed.

Lemma runs_os_remove_inv p s b s' evs :
  runs (os_remove p) s b s' evs ->
  (exists n, s !! p = Some (File n)) /\ s' = delete p s /\ evs = [Remove p].
Proof.
  unfold runs, os_remove. destruct (s !! p) as [[m|]|]; try discriminate.
  intros [= _ <- <-]. eauto.
Qed.

Lemma runs_for_each_inv {A} (body : A -> M unit) :
  forall xs s u s' evs,
    runs (for_each xs body) s u s' evs ->
    match xs with
    | [] => s' = s /\ evs = []
    | x :: rest =>
        exists s1 e1 e2,
          runs (body x) s tt s1 e1 /\ runs (for_each rest body) s1 tt s' e2
          /\ evs = e1 ++ e2
    end.
Proof.
  intros [|x rest] s u s' evs H; cbn [for_each] in H.
  - apply runs_ret_inv in H as (_ & -> & ->). auto.
  - apply runs_bind_inv in H as ([] & s1 & e1 & e2 & H1 & H2 & ->).
    destruct u. eauto 10.
Qed.

(** A loop whose body only probes the file system. *)
Lemma for_each_probe {A} (body : A -> M unit) :
  (forall x s u s' evs, runs (body x) s u s' evs -> s' = s /\ evs = []) ->
  forall xs s u s' evs,
    runs (for_each xs body) s u s' evs ->
    s' = s /\ evs = [] /\ forall x, In x xs -> runs (body x) s tt s [].
Proof.
  intros Hb xs. induction xs as [|x rest IH]; intros s u s' evs H;
    apply runs_for_each_inv in H.
  - destruct H as (-> & ->). repeat split. intros x [].
  - destruct H as (s1 & e1 & e2 & H1 & H2 & ->).
    destruct (Hb _ _ _ _ _ H1) as (-> & ->).
    destruct (IH _ _ _ _ H2) as (-> & -> & Hall).
    repeat split. intros y [<-|Hy]; auto.
Qed.

Lemma for_collect_probe {A B} (body : A -> M B) :
  (forall x s b s' evs, runs (body x) s b s' evs -> s' = s /\ evs = []) ->
  forall xs s ys s' evs,
    runs (for_collect xs body) s ys s' evs ->
    s' = s /\ evs = [] /\ Forall2 (fun x y => runs (body x) s y s []) xs ys.
Proof.
  intros Hb xs. induction xs as [|x rest IH]; intros s ys s' evs H;
    cbn [for_collect] in H.
  - apply runs_ret_inv in H as (-> & -> & ->). repeat split. constructor.
  - apply runs_bind_inv in H as (y & s1 & e1 & e2 & H1 & H2 & ->).
    apply runs_bind_inv in H2 as (ys' & s2 & e3 & e4 & H2 & H3 & ->).
    apply runs_ret_inv in H3 as (-> & -> & ->).
    destruct (Hb _ _ _ _ _ H1) as (-> & ->).
    destruct (IH _ _ _ _ H2) as (-> & -> & Hall).
    repeat split. constructor; auto.
Qed.

Lemma in_py_range (n i : Z) : In i (py_range n) <-> 0 <= i < n.
Proof.
  unfold py_range. rewrite in_map_iff. split.
  - intros (k & <- & Hk). apply in_seq in Hk. lia.
  - intros H. exists (Z.to_nat i). split; [lia|]. apply in_seq. lia.
Qed.

Lemma append_assoc (s t u : string) : (s +:+ t) +:+ u = s +:+ t +:+ u.
Proof.
  induction s as [|c s IH]; [reflexivity|].
  change (String c ((s +:+ t) +:+ u) = String c (s +:+ t +:+ u)).
  now rewrite IH.
Qed.

Lemma join_app (a b c : string) :
  Py.startswith b "/" = false -> b <> "" ->
  Py.join a (b +:+ c) = Py.join a b +:+ c.
Proof.
  intros Hb Hne. unfold Py.join.
  destruct b as [|x b]; [congruence|].
  assert (Py.startswith (String x b +:+ c) "/" = false) as ->.
  { unfold Py.startswith in *.
    change (String x b +:+ c) with (String x (b +:+ c)).
    cbn [String.prefix] in *.
    destruct (Ascii.ascii_dec "/" x); [|reflexivity].
    destruct b; discriminate. }
  rewrite Hb.
  destruct (String.eqb a "" || Py.endswith a "/");
    rewrite ?append_assoc; reflexivity.
Qed.

(** Forward rules: the outcome of a [bind] from the outcome of its head. *)
Lemma bind_ok {A B} (m : M A) (k : A -> M B) s a s1 e1 :
  m s = Outcome (Ok a) s1 e1 ->
  bind m k s
  = Outcome (res (k a s1)) (fs_after (k a s1)) (e1 ++ effects (k a s1)).
Proof. unfold bind. intros ->. reflexivity. Qed.

Lemma bind_raise {A B} (m : M A) (k : A -> M B) s e s1 e1 :
  m s = Outcome (Raise e) s1 e1 -> bind m k s = Outcome (Raise e) s1 e1.
Proof. unfold bind. intros ->. reflexivity. Qed.

Lemma sys_cmds_app (e1 e2 : list effect) :
  sys_cmds (e1 ++ e2) = sys_cmds e1 ++ sys_cmds e2.
Proof. unfold sys_cmds. apply flat_map_app. Qed.

(** [mkdir_quiet], by what is at the path and what [os.makedirs] answers. *)
Lemma mkdir_quiet_outcome (mk : string -> fs -> option errno * fs)
    (d : string) (s : fs) :
  mkdir_quiet mk d s
  = match s !! d with
    | Some Dir => Outcome (Ok tt) s []
    | _ =>
        Outcome (match (mk d s).1 with
                 | None | Some EEXIST => Ok tt
                 | Some _ => Raise OSError
                 end) (mk d s).2 [Makedirs d]
    end.
Proof.
  unfold mkdir_quiet, bind, isdir, makedirs.
  destruct (s !! d) as [[n|]|]; cbn; try reflexivity;
    destruct (mk d s) as [[[]|] s1]; reflexivity.
Qed.

Lemma mkdir_quiet_sys_cmds mk d s : sys_cmds (effects (mkdir_quiet mk d s)) = [].
Proof.
  rewrite mkdir_quiet_outcome. destruct (s !! d) as [[n|]|]; reflexivity.
Qed.

Lemma mkdir_quiet_res mk d s :
  res (mkdir_quiet mk d s) = Ok tt \/ res (mkdir_quiet mk d s) = Raise OSError.
Proof.
  rewrite mkdir_quiet_outcome.
  destruct (s !! d) as [[n|]|]; cbn; auto; destruct (mk d s).1 as [[]|]; auto.
Qed.

Lemma bind_assoc {A B C} (m : M A) (f : A -> M B) (g : B -> M C) s :
  bind (bind m f) g s = bind m (fun x => bind (f x) g) s.
Proof.
  unfold bind. destruct (m s) as [[a|e] s1 e1]; cbn; [|reflexivity].
  destruct (f a s1) as [[b|e] s2 e2]; cbn; [|reflexivity].
  rewrite app_assoc. reflexivity.
Qed.

Lemma bind_ret_l {A B} (a : A) (k : A -> M B) s : bind (ret a) k s = k a s.
Proof. unfold bind, ret. cbn. destruct (k a s). reflexivity. Qed.

Lemma os_system_outcome shell cmd s :
  os_system shell cmd s
  = Outcome (Ok (shell cmd s).1) (shell cmd s).2 [Sys cmd].
Proof. unfold os_system. destruct (shell cmd s). reflexivity. Qed.

Lemma bind_raise_l {A B} (e : exn) (k : A -> M B) s :
  bind (raise e) k s = Outcome (Raise e) s [].
Proof. reflexivity. Qed.

Lemma os_remove_outcome p s :
  (exists n, s !! p = Some (File n)
             /\ os_remove p s = Outcome (Ok tt) (delete p s) [Remove p])
  \/ os_remove p s = Outcome (Raise OSError) s [].
Proof. unfold os_remove. destruct (s !! p) as [[n|]|]; eauto. Qed.

(** Projections of a [bind]. *)
Lemma effects_bind {A B} (m : M A) (k : A -> M B) s :
  effects (bind m k s)
  = effects (m s)
    ++ match res (m s) with
       | Ok a => effects (k a (fs_after (m s)))
       | Raise _ => []
       end.
Proof.
  unfold bind. destruct (m s) as [[a|e] s1 e1]; cbn; [reflexivity|].
  symmetry. apply app_nil_r.
Qed.

Lemma res_bind {A B} (m : M A) (k : A -> M B) s :
  res (bind m k s)
  = match res (m s) with
    | Ok a => res (k a (fs_after (m s)))
    | Raise e => Raise e
    end.
Proof. unfold bind. destruct (m s) as [[a|e] s1 e1]; reflexivity. Qed.

Lemma fs_after_bind {A B} (m : M A) (k : A -> M B) s :
  fs_after (bind m k s)
  = match res (m s) with
    | Ok a => fs_after (k a (fs_after (m s)))
    | Raise _ => fs_after (m s)
    end.
Proof. unfold bind. destruct (m s) as [[a|e] s1 e1]; reflexivity. Qed.

(** Effects all of which satisfy [Q]. *)
Lemma effects_bind_Forall {A B} (Q : effect -> Prop) (m : M A) (k : A -> M B) s :
  Forall Q (effects (m s)) ->
  (forall a s1, Forall Q (effects (k a s1))) ->
  Forall Q (effects (bind m k s)).
Proof.
  intros Hm Hk. rewrite effects_bind. apply Forall_app. split; [exact Hm|].
  destruct (res (m s)); [apply Hk|constructor].
Qed.

Lemma effects_for_each_Forall {A} (Q : effect -> Prop) (body : A -> M unit) :
  (forall x s, Forall Q (effects (body x s))) ->
  forall xs s, Forall Q (effects (for_each xs body s)).
Proof.
  intros Hb xs. induction xs as [|x rest IH]; intros s; cbn [for_each].
  - constructor.
  - apply effects_bind_Forall; auto.
Qed.

Lemma effects_for_collect_Forall {A B} (Q : effect -> Prop) (body : A -> M B) :
  (forall x s, Forall Q (effects (body x s))) ->
  forall xs s, Forall Q (effects (for_collect xs body s)).
Proof.
  intros Hb xs. induction xs as [|x rest IH]; intros s; cbn [for_collect].
  - constructor.
  - apply effects_bind_Forall; [auto|]. intros y s1.
    apply effects_bind_Forall; [auto|]. intros ys s2. constructor.
Qed.

Lemma effects_lift {A} (r : result A) s : effects (lift r s) = [].
Proof. destruct r; reflexivity. Qed.

Lemma effects_assert (b : bool) s : effects (assert_ b s) = [].
Proof. destruct b; reflexivity. Qed.

Lemma effects_wcl fn s : effects (wcl fn s) = [].
Proof. unfold wcl. destruct (s !! fn) as [[n|]|]; reflexivity. Qed.

Lemma effects_os_remove_Forall (Q : effect -> Prop) p s :
  Q (Remove p) -> Forall Q (effects (os_remove p s)).
Proof.
  intros H. unfold os_remove. destruct (s !! p) as [[n|]|]; cbn; auto.
Qed.

Lemma effects_mkdir_quiet_Forall (Q : effect -> Prop) mk d s :
  Q (Makedirs d) -> Forall Q (effects (mkdir_quiet mk d s)).
Proof.
  intros H. rewrite mkdir_quiet_outcome.
  destruct (s !! d) as [[n|]|]; cbn; auto.
Qed.

Lemma res_for_each_total {A} (body : A -> M unit) :
  (forall x s, res (body x s) = Ok tt) ->
  forall xs s, res (for_each xs body s) = Ok tt.
Proof.
  intros Hb xs. induction xs as [|x rest IH]; intros s; cbn [for_each].
  - reflexivity.
  - rewrite res_bind, Hb. apply IH.
Qed.

Lemma emit_when_outcome (b : bool) (e : effect) s :
  emit_when b e s = Outcome (Ok tt) s (if b then [e] else []).
Proof. destruct b; reflexivity. Qed.

(** The effects of a [bind] whose head returns. *)
Lemma effects_bind_ok {A B} (m : M A) (k : A -> M B) s a :
  res (m s) = Ok a ->
  effects (bind m k s) = effects (m s) ++ effects (k a (fs_after (m s))).
Proof. intros H. rewrite effects_bind, H. reflexivity. Qed.

Lemma effects_bind_outcome {A B} (m : M A) (k : A -> M B) s a s1 e1 :
  m s = Outcome (Ok a) s1 e1 ->
  effects (bind m k s) = e1 ++ effects (k a s1).
Proof. intros H. rewrite (bind_ok _ _ _ _ _ _ H). reflexivity. Qed.

Lemma emit_outcome (e : effect) s : emit e s = Outcome (Ok tt) s [e].
Proof. reflexivity. Qed.

Lemma open_w_outcome p s : open_w p s = Outcome (Ok tt) (<[p := File 0]> s) [OpenW p].
Proof. reflexivity. Qed.

Lemma ret_outcome {A} (a : A) s : ret a s = Outcome (Ok a) s [].
Proof. reflexivity. Qed.

Lemma outcome_eta {A} (o : outcome A) :
  o = Outcome (res o) (fs_after o) (effects o).
Proof. destruct o; reflexivity. Qed.

(** ** Slice labels *)

Lemma alphabet_get (r : Z) :
  0 <= r < 26 -> String.get (Z.to_nat r) alphabet = Some (letter r).
Proof.
  intros Hr. unfold letter.
  assert (Hn : (Z.to_nat r < 26)%nat) by lia.
  generalize dependent (Z.to_nat r). intros n Hn.
  do 26 (destruct n as [|n]; [reflexivity|]). lia.
Qed.

Lemma slice_lab_digits_step (i : Z) (ret : string) :
  0 < i ->
  slice_lab_digits i ret
  = slice_lab_digits (i / 26) (String (letter (i mod 26)) ret).
Proof.
  intros Hi. rewrite slice_lab_digits_equation_1.
  destruct (Z_lt_dec 0 i) as [Hlt|]; [|lia].
  unfold slice_lab_digits_unfold_clause_1.
  rewrite alphabet_get by (apply Z.mod_pos_bound; lia). reflexivity.
Qed.

Lemma slice_lab_digits_stop (i : Z) (ret : string) :
  i <= 0 -> slice_lab_digits i ret = Ok ret.
Proof.
  intros Hi. rewrite slice_lab_digits_equation_1.
  destruct (Z_lt_dec 0 i); [lia|reflexivity].
Qed.

Lemma slice_lab_digits_grows (n : nat) :
  forall i ret, Z.to_nat i = n ->
    exists s, slice_lab_digits i ret = Ok s
              /\ (String.length ret <= String.length s)%nat.
Proof.
  induction n as [n IH] using lt_wf_ind. intros i ret Hn.
  destruct (Z_lt_dec 0 i) as [Hi|Hi].
  - rewrite slice_lab_digits_step by exact Hi.
    destruct (IH (Z.to_nat (i / 26))) with (i := i / 26)
      (ret := String (letter (i mod 26)) ret) as (s & Hs & Hlen).
    + subst n. apply Z2Nat.inj_lt; try lia.
      * apply Z.div_pos; lia.
      * apply Z.div_lt; lia.
    + reflexivity.
    + exists s. split; [exact Hs|]. simpl in Hlen. lia.
  - exists ret. split; [apply slice_lab_digits_stop; lia|lia].
Qed.

Lemma slice_lab_pad_long (s : string) :
  (3 <= String.length s)%nat -> slice_lab_pad s = s.
Proof.
  intros H. rewrite slice_lab_pad_equation_1.
  destruct (lt_dec (String.length s) 3); [lia|reflexivity].
Qed.

Lemma slice_lab_pad_short (s : string) :
  (String.length s < 3)%nat -> slice_lab_pad s = slice_lab_pad (String "a" s).
Proof.
  intros H. rewrite slice_lab_pad_equation_1.
  destruct (lt_dec (String.length s) 3); [reflexivity|lia].
Qed.

Lemma letter_0 : letter 0 = "a"%char.
Proof. reflexivity. Qed.

(** C6 (as amended): for a slice number below 26^3 = 17576, [slice_lab]
    returns the base-26 representation of the number over [a..z] on exactly
    three letters, [aaa] for 0, [aab] for 1 and so on; from 17576 on its
    assertion on the length fails. *)
Theorem slice_lab_base26 (i : Z) :
  0 <= i ->
  slice_lab i = if i <? 17576 then Ok (suffix3 i) else Raise AssertionError.
Proof.
  intros Hi. unfold slice_lab.
  destruct (Z.ltb_spec i 17576) as [Hlt|Hge].
  - unfold suffix3.
    destruct (Z.eq_dec i 0) as [->|Hnz].
    { reflexivity. }
    rewrite slice_lab_digits_step by lia.
    destruct (Z.eq_dec (i / 26) 0) as [Hq|Hq].
    { rewrite Hq, slice_lab_digits_stop by lia. cbn [rbind].
      assert (i / 676 = 0) as -> by (apply Z.div_small; apply Z.div_small_iff in Hq; lia).
      rewrite Zmod_0_l.
      do 2 (rewrite slice_lab_pad_short by (simpl; lia)).
      rewrite slice_lab_pad_long by (simpl; lia). reflexivity. }
    assert (0 < i / 26) by (pose proof (Z.div_pos i 26); lia).
    rewrite slice_lab_digits_step by lia.
    assert (Hqq : i / 26 / 26 = i / 676) by (rewrite Z.div_div by lia; reflexivity).
    rewrite Hqq.
    destruct (Z.eq_dec (i / 676) 0) as [Hq2|Hq2].
    { rewrite Hq2, slice_lab_digits_stop by lia. cbn [rbind].
      rewrite slice_lab_pad_short by (simpl; lia).
      rewrite slice_lab_pad_long by (simpl; lia). reflexivity. }
    assert (0 < i / 676) by (pose proof (Z.div_pos i 676); lia).
    assert (i / 676 < 26) by (apply Z.div_lt_upper_bound; lia).
    rewrite slice_lab_digits_step by lia.
    rewrite (Z.div_small (i / 676) 26) by lia.
    rewrite (Z.mod_small (i / 676) 26) by lia.
    rewrite slice_lab_digits_stop by lia. cbn [rbind].
    rewrite slice_lab_pad_long by (simpl; lia). reflexivity.
  - assert (H1 : 676 <= i / 26) by (apply Z.div_le_lower_bound; lia).
    assert (H2 : 26 <= i / 26 / 26) by (apply Z.div_le_lower_bound; lia).
    assert (H3 : 1 <= i / 26 / 26 / 26) by (apply Z.div_le_lower_bound; lia).
    do 4 (rewrite slice_lab_digits_step by lia).
    match goal with
    | |- context [slice_lab_digits ?j ?r] =>
        destruct (slice_lab_digits_grows (Z.to_nat j) j r eq_refl)
          as (s & -> & Hlen)
    end.
    cbn [rbind]. simpl in Hlen.
    rewrite slice_lab_pad_long by lia.
    destruct (Nat.eqb_spec (String.length s) 3); [lia|reflexivity].
Qed.

Lemma slice_lab_base26_witness :
  0 <= 27 /\ slice_lab 27 = Ok "abb".
Proof. split; [lia | exact (slice_lab_base26 27 ltac:(lia))]. Defined.

(** C6 (as stated) fails: there is no label for slice 17576. *)
Lemma slice_lab_exhausted :
  0 <= 17576 /\ slice_lab 17576 = Raise AssertionError
  /\ ~ exists s, slice_lab 17576 = Ok s.
Proof.
  split; [lia|]. assert (H : slice_lab 17576 = Raise AssertionError) by reflexivity.
  split; [exact H|]. intros [s Hs]. rewrite H in Hs. discriminate.
Qed.

(** ** Labels as numerals *)

Lemma letter_code (d : Z) :
  0 <= d < 26 -> Z.of_nat (nat_of_ascii (letter d)) - 97 = d.
Proof.
  intros Hd. unfold letter. rewrite nat_ascii_embedding by lia. lia.
Qed.

(** The first loop writes the base-26 digits of [i] in front of [ret]. *)
Lemma slice_lab_digits_value (n : nat) :
  forall i ret s,
    Z.to_nat i = n -> 0 <= i ->
    slice_lab_digits i ret = Ok s ->
    exists k, 0 <= k /\
      forall acc,
        letters_value acc (list_ascii_of_string s)
        = letters_value (acc * 26 ^ k + i) (list_ascii_of_string ret).
Proof.
  induction n as [n IH] using lt_wf_ind. intros i ret s Hn Hi Hs.
  destruct (Z_lt_dec 0 i) as [Hpos|Hz].
  - rewrite slice_lab_digits_step in Hs by exact Hpos.
    destruct (IH (Z.to_nat (i / 26))) with (i := i / 26)
      (ret := String (letter (i mod 26)) ret) (s := s) as (k & Hk & Hval).
    + subst n. apply Z2Nat.inj_lt; try lia.
      * apply Z.div_pos; lia.
      * apply Z.div_lt; lia.
    + reflexivity.
    + apply Z.div_pos; lia.
    + exact Hs.
    + exists (k + 1). split; [lia|]. intros acc. rewrite Hval.
      unfold letters_value. cbn [list_ascii_of_string fold_left].
      rewrite letter_code by (apply Z.mod_pos_bound; lia).
      f_equal. rewrite Z.pow_add_r, Z.pow_1_r, Z.mul_assoc by lia.
      pose proof (Z.div_mod i 26 ltac:(lia)) as Hdm.
      generalize dependent (acc * 26 ^ k). intros X. lia.
  - rewrite slice_lab_digits_stop in Hs by lia. injection Hs as <-.
    exists 0. split; [lia|]. intros acc. f_equal. lia.
Qed.

(** Padding with [a] adds leading zeros. *)
Lemma slice_lab_pad_value (n : nat) :
  forall s, (3 - String.length s)%nat = n ->
    letters_value 0 (list_ascii_of_string (slice_lab_pad s))
    = letters_value 0 (list_ascii_of_string s).
Proof.
  induction n as [n IH] using lt_wf_ind. intros s Hn.
  destruct (lt_dec (String.length s) 3) as [Hlt|Hge].
  - rewrite slice_lab_pad_short by exact Hlt.
    rewrite (IH (3 - String.length (String "a" s))%nat) with (s := String "a" s);
      [reflexivity | simpl; lia | reflexivity].
  - rewrite slice_lab_pad_long by lia. reflexivity.
Qed.

Lemma slice_lab_value (i : Z) (lab : string) :
  0 <= i -> slice_lab i = Ok lab -> label_value lab = i.
Proof.
  intros Hi H. unfold slice_lab in H.
  destruct (slice_lab_digits i "") as [d|e] eqn:Hd; [|discriminate].
  cbn [rbind] in H.
  destruct (Nat.eqb (String.length (slice_lab_pad d)) 3); [|discriminate].
  injection H as <-. unfold label_value.
  rewrite (slice_lab_pad_value _ d eq_refl).
  destruct (slice_lab_digits_value _ i "" d eq_refl Hi Hd) as (k & _ & Hval).
  rewrite Hval. cbn. lia.
Qed.

(** X1: Decoding the label of a slice gives back its number: read as a base-26
    numeral over [a..z], the label [slice_lab] returns for [i] has the value
    [i]. *)
Theorem slice_lab_decodes (i : Z) (lab : string) :
  0 <= i -> slice_lab i = Ok lab -> label_value lab = i.
Proof. apply slice_lab_value. Qed.

Lemma slice_lab_decodes_witness : label_value "abb" = 27.
Proof. apply (slice_lab_decodes 27 "abb"); [lia | reflexivity]. Defined.

(** X2: Two slices with the same label are the same slice: no two of the files
    a split is expected to produce share a name. *)
Theorem slice_lab_injective (i j : Z) (lab : string) :
  0 <= i -> 0 <= j ->
  slice_lab i = Ok lab -> slice_lab j = Ok lab -> i = j.
Proof.
  intros Hi Hj Hli Hlj.
  rewrite <- (slice_lab_value i lab Hi Hli).
  apply (slice_lab_value j lab Hj Hlj).
Qed.

Lemma slice_lab_injective_witness : 30 = 30.
Proof.
  apply (slice_lab_injective 30 30 "abe"); [lia | lia | reflexivity | reflexivity].
Defined.

(** ** The catalog *)

Lemma header_test_true (toks : list string) :
  header_test toks = Ok true <-> is_header toks.
Proof.
  unfold header_test, is_header, py_index. split.
  - destruct toks as [|t0 [|t1 [|t2 rest]]]; cbn; try discriminate;
      destruct (String.eqb_spec t0 "name"); try discriminate; cbn;
      try discriminate;
      destruct (String.eqb_spec t1 "tool"); try discriminate; cbn;
      try discriminate.
    destruct (String.eqb_spec t2 "branch"); try discriminate.
    intros _. subst. eauto.
  - intros [rest ->]. reflexivity.
Qed.

Lemma header_test_comment (ln : string) :
  Py.startswith ln "#" = true ->
  header_test (Py.split_on Py.tab ln) = Ok false.
Proof.
  destruct ln as [|c ln]; [discriminate|].
  unfold Py.startswith. cbn [String.prefix].
  destruct (Ascii.ascii_dec "#" c) as [<-|]; [intros _|discriminate].
  cbn [Py.split_on].
  replace (Ascii.eqb "#" Py.tab) with false by reflexivity.
  destruct (Py.split_on Py.tab ln); reflexivity.
Qed.

(** C7 (as amended): a line whose first three fields are [name], [tool],
    [branch] is skipped; so is every line that starts with [#], whatever the
    number of its fields; any other line whose number of fields is not 6
    makes the parser raise; and a line of exactly 6 fields yields an entry
    when its fourth field reads as an integer, and makes the parser raise
    otherwise. *)
Theorem get_configs_line_cases (ln : string) :
  let toks := Py.split_on Py.tab ln in
  (is_header toks -> get_configs_line ln = Ok None) /\
  (Py.startswith ln "#" = true -> get_configs_line ln = Ok None) /\
  (~ is_header toks -> Py.startswith ln "#" = false ->
   length toks <> 6%nat -> raises (get_configs_line ln)) /\
  (forall name tool branch mp_mt preproc args,
     toks = [name; tool; branch; mp_mt; preproc; args] ->
     ~ is_header toks -> Py.startswith ln "#" = false ->
     match Py.int mp_mt with
     | Ok n =>
         get_configs_line ln
         = Ok (Some (Config name tool branch n preproc (Py.rstrip args)))
     | Raise e => get_configs_line ln = Raise e
     end).
Proof.
  intros toks. unfold get_configs_line. fold toks. repeat split.
  - intros H. apply header_test_true in H. rewrite H. reflexivity.
  - intros H. subst toks. rewrite header_test_comment by exact H.
    cbn [rbind]. rewrite H, orb_true_r. reflexivity.
  - intros Hh Hc Hn.
    destruct (header_test toks) as [[|]|e] eqn:Ht; cbn [rbind raises];
      [apply Hh, header_test_true, Ht | | exact I].
    rewrite Hc, orb_false_r.
    destruct toks as [|t0 ts] eqn:Etoks.
    { discriminate Ht. }
    cbn [length Nat.eqb orb] in *.
    destruct (Nat.eqb_spec (length ts) 5) as [E|_]; [lia|].
    exact I.
  - intros name tool branch mp_mt preproc args E Hh Hc.
    destruct (header_test toks) as [[|]|e] eqn:Ht.
    + exfalso. apply Hh, header_test_true, Ht.
    + cbn [rbind]. rewrite Hc, E. cbn.
      destruct (Py.int mp_mt); reflexivity.
    + exfalso. rewrite E in Ht. unfold header_test, py_index in Ht. cbn in Ht.
      destruct (String.eqb name "name"); [|discriminate]. cbn in Ht.
      destruct (String.eqb tool "tool"); discriminate.
Qed.

Lemma get_configs_line_cases_witness :
  get_configs_line good_line
  = Ok (Some (Config "x" "bowtie2" "master" 2 "-DFOO" "-k 1")).
Proof.
  pose proof (get_configs_line_cases good_line) as (_ & _ & _ & H).
  refine (H "x" "bowtie2" "master" "2" "-DFOO" _ eq_refl _ eq_refl).
  intros [rest Hr]. discriminate Hr.
Defined.

(** C7 (as stated) fails: a line of six fields whose thread field is [two]
    yields no entry, the parser raises. *)
Lemma six_fields_not_parsed :
  length (Py.split_on Py.tab bad_threads_line) = 6%nat /\
  ~ is_header (Py.split_on Py.tab bad_threads_line) /\
  Py.startswith bad_threads_line "#" = false /\
  get_configs_line bad_threads_line = Raise ValueError.
Proof.
  repeat split; try reflexivity. intros [rest Hr]. discriminate Hr.
Qed.

(** ** The catalog as a whole, the tools and the probes *)

(** X3: The entries of a catalog in two parts: those of the first part, then
    those of the second; when a line of the first part makes the parser
    raise, the entries before it are still yielded, and the second part is
    not read. *)
Theorem get_configs_app (l1 l2 : list string) :
  get_configs (l1 ++ l2)
  = match get_configs l1 with
    | (cs1, Some e) => (cs1, Some e)
    | (cs1, None) => let '(cs2, e) := get_configs l2 in (cs1 ++ cs2, e)
    end.
Proof.
  induction l1 as [|ln l1 IH]; cbn [app get_configs].
  - destruct (get_configs l2); reflexivity.
  - destruct (get_configs_line ln) as [[c|]|e]; [|exact IH|reflexivity].
    rewrite IH. destruct (get_configs l1) as [cs1 [e1|]]; [reflexivity|].
    destruct (get_configs l2); reflexivity.
Qed.

Lemma lstrip_list_head (l : list ascii) :
  match Py.lstrip_list l with
  | [] => True
  | ch :: _ => Py.is_space ch = false
  end.
Proof.
  induction l as [|ch l IH]; cbn [Py.lstrip_list]; [exact I|].
  destruct (Py.is_space ch) eqn:E; [exact IH | exact E].
Qed.

Lemma rstrip_last (s : string) :
  match rev (list_ascii_of_string (Py.rstrip s)) with
  | [] => True
  | ch :: _ => Py.is_space ch = false
  end.
Proof.
  unfold Py.rstrip.
  rewrite list_ascii_of_string_of_list_ascii, rev_involutive.
  apply lstrip_list_head.
Qed.

(** X4: The arguments of a parsed entry never end in white space: the line
    terminator, in particular, is not part of them. *)
Theorem parsed_args_stripped (ln : string) (c : config) :
  get_configs_line ln = Ok (Some c) ->
  match rev (list_ascii_of_string (cf_args c)) with
  | [] => True
  | ch :: _ => Py.is_space ch = false
  end.
Proof.
  unfold get_configs_line. intros H.
  destruct (header_test _) as [[|]|]; cbn [rbind] in H; try discriminate.
  destruct (_ || _); [discriminate|].
  destruct (negb _); [discriminate|].
  destruct (Py.split_on Py.tab ln) as [|t0 [|t1 [|t2 [|t3 [|t4 [|t5 [|t6 ts]]]]]]];
    try discriminate.
  destruct (Py.int t3); cbn [rbind] in H; [|discriminate].
  injection H as <-. cbn [cf_args]. apply rstrip_last.
Qed.

Lemma parsed_args_stripped_witness :
  match rev (list_ascii_of_string "-k 1") with
  | [] => True
  | ch :: _ => Py.is_space ch = false
  end.
Proof.
  apply (parsed_args_stripped good_line
           (Config "x" "bowtie2" "master" 2 "-DFOO" "-k 1")).
  reflexivity.
Defined.

(** X5: The tools [tool_exe] knows are exactly those with a repository: the
    look-up [repos[tool]] fails for the tools [tool_exe] rejects, and for no
    other. *)
Theorem known_tools_have_repos (tool : string) :
  (exists exe, tool_exe tool = Ok exe)
  <-> (exists url, repos_lookup tool = Ok url).
Proof.
  unfold tool_exe, repos_lookup. split.
  - intros [exe H].
    destruct (String.eqb_spec tool "bowtie2") as [->|_]; [eexists; reflexivity|].
    destruct (String.eqb_spec tool "bowtie") as [->|_]; [eexists; reflexivity|].
    destruct (String.eqb_spec tool "hisat") as [->|_]; [eexists; reflexivity|].
    destruct (String.eqb_spec tool "bwa") as [->|_]; [eexists; reflexivity|].
    discriminate H.
  - intros [url H].
    destruct (repos !! tool) as [u|] eqn:E; [|discriminate].
    apply elem_of_list_to_map_2 in E.
    repeat (apply elem_of_cons in E as [[= -> _]|E]; [eexists; reflexivity|]).
    apply elem_of_nil in E. destruct E.
Qed.

(** X6: [verify_index] is a probe: it performs nothing and leaves the files as
    they are.  For a tool that [tool_exe] does not know it raises; for a
    known tool it returns whether all the index files of the tool exist
    (five for [bwa], six for [bowtie] and [bowtie2], ten for [hisat]). *)
Theorem verify_index_table (basename tool : string) (s : fs) :
  verify_index basename tool s
  = Outcome match tool_exe tool with
            | Ok _ => Ok (forallb (present s) (index_files basename tool))
            | Raise e => Raise e
            end s [].
Proof.
  destruct (String.eqb_spec tool "bwa") as [->|Hbwa]; [reflexivity|].
  destruct (String.eqb_spec tool "bowtie") as [->|Hbt].
  { unfold verify_index. cbn [String.eqb Ascii.eqb Bool.eqb].
    change (tool_ext "bowtie") with (@Ok string "ebwt").
    cbn [lift]. rewrite bind_ret_l.
    unfold bind, all_exist. cbn [res fs_after effects]. fold (present s).
    change (index_files basename "bowtie")
      with (map (fun x => basename +:+ x +:+ "ebwt")
                [".1."; ".2."; ".3."; ".4."; ".rev.1."; ".rev.2."]).
    destruct (forallb (present s) _); reflexivity. }
  destruct (String.eqb_spec tool "bowtie2") as [->|Hbt2].
  { unfold verify_index. cbn [String.eqb Ascii.eqb Bool.eqb].
    change (tool_ext "bowtie2") with (@Ok string "bt2").
    cbn [lift]. rewrite bind_ret_l.
    unfold bind, all_exist. cbn [res fs_after effects]. fold (present s).
    change (index_files basename "bowtie2")
      with (map (fun x => basename +:+ x +:+ "bt2")
                [".1."; ".2."; ".3."; ".4."; ".rev.1."; ".rev.2."]).
    destruct (forallb (present s) _); reflexivity. }
  destruct (String.eqb_spec tool "hisat") as [->|Hhs].
  - unfold verify_index. cbn [String.eqb Ascii.eqb Bool.eqb].
    change (tool_ext "hisat") with (@Ok string "bt2").
    cbn [lift]. rewrite bind_ret_l.
    unfold bind, all_exist. cbn [res fs_after effects]. fold (present s).
    change (index_files basename "hisat")
      with (map (fun x => basename +:+ x +:+ "bt2")
                [".1."; ".2."; ".3."; ".4."; ".rev.1."; ".rev.2."]
            ++ map (fun x => basename +:+ x +:+ "bt2")
                   [".5."; ".6."; ".rev.5."; ".rev.6."]).
    rewrite forallb_app.
    destruct (forallb (present s) _); reflexivity.
  - unfold verify_index, tool_exe, tool_ext, index_files.
    apply String.eqb_neq in Hbwa, Hbt, Hbt2, Hhs.
    rewrite Hbwa, Hbt, Hbt2, Hhs. reflexivity.
Qed.

Lemma bind_probe {A B} (m : M A) (k : A -> M B) s a :
  m s = Outcome (Ok a) s [] -> bind m k s = k a s.
Proof.
  intros H. unfold bind. rewrite H. cbn [res fs_after effects app].
  destruct (k a s); reflexivity.
Qed.

Lemma exists_outcome p s : exists_ p s = Outcome (Ok (present s p)) s [].
Proof. reflexivity. Qed.

Lemma isfile_outcome p s :
  isfile p s = Outcome (Ok (regular_file s (Some p))) s [].
Proof. reflexivity. Qed.

Lemma verify_reads_outcome (fns : list (option string)) (s : fs) :
  verify_reads fns s
  = Outcome (if forallb (regular_file s) fns then Ok true
             else Raise (RuntimeError "No such reads file")) s [].
Proof.
  unfold verify_reads.
  induction fns as [|fn fns IH].
  - reflexivity.
  - cbn [for_each forallb]. rewrite bind_assoc.
    destruct fn as [p|].
    + rewrite bind_assoc.
      rewrite (bind_probe _ _ _ _ (exists_outcome p s)).
      unfold present. cbn [regular_file].
      destruct (s !! p) as [[n|]|] eqn:Hp; cbn [negb].
      * rewrite bind_assoc.
        rewrite (bind_probe _ _ _ _ (isfile_outcome p s)).
        cbn [regular_file]. rewrite Hp. cbn [negb andb].
        rewrite bind_ret_l. exact IH.
      * rewrite bind_assoc.
        rewrite (bind_probe _ _ _ _ (isfile_outcome p s)).
        cbn [regular_file]. rewrite Hp. cbn [negb andb].
        rewrite bind_raise_l. reflexivity.
      * rewrite bind_raise_l. reflexivity.
    + rewrite bind_ret_l. exact IH.
Qed.

(** X7: [verify_reads] is a probe as well.  It returns [True] when every name
    that is given is the name of a regular file, and raises otherwise: a
    directory is not accepted, and [False] is never returned. *)
Theorem verify_reads_regular (fns : list (option string)) (s : fs) :
  verify_reads fns s
  = Outcome (if forallb (regular_file s) fns then Ok true
             else Raise (RuntimeError "No such reads file")) s [].
Proof. apply verify_reads_outcome. Qed.

(** ** The partitioner *)

Section Partitioner.

Variable shell : string -> fs -> Z * fs.

Lemma slice_all_fastq_checks reads_per n ifn ofn s u s' evs :
  runs (slice_all_fastq shell reads_per n ifn ofn) s u s' evs ->
  s' = (shell (slice_all_cmd reads_per n ifn ofn) s).2 /\
  forall i, 0 <= i < n ->
    exists lab, slice_lab i = Ok lab
                /\ s' !! (ofn +:+ lab) = Some (File (reads_per * 4)).
Proof.
  unfold slice_all_fastq. intros H.
  apply runs_bind_inv in H as ([] & s1 & e1 & e2 & H1 & H & ->).
  apply runs_assert_inv in H1 as (_ & -> & ->).
  apply runs_bind_inv in H as (r & s1 & e1 & e3 & H1 & H & ->).
  unfold runs, os_system in H1.
  destruct (shell _ s) as [r' s1'] eqn:Hsh. injection H1 as -> -> <-.
  cbn [snd].
  destruct (negb (r =? 0)); [destruct (runs_raise_inv _ _ _ _ _ H)|].
  apply for_each_probe in H as (-> & -> & Hall).
  - split; [reflexivity|]. intros i Hi.
    specialize (Hall i (proj2 (in_py_range n i) Hi)).
    apply runs_bind_inv in Hall as (lab & s2 & e4 & e5 & Hl & Hall & _).
    apply runs_lift_inv in Hl as (Hl & -> & ->).
    apply runs_bind_inv in Hall as (k & s2 & e6 & e7 & Hw & Hall & _).
    apply runs_wcl_inv in Hw as (Hw & -> & ->).
    exists lab. split; [exact Hl|].
    destruct (Z.eqb_spec k (reads_per * 4)) as [->|]; [exact Hw|].
    destruct (runs_raise_inv _ _ _ _ _ Hall).
  - clear. intros i s u s' evs H.
    apply runs_bind_inv in H as (lab & s2 & e4 & e5 & Hl & H & ->).
    apply runs_lift_inv in Hl as (Hl & -> & ->).
    apply runs_bind_inv in H as (k & s2 & e6 & e7 & Hw & H & ->).
    apply runs_wcl_inv in Hw as (Hw & -> & ->).
    destruct (negb (k =? reads_per * 4)).
    + destruct (runs_raise_inv _ _ _ _ _ H).
    + apply runs_ret_inv in H as (_ & -> & ->). auto.
Qed.

Lemma expected_slices_probe a tmpdir i s l s' evs :
  runs (expected_slices a tmpdir i) s l s' evs ->
  s' = s /\ evs = [] /\
  exists lab, slice_lab i = Ok lab
    /\ is_Some (s !! Py.join tmpdir ("1_" +:+ lab))
    /\ (forall m2, a_m2 a = Some m2 ->
          is_Some (s !! Py.join tmpdir ("2_" +:+ lab))).
Proof.
  unfold expected_slices. intros H.
  apply runs_bind_inv in H as (lab & s2 & e4 & e5 & Hl & H & ->).
  apply runs_lift_inv in Hl as (Hl & -> & ->).
  apply runs_bind_inv in H as (e0 & s2 & e6 & e7 & He & H & ->).
  apply runs_exists_inv in He as (-> & -> & ->).
  destruct (s !! Py.join tmpdir ("1_" +:+ lab)) as [n0|] eqn:E0; cbn [negb] in H;
    [|destruct (runs_raise_inv _ _ _ _ _ H)].
  destruct (a_m2 a) as [m2|].
  - apply runs_bind_inv in H as (e1 & s2 & e8 & e9 & He & H & ->).
    apply runs_exists_inv in He as (-> & -> & ->).
    destruct (s !! Py.join tmpdir ("2_" +:+ lab)) as [n1|] eqn:E1; cbn [negb] in H;
      [|destruct (runs_raise_inv _ _ _ _ _ H)].
    apply runs_ret_inv in H as (_ & -> & ->).
    repeat split. exists lab. rewrite E0. eauto.
  - apply runs_ret_inv in H as (_ & -> & ->).
    repeat split. exists lab. rewrite E0. split; [exact Hl|].
    split; [eauto|]. discriminate.
Qed.

(** C9 (as amended): in the MP and MP+MT regimes, a returning
    [prepare_reads] has checked that every expected mate-1 slice, and every
    expected mate-2 slice when mate 2 is declared, had exactly 4 x
    readsPerProcess lines right after its split and exists at the end, and
    that the one mate-1 file with the next label, [1_<slice_lab nprocess>],
    does not exist; a violation of any of these makes it raise.  It looks
    for no other file beyond the expected ones.  [s1] is the file system
    after the mate-1 split, [s2] the one after the last split. *)
Theorem prepare_reads_postconditions (a : args) (nthread mp_mt : Z)
    (tmpdir : string) (blocked : bool) (s : fs) (rs : list (list string)) :
  0 < mp_mt ->
  res (prepare_reads shell a nthread mp_mt tmpdir blocked s) = Ok rs ->
  let nprocess := int_plus_eps (nthread / mp_mt) in
  let per_process :=
    int_plus_eps (a_reads_per_thread a * nthread / nprocess) in
  let s1 :=
    (shell (slice_all_cmd per_process nprocess (a_m1 a) (Py.join tmpdir "1_"))
           s).2 in
  let s2 := fs_after (prepare_reads shell a nthread mp_mt tmpdir blocked s) in
  (forall i, 0 <= i < nprocess ->
     exists lab,
       slice_lab i = Ok lab /\
       s1 !! Py.join tmpdir ("1_" +:+ lab) = Some (File (per_process * 4)) /\
       is_Some (s2 !! Py.join tmpdir ("1_" +:+ lab)) /\
       (forall m2, a_m2 a = Some m2 ->
          s2 !! Py.join tmpdir ("2_" +:+ lab)
          = Some (File (per_process * 4)))) /\
  (exists lab,
     slice_lab nprocess = Ok lab /\
     s2 !! Py.join tmpdir ("1_" +:+ lab) = None).
Proof.
  intros Hmp Hres nprocess per_process s1 s2.
  apply res_ok_runs in Hres. fold s2 in Hres. revert Hres.
  generalize (effects (prepare_reads shell a nthread mp_mt tmpdir blocked s)).
  intros evs H. unfold prepare_reads in H.
  destruct (Z.ltb_spec 0 mp_mt) as [_|]; [|lia].
  destruct blocked; [destruct (runs_raise_inv _ _ _ _ _ H)|].
  apply runs_bind_inv in H as ([] & s0 & e1 & e2 & H1 & H & ->).
  apply runs_assert_inv in H1 as (_ & -> & ->).
  apply runs_bind_inv in H as (q & s0 & e1 & e3 & H1 & H & ->).
  apply runs_lift_inv in H1 as (Hq & -> & ->).
  unfold py_div in Hq. fold nprocess in Hq, H.
  destruct (Z.eqb nprocess 0); [discriminate|]. injection Hq as <-.
  fold per_process in H.
  apply runs_bind_inv in H as ([] & s1' & e1 & e4 & H1 & H & ->).
  apply slice_all_fastq_checks in H1 as (Hs1 & Hm1). fold s1 in Hs1. subst s1'.
  apply runs_bind_inv in H as ([] & s2' & e5 & e6 & H2 & H & ->).
  apply runs_bind_inv in H as (rs' & s3 & e7 & e8 & H3 & H & ->).
  apply for_collect_probe in H3 as (-> & -> & Hall);
    [|intros x t b t' ev Hx; apply expected_slices_probe in Hx; tauto].
  apply runs_bind_inv in H as (labx & s3 & e9 & e10 & Hl & H & ->).
  apply runs_lift_inv in Hl as (Hlx & -> & ->).
  apply runs_bind_inv in H as (ex & s3 & e11 & e12 & He & H & ->).
  apply runs_exists_inv in He as (-> & -> & ->).
  destruct (s2' !! Py.join tmpdir ("1_" +:+ labx)) eqn:Ex;
    [destruct (runs_raise_inv _ _ _ _ _ H)|].
  apply runs_ret_inv in H as (-> & -> & _).
  split; [|exists labx; auto].
  intros i Hi.
  destruct (Hm1 i Hi) as (lab & Hlab & Hcount).
  exists lab. split; [exact Hlab|].
  rewrite join_app by (reflexivity || discriminate).
  split; [exact Hcount|].
  assert (Hin : In i (py_range nprocess)) by (apply in_py_range; exact Hi).
  apply (Forall2_lookup_l _ _ _ (Z.to_nat i) i) in Hall as (l & _ & Hl).
  2:{ unfold py_range. rewrite list_lookup_fmap, lookup_seq_lt by lia.
      cbn. f_equal. lia. }
  apply expected_slices_probe in Hl as (_ & _ & lab' & Hlab' & Hex1 & Hex2).
  rewrite Hlab in Hlab'. injection Hlab' as <-.
  rewrite join_app in Hex1 by (reflexivity || discriminate).
  split; [exact Hex1|].
  intros m2 Hm2. rewrite Hm2 in H2.
  apply slice_all_fastq_checks in H2 as (_ & Hm2c).
  destruct (Hm2c i Hi) as (lab2 & Hlab2 & Hcount2).
  rewrite Hlab in Hlab2. injection Hlab2 as <-.
  rewrite join_app by (reflexivity || discriminate). exact Hcount2.
Qed.

End Partitioner.

Lemma prepare_reads_postconditions_witness :
  exists lab,
    slice_lab (int_plus_eps (4 / 2)) = Ok lab /\
    fs_after (prepare_reads shell_idle paired_args 4 2 "tmp/x/pe" false
                (delete "tmp/x/pe/2_aac" fs_extra_mate2))
      !! Py.join "tmp/x/pe" ("1_" +:+ lab) = None.
Proof.
  refine (proj2 (prepare_reads_postconditions shell_idle paired_args 4 2
                   "tmp/x/pe" false (delete "tmp/x/pe/2_aac" fs_extra_mate2)
                   [["tmp/x/pe/1_aaa"; "tmp/x/pe/2_aaa"];
                    ["tmp/x/pe/1_aab"; "tmp/x/pe/2_aab"]] _ _)).
  - lia.
  - vm_compute. reflexivity.
Defined.

(** C9 (as stated) fails: with mate 2 declared and a mate-2 slice beyond the
    expected two ([2_aac]) on disk, [prepare_reads] returns its read sets. *)
Lemma extra_mate2_slice_accepted :
  slice_lab 2 = Ok "aac" /\
  fs_extra_mate2 !! "tmp/x/pe/2_aac" = Some (File 8) /\
  res (prepare_reads shell_idle paired_args 4 2 "tmp/x/pe" false fs_extra_mate2)
  = Ok [["tmp/x/pe/1_aaa"; "tmp/x/pe/2_aaa"];
        ["tmp/x/pe/1_aab"; "tmp/x/pe/2_aab"]] /\
  fs_after (prepare_reads shell_idle paired_args 4 2 "tmp/x/pe" false
              fs_extra_mate2) !! "tmp/x/pe/2_aac" = Some (File 8).
Proof. repeat split; vm_compute; reflexivity. Qed.

(** Nor is a mate-1 slice beyond the expected two found when the slice right
    after them is missing: with [1_aad] on disk and no [1_aac],
    [prepare_reads] returns its read sets. *)
Lemma stray_mate1_slice_accepted :
  slice_lab 3 = Ok "aad" /\
  fs_stray_mate1 !! "tmp/x/pe/1_aad" = Some (File 8) /\
  res (prepare_reads shell_idle paired_args 4 2 "tmp/x/pe" false fs_stray_mate1)
  = Ok [["tmp/x/pe/1_aaa"; "tmp/x/pe/2_aaa"];
        ["tmp/x/pe/1_aab"; "tmp/x/pe/2_aab"]] /\
  fs_after (prepare_reads shell_idle paired_args 4 2 "tmp/x/pe" false
              fs_stray_mate1) !! "tmp/x/pe/1_aad" = Some (File 8).
Proof. repeat split; vm_compute; reflexivity. Qed.

(** ** The partitioner with one process, and its early failures *)

Section SingleProcess.

Variable shell : string -> fs -> Z * fs.

(** A returning [slice_fastq] has run its command, which succeeded, and
    has found the expected number of lines in the output. *)
Lemma runs_slice_fastq_inv b e ifn ofn s u s' evs :
  runs (slice_fastq shell b e ifn ofn) s u s' evs ->
  (shell (sed_cmd b e ifn ofn) s).1 = 0 /\
  s' = (shell (sed_cmd b e ifn ofn) s).2 /\
  evs = [Sys (sed_cmd b e ifn ofn)] /\
  s' !! ofn = Some (File ((e - b) * 4)).
Proof.
  unfold slice_fastq. fold (sed_cmd b e ifn ofn). intros H.
  apply runs_bind_inv in H as (r & s1 & e1 & e2 & H1 & H & ->).
  unfold runs in H1. rewrite os_system_outcome in H1.
  injection H1 as <- <- <-.
  destruct (Z.eqb_spec (shell (sed_cmd b e ifn ofn) s).1 0) as [Hr|_];
    cbn [negb] in H; [|destruct (runs_raise_inv _ _ _ _ _ H)].
  apply runs_bind_inv in H as (k & s2 & e3 & e4 & Hw & H & ->).
  apply runs_wcl_inv in Hw as (Hw & -> & ->).
  destruct (Z.eqb_spec k ((e - b) * 4)) as [->|_]; cbn [negb] in H;
    [|destruct (runs_raise_inv _ _ _ _ _ H)].
  apply runs_ret_inv in H as (_ & -> & ->). auto.
Qed.

(** X8: In the MT regime ([mp_mt] not positive) a returning [prepare_reads]
    has made one read set, whatever the number of threads: [1.fq], and
    [2.fq] when mate 2 is declared, in the directory of the reads.  Each
    was cut by one [sed] command from the blocked input when [blocked] is
    set and from the plain one otherwise, and had 4 x readsPerThread x
    nthread lines right after its command.  [s1] is the file system after
    the first command, [s2] the final one. *)
Theorem prepare_reads_single_set (a : args) (nthread mp_mt : Z)
    (tmpdir : string) (blocked : bool) (s : fs) (rs : list (list string)) :
  mp_mt <= 0 ->
  res (prepare_reads shell a nthread mp_mt tmpdir blocked s) = Ok rs ->
  let nreads := a_reads_per_thread a * nthread in
  let rds_1 := Py.join tmpdir "1.fq" in
  let rds_2 := Py.join tmpdir "2.fq" in
  let cmd_1 :=
    sed_cmd 0 nreads (if blocked then a_m1b a else a_m1 a) rds_1 in
  let s1 := (shell cmd_1 s).2 in
  let s2 := fs_after (prepare_reads shell a nthread mp_mt tmpdir blocked s) in
  let cmds :=
    sys_cmds (effects (prepare_reads shell a nthread mp_mt tmpdir blocked s)) in
  s1 !! rds_1 = Some (File (nreads * 4)) /\
  match a_m2 a with
  | None => rs = [[rds_1]] /\ s2 = s1 /\ cmds = [cmd_1]
  | Some m2 =>
      let cmd_2 :=
        sed_cmd 0 nreads (if blocked then str_opt (a_m2b a) else m2) rds_2 in
      rs = [[rds_1; rds_2]] /\ s2 = (shell cmd_2 s1).2 /\
      s2 !! rds_2 = Some (File (nreads * 4)) /\ cmds = [cmd_1; cmd_2]
  end.
Proof.
  intros Hmp Hres. cbv zeta.
  apply res_ok_runs in Hres.
  remember (fs_after (prepare_reads shell a nthread mp_mt tmpdir blocked s))
    as s2 eqn:Es2.
  remember (effects (prepare_reads shell a nthread mp_mt tmpdir blocked s))
    as evs eqn:Eevs.
  clear Es2 Eevs. rename Hres into H.
  unfold prepare_reads in H.
  destruct (Z.ltb_spec 0 mp_mt) as [Hlt|_]; [lia|].
  apply runs_bind_inv in H as ([] & sa & e1 & e2 & H1 & H & ->).
  apply runs_slice_fastq_inv in H1 as (_ & -> & -> & Hf1).
  rewrite Z.sub_0_r in Hf1. split; [exact Hf1|].
  destruct (a_m2 a) as [m2|].
  - apply runs_bind_inv in H as ([] & sb & e3 & e4 & H2 & H & ->).
    apply runs_slice_fastq_inv in H2 as (_ & -> & -> & Hf2).
    rewrite Z.sub_0_r in Hf2.
    apply runs_ret_inv in H as (-> & -> & ->). auto.
  - apply runs_ret_inv in H as (-> & -> & ->). auto.
Qed.

(** X9: In the MP regimes the name of the mate-1 input must not contain the
    word [block]: when it does, [prepare_reads] stops on the assertion of
    [slice_all_fastq] before any command is run. *)
Theorem prepare_reads_block_in_name (a : args) (nthread mp_mt : Z)
    (tmpdir : string) (s : fs) :
  0 < mp_mt -> 0 < nthread -> nthread mod mp_mt = 0 ->
  Py.contains (a_m1 a) "block" = true ->
  prepare_reads shell a nthread mp_mt tmpdir false s
  = Outcome (Raise AssertionError) s [].
Proof.
  intros Hmp Hn Hdiv Hblock. unfold prepare_reads.
  destruct (Z.ltb_spec 0 mp_mt) as [_|]; [|lia].
  rewrite Hdiv. cbn [Z.eqb assert_]. rewrite bind_ret_l.
  assert (Hq : 0 < nthread / mp_mt).
  { apply Z.div_str_pos. split; [lia|].
    destruct (Z_lt_le_dec nthread mp_mt) as [Hsmall|]; [|lia].
    rewrite Z.mod_small in Hdiv by lia. lia. }
  unfold int_plus_eps at 1 2.
  destruct (Z.ltb_spec (nthread / mp_mt) 0) as [|_]; [lia|].
  unfold py_div.
  destruct (Z.eqb_spec (nthread / mp_mt) 0) as [|_]; [lia|].
  cbn [lift]. rewrite bind_ret_l.
  unfold slice_all_fastq. rewrite Hblock. cbn [negb assert_].
  rewrite !bind_assoc. apply bind_raise_l.
Qed.

(** X10: With no thread at all the MP regimes divide by the number of
    processes, which is zero: [prepare_reads] raises [ZeroDivisionError]
    before any command is run. *)
Theorem prepare_reads_zero_threads (a : args) (mp_mt : Z) (tmpdir : string)
    (s : fs) :
  0 < mp_mt ->
  prepare_reads shell a 0 mp_mt tmpdir false s
  = Outcome (Raise ZeroDivisionError) s [].
Proof.
  intros Hmp. unfold prepare_reads.
  destruct (Z.ltb_spec 0 mp_mt) as [_|]; [|lia].
  rewrite Z.mod_0_l, Z.div_0_l by lia.
  cbn [Z.eqb assert_]. rewrite bind_ret_l. reflexivity.
Qed.

End SingleProcess.

Lemma prepare_reads_single_set_witness :
  (shell_sed (sed_cmd 0 4 "r1.fq" "tmp/x/unp/1.fq") ∅).2 !! "tmp/x/unp/1.fq"
  = Some (File 16).
Proof.
  refine (proj1 (prepare_reads_single_set shell_sed (unpaired_args false) 2 0
                   "tmp/x/unp" false ∅ [["tmp/x/unp/1.fq"]] _ _)).
  - lia.
  - vm_compute. reflexivity.
Defined.

Lemma prepare_reads_block_in_name_witness :
  prepare_reads shell_idle
    (Args "idx" [] "out" "build" "blocks/r1.fq" "r1b.fq" None None
          5%nat "tmp" None false false false false false false 1)
    4 2 "tmp" false ∅
  = Outcome (Raise AssertionError) ∅ [].
Proof.
  apply (prepare_reads_block_in_name shell_idle); [lia | lia | reflexivity | reflexivity].
Defined.

Lemma prepare_reads_zero_threads_witness :
  prepare_reads shell_idle paired_args 0 2 "tmp" false ∅
  = Outcome (Raise ZeroDivisionError) ∅ [].
Proof. apply (prepare_reads_zero_threads shell_idle). lia. Defined.

(** ** The build resolver *)

Section Resolver.

Variable shell : string -> fs -> Z * fs.
Variable os_makedirs : string -> fs -> option errno * fs.
Variable shutil_rmtree : string -> fs -> option errno * fs.


Lemma clone_cmd_head url branch d :
  exists r, clone_cmd url branch d = "git clone " +:+ r.
Proof. unfold clone_cmd. destruct (_ && _); cbn; eauto. Qed.

Ltac run H :=
  rewrite ?bind_assoc; rewrite (bind_ok _ _ _ _ _ _ H);
  cbn [res fs_after effects]; rewrite ?bind_assoc.



End Resolver.


(** ** Artifacts in place *)

Lemma processed_test (c : config) :
  processed c ->
  String.eqb (cf_name c) "name" && String.eqb (cf_branch c) "branch" = false.
Proof.
  intros H. apply andb_false_iff.
  destruct (String.eqb_spec (cf_name c) "name") as [Hn|]; [|auto].
  destruct (String.eqb_spec (cf_branch c) "branch") as [Hb|]; [|auto].
  destruct (H (conj Hn Hb)).
Qed.

(** The assertion [tool == last_tool], [last_tool] having been set to [tool]
    when it was empty. *)
Lemma tool_check (tool last : string) :
  String.eqb tool (if Nat.eqb (String.length last) 0 then tool else last) = true
  <-> last = "" \/ last = tool.
Proof.
  destruct last as [|ch last]; cbn [String.length Nat.eqb].
  - rewrite String.eqb_refl. tauto.
  - rewrite String.eqb_eq. split; [auto|]. intros [H|H]; [discriminate|auto].
Qed.

Lemma runs_for_fold_inv {A S} (body : S -> A -> M S) xs st s st' s' evs :
  runs (for_fold xs body st) s st' s' evs ->
  match xs with
  | [] => st' = st /\ s' = s /\ evs = []
  | x :: rest =>
      exists st1 s1 e1 e2,
        runs (body st x) s st1 s1 e1
        /\ runs (for_fold rest body st1) s1 st' s' e2 /\ evs = e1 ++ e2
  end.
Proof.
  destruct xs as [|x rest]; cbn [for_fold]; intros H.
  - apply runs_ret_inv in H. tauto.
  - apply runs_bind_inv in H as (st1 & s1 & e1 & e2 & H1 & H2 & ->). eauto 8.
Qed.

Section Reuse.

Variable shell : string -> fs -> Z * fs.
Variable os_makedirs : string -> fs -> option errno * fs.
Variable shutil_rmtree : string -> fs -> option errno * fs.

Ltac run H :=
  rewrite ?bind_assoc; rewrite (bind_ok _ _ _ _ _ _ H);
  cbn [res fs_after effects]; rewrite ?bind_assoc.

Lemma mark_entry_existing a d s :
  is_Some (s !! d) -> a_force_builds a = false ->
  mark_entry shutil_rmtree a d s = Outcome (Ok (false, true)) s [].
Proof.
  intros [nd Hd] Hf. unfold mark_entry, bind, exists_.
  cbn [res fs_after effects]. rewrite Hd, Hf. reflexivity.
Qed.

(** X11: An artifact directory that exists is taken as it is when neither
    [--force-builds] nor [--pull] is given: no command is run, no file is
    touched and no counter moves, whatever branch or flags the directory
    was built from; the entry is remembered as the previous one. *)
Theorem existing_build_reused (a : args) (st : build_state) (c : config)
    (s : fs) :
  processed c ->
  last_tool st = "" \/ last_tool st = cf_tool c ->
  is_Some (s !! build_dir_of a c) ->
  a_force_builds a = false -> a_pull a = false ->
  setup_entry shell os_makedirs shutil_rmtree a st c s
  = Outcome (Ok (remembered a c (npull st) (nbuild st) (ncopy st) (nlink st)))
            s [].
Proof.
  intros Hp Ht Hd Hf Hpull. unfold setup_entry.
  rewrite (processed_test c Hp).
  rewrite (proj2 (tool_check _ _) Ht). cbn [assert_].
  rewrite bind_ret_l.
  run (mark_entry_existing a _ s Hd Hf).
  rewrite Hpull. cbn [andb]. rewrite bind_ret_l. reflexivity.
Qed.

(** X12: With [--pull], an artifact directory that exists is updated with
    [git pull] and rebuilt with [make]: these two commands and no other.
    The exit status of [git pull] is not looked at; that of [make] alone
    decides between success and the error. *)
Theorem existing_build_pulled (a : args) (st : build_state) (c : config)
    (s : fs) (exe : string) :
  processed c ->
  last_tool st = "" \/ last_tool st = cf_tool c ->
  is_Some (s !! build_dir_of a c) ->
  a_force_builds a = false -> a_pull a = true ->
  tool_exe (cf_tool c) = Ok exe ->
  let build_dir := build_dir_of a c in
  let pulled := shell (pull_cmd build_dir) s in
  let made := shell (make_cmd build_dir (entry_preproc a c) exe) pulled.2 in
  setup_entry shell os_makedirs shutil_rmtree a st c s
  = Outcome
      (if made.1 =? 0 then
         Ok (remembered a c (npull st + 1) (nbuild st) (ncopy st) (nlink st))
       else Raise (RuntimeError "non-zero return from make"))
      made.2
      [Sys (pull_cmd build_dir);
       Sys (make_cmd build_dir (entry_preproc a c) exe)].
Proof.
  intros Hp Ht Hd Hf Hpull Hexe. cbv zeta. unfold setup_entry.
  rewrite (processed_test c Hp).
  rewrite (proj2 (tool_check _ _) Ht). cbn [assert_].
  rewrite bind_ret_l.
  run (mark_entry_existing a _ s Hd Hf).
  rewrite Hpull. cbn [andb].
  run (os_system_outcome shell (pull_cmd (build_dir_of a c)) s).
  unfold make_tool_version. rewrite Hexe. cbn [lift].
  rewrite ?bind_assoc, bind_ret_l.
  run (os_system_outcome shell
         (make_cmd (build_dir_of a c) (entry_preproc a c) exe)
         (shell (pull_cmd (build_dir_of a c)) s).2).
  destruct (Z.eqb_spec
              (shell (make_cmd (build_dir_of a c) (entry_preproc a c) exe)
                     (shell (pull_cmd (build_dir_of a c)) s).2).1 0);
    cbn [negb].
  - rewrite !bind_ret_l. reflexivity.
  - rewrite !bind_raise_l. reflexivity.
Qed.

(** What a returning [setup_entry] tells about the tools. *)
Lemma setup_entry_tool a st c s st' s' evs :
  runs (setup_entry shell os_makedirs shutil_rmtree a st c) s st' s' evs ->
  processed c ->
  (last_tool st = "" \/ last_tool st = cf_tool c)
  /\ last_tool st' = cf_tool c.
Proof.
  intros H Hp. unfold setup_entry in H.
  rewrite (processed_test c Hp) in H.
  apply runs_bind_inv in H as ([] & s1 & e1 & e2 & Ha & H & ->).
  apply runs_assert_inv in Ha as (Ha & -> & ->).
  apply tool_check in Ha. split; [exact Ha|].
  apply runs_bind_inv in H as ([build pull] & s2 & e3 & e4 & _ & H & ->).
  apply runs_bind_inv in H as ([[[np nb] nc] nl] & s3 & e5 & e6 & _ & H & ->).
  apply runs_ret_inv in H as (-> & _ & _). reflexivity.
Qed.

Lemma setup_entry_passed_over a st c s st' s' evs :
  runs (setup_entry shell os_makedirs shutil_rmtree a st c) s st' s' evs ->
  ~ processed c -> st' = st.
Proof.
  intros H Hp. unfold setup_entry in H.
  destruct (String.eqb_spec (cf_name c) "name") as [Hn|Hn];
    [|destruct Hp; intros [? _]; auto].
  destruct (String.eqb_spec (cf_branch c) "branch") as [Hb|Hb];
    [|destruct Hp; intros [_ ?]; auto].
  cbn [andb] in H. apply runs_ret_inv in H. tauto.
Qed.

Lemma processed_dec (c : config) : processed c \/ ~ processed c.
Proof.
  unfold processed.
  destruct (String.eqb_spec (cf_name c) "name");
    destruct (String.eqb_spec (cf_branch c) "branch"); tauto.
Qed.

Lemma setup_fold_tools a (cs : list config) :
  forall st s st' s' evs,
    runs (for_fold cs (setup_entry shell os_makedirs shutil_rmtree a) st) s st' s' evs ->
    last_tool st <> "" ->
    forall c, In c cs -> processed c -> cf_tool c = last_tool st.
Proof.
  induction cs as [|c0 cs IH]; intros st s st' s' evs H Hne c Hin Hp.
  - destruct Hin.
  - apply runs_for_fold_inv in H as (st1 & s1 & e1 & e2 & H1 & H2 & _).
    assert (Hst1 : last_tool st1 = last_tool st).
    { destruct (processed_dec c0) as [Hp0|Hp0].
      - destruct (setup_entry_tool _ _ _ _ _ _ _ H1 Hp0) as [[?|Hl] Hl'];
          congruence.
      - rewrite (setup_entry_passed_over _ _ _ _ _ _ _ H1 Hp0). reflexivity. }
    destruct Hin as [<-|Hin].
    + destruct (setup_entry_tool _ _ _ _ _ _ _ H1 Hp) as [[?|Hl] _]; congruence.
    + rewrite <- Hst1. apply (IH _ _ _ _ _ H2); [congruence | exact Hin | exact Hp].
Qed.

Lemma setup_fold_agree a (pre : list config) :
  forall c post st s st' s' evs,
    runs (for_fold (pre ++ c :: post) (setup_entry shell os_makedirs shutil_rmtree a) st) s st' s' evs ->
    processed c -> cf_tool c <> "" ->
    forall c', In c' post -> processed c' -> cf_tool c' = cf_tool c.
Proof.
  induction pre as [|c0 pre IH]; intros c post st s st' s' evs H Hp Hne c' Hin Hp';
    apply runs_for_fold_inv in H as (st1 & s1 & e1 & e2 & H1 & H2 & _).
  - destruct (setup_entry_tool _ _ _ _ _ _ _ H1 Hp) as [_ Hl].
    rewrite <- Hl. apply (setup_fold_tools _ _ _ _ _ _ _ H2); [congruence|auto..].
  - apply (IH _ _ _ _ _ _ _ H2); auto.
Qed.

(** X13: A catalog whose binaries are all set up names a single tool: when
    "Setting up binaries" completes, every entry it has processed after an
    entry with a tool has that same tool.  (The loop asserts it entry by
    entry, so a catalog that mixes tools stops with [AssertionError].) *)
Theorem single_tool_catalog (a : args) (s : fs) (st' : build_state)
    (pre post : list config) (c c' : config) :
  res (setup_binaries shell os_makedirs shutil_rmtree a s) = Ok st' ->
  (get_configs (a_config a)).1 = pre ++ c :: post ->
  In c' post ->
  processed c -> processed c' -> cf_tool c <> "" ->
  cf_tool c' = cf_tool c.
Proof.
  intros H Hcs Hin Hp Hp' Hne. apply res_ok_runs in H.
  unfold setup_binaries in H.
  destruct (get_configs (a_config a)) as [cs e]. cbn [fst] in Hcs. subst cs.
  apply runs_bind_inv in H as (st1 & s1 & e1 & e2 & H & _ & _).
  exact (setup_fold_agree _ _ _ _ _ _ _ _ _ H Hp Hne _ Hin Hp').
Qed.

End Reuse.

Lemma existing_build_reused_witness :
  setup_entry shell_idle makedirs_plain rmtree_plain (unpaired_args false) build_state0 entry_x fs_built_x
  = Outcome (Ok (remembered (unpaired_args false) entry_x 0 0 0 0))
            fs_built_x [].
Proof.
  apply (existing_build_reused shell_idle makedirs_plain rmtree_plain).
  - intros [H _]. discriminate H.
  - left. reflexivity.
  - exists Dir. reflexivity.
  - reflexivity.
  - reflexivity.
Defined.

Lemma existing_build_pulled_witness :
  setup_entry shell_idle makedirs_plain rmtree_plain pull_args build_state0 entry_x fs_built_x
  = Outcome (Ok (remembered pull_args entry_x 1 0 0 0)) fs_built_x
            [Sys "cd build/unp/x && git pull";
             Sys "make -e -C build/unp/x  bowtie2-align-s"].
Proof.
  apply (existing_build_pulled shell_idle makedirs_plain rmtree_plain pull_args build_state0 entry_x
           fs_built_x "bowtie2-align-s").
  - intros [H _]. discriminate H.
  - left. reflexivity.
  - exists Dir. reflexivity.
  - reflexivity.
  - reflexivity.
  - reflexivity.
Defined.

Lemma single_tool_catalog_witness : cf_tool entry_y = cf_tool entry_x.
Proof.
  apply (single_tool_catalog shell_idle makedirs_plain rmtree_plain two_entry_args fs_built_xy
           (remembered two_entry_args entry_y 0 0 0 0) [] [entry_y]).
  - vm_compute. reflexivity.
  - reflexivity.
  - left. reflexivity.
  - intros [H _]. discriminate H.
  - intros [H _]. discriminate H.
  - discriminate.
Defined.

(** ** The process supervisor *)

Section Supervisor.

Variable timeout : nat.

Lemma is_alive_false (st : sup_state) (b : behaviour) :
  is_alive st b = false <->
  exists e, end_time st b = Some e /\ (e <= clock st)%nat.
Proof.
  unfold is_alive. destruct (end_time st b) as [e|].
  - rewrite Nat.ltb_ge. split; [eauto|]. intros (e' & [= <-] & H). exact H.
  - split; [discriminate|]. intros (e & H & _). discriminate H.
Qed.

Lemma end_time_done_at (st st' : sup_state) (b : behaviour) :
  done_at st' = done_at st -> end_time st' b = end_time st b.
Proof. unfold end_time. intros ->. reflexivity. Qed.

Lemma end_time_cancelled (st : sup_state) (b : behaviour) (t : nat) :
  done_at st = Some t -> exists e, end_time st b = Some e.
Proof.
  unfold end_time. intros ->. destruct (natural_end b); eauto.
Qed.

Lemma join_all_cancelled (procs : list behaviour) :
  forall j st t,
    done_at st = Some t ->
    exists st' evs,
      join_all j procs st = Some (st', evs) /\
      done_at st' = Some t /\ (clock st <= clock st')%nat /\
      forall b, In b procs -> is_alive st' b = false.
Proof.
  induction procs as [|b rest IH]; intros j st t Hd; cbn [join_all].
  - exists st, []. repeat split; auto. intros b [].
  - destruct (end_time_cancelled st b t Hd) as [e He].
    unfold join. rewrite He.
    destruct (IH (S j) (SupState (Nat.max (clock st) e) (done_at st)) t Hd)
      as (st' & evs & -> & Hd' & Hc & Hdead).
    cbn [clock] in Hc.
    exists st', (wrapper_events j st b ++ JoinProc j :: evs).
    repeat split; auto; [lia|].
    intros b' [<-|Hin]; [|auto].
    apply is_alive_false. exists e. split; [|lia].
    rewrite (end_time_done_at st st') by congruence. exact He.
Qed.

Lemma join_timed_dead (st : sup_state) (b : behaviour) :
  is_alive st b = false -> join_timed timeout st b = st.
Proof.
  intros H. apply is_alive_false in H as (e & He & Hle).
  unfold join_timed. rewrite He.
  destruct (Nat.leb_spec e (clock st + timeout)); [|lia].
  destruct st as [c d]. cbn in *. f_equal. lia.
Qed.

Lemma join_timed_done_at (st : sup_state) (b : behaviour) :
  done_at (join_timed timeout st b) = done_at st.
Proof.
  unfold join_timed. destruct (end_time st b) as [e|]; [|reflexivity].
  destruct (Nat.leb e _); reflexivity.
Qed.

Lemma join_loop_app (all xs ys : list behaviour) :
  forall i r,
    join_loop timeout all i (xs ++ ys) r
    = match join_loop timeout all i xs r with
      | Some r' => join_loop timeout all (i + length xs) ys r'
      | None => None
      end.
Proof.
  induction xs as [|x xs IH]; intros i r; cbn [join_loop app length].
  - rewrite Nat.add_0_r. reflexivity.
  - destruct (join_step timeout all r i x) as [r'|]; [|reflexivity].
    rewrite IH. replace (S i + length xs)%nat with (i + S (length xs))%nat by lia.
    reflexivity.
Qed.

Lemma join_loop_handled (all : list behaviour) :
  forall done todo,
    all = done ++ todo ->
    exists r, join_loop timeout all 0 done sup0 = Some r /\ handled timeout all done r.
Proof.
  induction done as [|b done IH] using rev_ind; intros todo Hall.
  - exists sup0. split; [reflexivity|]. split; cbn.
    + constructor.
    + intros _ k. rewrite lookup_nil. split; [discriminate|lia].
    + discriminate.
  - rewrite <- app_assoc in Hall. cbn [app] in Hall.
    destruct (IH (b :: todo) Hall) as (r & Hr & [Hcodes Hquiet Hcanc]).
    rewrite join_loop_app, Hr. cbn [join_loop length Nat.add].
    rewrite ?Nat.add_0_l.
    assert (Hlen : length (sr_exitlevels r) = length done)
      by (symmetry; eapply Forall2_length; eassumption).
    unfold join_step.
    destruct (done_at (sr_state r)) as [t|] eqn:Hd.
    + (* the flag is set already: every process has ended *)
      destruct (Hcanc t eq_refl) as (Hdead & Hset & k & Hexp & Hk & Hnone & Hrest).
      assert (Hb : is_alive (sr_state r) b = false).
      { apply Hdead. rewrite Hall. apply in_or_app. right. left. reflexivity. }
      rewrite (join_timed_dead _ _ Hb), Hb.
      eexists. split; [reflexivity|]. split; cbn [sr_state sr_exitlevels sr_events].
      * apply Forall2_app; [exact Hcodes|]. constructor; [auto|constructor].
      * rewrite Hd. discriminate.
      * intros t' Ht'. split; [exact Hdead|].
        split; [apply in_or_app; left; exact Hset|].
        exists k. split; [exact Hexp|]. rewrite length_app. cbn.
        split; [lia|]. split.
        { rewrite lookup_app_l by lia. exact Hnone. }
        intros i b' Hi Hik.
        destruct (Nat.lt_ge_cases i (length done)) as [Hlt|Hge].
        -- rewrite lookup_app_l in Hi by lia.
           rewrite lookup_app_l by lia. eauto.
        -- rewrite lookup_app_r in Hi by lia.
           rewrite lookup_app_r by lia. rewrite Hlen.
           destruct (i - length done)%nat as [|n]; [|destruct n; discriminate].
           cbn in *. congruence.
    + (* no wait has expired so far *)
      set (st1 := join_timed timeout (sr_state r) b).
      assert (Hd1 : done_at st1 = None)
        by (unfold st1; rewrite join_timed_done_at; exact Hd).
      destruct (is_alive st1 b) eqn:Halive.
      * destruct (join_all_cancelled all 0 (set_done st1) (clock st1))
          as (st2 & evs & -> & Hd2 & _ & Hdead).
        { unfold set_done. cbn. rewrite Hd1. reflexivity. }
        eexists. split; [reflexivity|].
        split; cbn [sr_state sr_exitlevels sr_events].
        -- apply Forall2_app; [exact Hcodes|]. constructor; [auto|constructor].
        -- rewrite Hd2. discriminate.
        -- intros t' _. split; [exact Hdead|].
           split; [apply in_or_app; right; right; left; reflexivity|].
           exists (length done). split.
           { exists b, r. split; [|split].
             - rewrite Hall. apply list_lookup_middle. reflexivity.
             - replace (take (length done) all) with done
                 by (rewrite Hall, take_app_length; reflexivity).
               exact Hr.
             - exact Halive. }
           rewrite length_app. cbn. split; [lia|]. split.
           { rewrite lookup_app_r by lia. rewrite Hlen, Nat.sub_diag. reflexivity. }
           intros i b' Hi Hik.
           destruct (Nat.lt_ge_cases i (length done)) as [Hlt|Hge].
           ++ rewrite lookup_app_l in Hi by lia.
              rewrite lookup_app_l by lia.
              destruct (Forall2_lookup_l _ _ _ _ _ Hcodes Hi) as (x & Hx & [->| ->]).
              ** destruct (proj1 (Hquiet eq_refl i) Hx).
              ** exact Hx.
           ++ rewrite lookup_app_r in Hi by lia.
              destruct (i - length done)%nat as [|n] eqn:E; [lia|].
              destruct n; discriminate.
      * eexists. split; [reflexivity|].
        split; cbn [sr_state sr_exitlevels sr_events].
        -- apply Forall2_app; [exact Hcodes|]. constructor; [auto|constructor].
        -- intros _ k. split.
           ++ intros Hk.
              destruct (Nat.lt_ge_cases k (length done)) as [Hlt|Hge].
              ** rewrite lookup_app_l in Hk by lia.
                 exact (proj1 (Hquiet eq_refl k) Hk).
              ** rewrite lookup_app_r in Hk by lia. rewrite Hlen in Hk.
                 destruct (k - length done)%nat as [|n]; [discriminate|].
                 destruct n; discriminate.
           ++ rewrite length_app. cbn. intros Hk.
              destruct (Nat.eq_dec k (length done)) as [->|Hne].
              ** intros (b' & r' & Hb' & Hpre & Hal).
                 replace (take (length done) all) with done in Hpre
                   by (rewrite Hall, take_app_length; reflexivity).
                 fold sup0 in Hpre. rewrite Hr in Hpre. injection Hpre as <-.
                 assert (b' = b) as ->.
                 { rewrite Hall, list_lookup_middle in Hb' by reflexivity.
                   congruence. }
                 fold st1 in Hal. congruence.
              ** apply (Hquiet eq_refl k). lia.
        -- intros t' Ht'. fold st1 in Ht'. congruence.
Qed.

Lemma supervise_handled (procs : list behaviour) :
  exists r, supervise timeout procs = Some r /\ handled timeout procs procs r.
Proof.
  unfold supervise. apply (join_loop_handled procs procs []).
  symmetry. apply app_nil_r.
Qed.

Lemma killed_by_flag_exitcode (t : nat) (b : behaviour) :
  killed_by_flag t b = true -> exitcode b = 0.
Proof.
  unfold killed_by_flag, natural_end, exitcode.
  destruct (b_spawns b); [reflexivity|]. cbn. discriminate.
Qed.

Lemma wait_expires_sets_done (procs : list behaviour) (i : nat) (r : sup_result) :
  wait_expires timeout procs i -> supervise timeout procs = Some r ->
  exists t, done_at (sr_state r) = Some t.
Proof.
  intros Hexp Hsup.
  destruct (supervise_handled procs) as (r' & Hr' & [_ Hquiet _]).
  rewrite Hsup in Hr'. injection Hr' as <-.
  destruct (done_at (sr_state r)) as [t|]; [eauto|].
  exfalso. apply (proj2 (Hquiet eq_refl i)); [|exact Hexp].
  destruct Hexp as (b & _ & Hb & _). apply lookup_lt_Some in Hb. exact Hb.
Qed.

End Supervisor.

(** ** The duration of the joining loop *)

Section Durations.

Variable timeout : nat.

(** A timed wait never lasts longer than the time-out. *)
Lemma join_timed_clock (st : sup_state) (b : behaviour) :
  (clock st <= clock (join_timed timeout st b) <= clock st + timeout)%nat.
Proof.
  unfold join_timed. destruct (end_time st b) as [e|]; [|cbn; lia].
  destruct (Nat.leb_spec e (clock st + timeout)); cbn; lia.
Qed.

(** Once the flag is set at [t], every wrapper has ended by [t + 1]. *)
Lemma join_clock (st st1 : sup_state) (b : behaviour) (t : nat) :
  done_at st = Some t -> (clock st <= t + 1)%nat ->
  join st b = Some st1 ->
  done_at st1 = Some t /\ (clock st1 <= t + 1)%nat.
Proof.
  intros Hd Hc H. unfold join, end_time in H. rewrite Hd in H.
  destruct (natural_end b) as [e|]; injection H as <-;
    cbn [done_at clock]; rewrite ?Hd; split; auto; lia.
Qed.

Lemma join_all_clock (procs : list behaviour) :
  forall j st t st' evs,
    done_at st = Some t -> (clock st <= t + 1)%nat ->
    join_all j procs st = Some (st', evs) ->
    done_at st' = Some t /\ (clock st' <= t + 1)%nat.
Proof.
  induction procs as [|b procs IH]; intros j st t st' evs Hd Hc H;
    cbn [join_all] in H.
  - injection H as <- _. auto.
  - destruct (join st b) as [st1|] eqn:Hj; [|discriminate].
    destruct (join_clock _ _ _ _ Hd Hc Hj) as [Hd1 Hc1].
    destruct (join_all (S j) procs st1) as [[st2 evs2]|] eqn:E;
      [|discriminate].
    injection H as <- _. exact (IH _ _ _ _ _ Hd1 Hc1 E).
Qed.

(** The time spent in the joining loop once [done] have been handled. *)
Lemma join_loop_clock (all : list behaviour) :
  forall done todo r,
    all = done ++ todo ->
    join_loop timeout all 0 done sup0 = Some r ->
    (done_at (sr_state r) = None ->
     (clock (sr_state r) <= length done * timeout)%nat) /\
    (forall t, done_at (sr_state r) = Some t ->
       (t <= length done * timeout)%nat /\ (clock (sr_state r) <= t + 1)%nat).
Proof.
  induction done as [|b done IH] using rev_ind; intros todo r Hall H.
  - injection H as <-. cbn. split; [lia|discriminate].
  - rewrite join_loop_app in H.
    destruct (join_loop_handled timeout all done (b :: todo))
      as (r0 & Hr0 & Hh).
    { rewrite Hall, <- app_assoc. reflexivity. }
    rewrite Hr0 in H. cbn [join_loop] in H.
    destruct (IH (b :: todo) r0) as [Hq Hc]; [|exact Hr0|].
    { rewrite Hall, <- app_assoc. reflexivity. }
    rewrite length_app. cbn [length].
    pose proof (join_timed_clock (sr_state r0) b) as Hjt.
    pose proof (join_timed_done_at timeout (sr_state r0) b) as Hjd.
    unfold join_step in H.
    destruct (done_at (sr_state r0)) as [t|] eqn:Hd.
    + (* the flag is set: the process has ended, the wait returns at once *)
      destruct (Hc t eq_refl) as [Ht Hcl].
      destruct (h_cancelled _ _ _ _ Hh t Hd) as (Hdead & _).
      assert (Hb : is_alive (sr_state r0) b = false).
      { apply Hdead. rewrite Hall. apply in_or_app. left.
        apply in_or_app. right. left. reflexivity. }
      rewrite (join_timed_dead timeout _ _ Hb) in H. rewrite Hb in H.
      injection H as <-. cbn [sr_state]. rewrite Hd.
      split; [discriminate|]. intros t' [= <-]. lia.
    + specialize (Hq eq_refl).
      destruct (is_alive (join_timed timeout (sr_state r0) b) b).
      * destruct (join_all 0 all _) as [[st2 evs]|] eqn:E; [|discriminate].
        injection H as <-. cbn [sr_state].
        apply join_all_clock
          with (t := clock (join_timed timeout (sr_state r0) b)) in E.
        -- destruct E as [E1 E2]. rewrite E1.
           split; [discriminate|]. intros t' [= <-]. lia.
        -- unfold set_done. rewrite Hjd. reflexivity.
        -- cbn. lia.
      * injection H as <-. cbn [sr_state]. rewrite Hjd.
        split; [lia|discriminate].
Qed.

(** X14: The joining loop is bounded by the time-out per process, not for the
    group: with [n] processes it ends within [n * timeout] seconds when no
    wait expires, and at most one second later when one does. *)
Theorem supervise_duration (procs : list behaviour) (r : sup_result) :
  supervise timeout procs = Some r ->
  (clock (sr_state r)
   <= length procs * timeout + Z.to_nat (done_val (sr_state r)))%nat.
Proof.
  intros H.
  destruct (join_loop_clock procs procs [] r) as [Hq Hc];
    [symmetry; apply app_nil_r | exact H |].
  unfold done_val. destruct (done_at (sr_state r)) as [t|].
  - destruct (Hc t eq_refl). cbn. lia.
  - specialize (Hq eq_refl). cbn. lia.
Qed.

Lemma join_loop_quiet (all : list behaviour) :
  forall todo i r,
    Forall (fun b => exists e, natural_end b = Some e /\ (e <= timeout)%nat)
           todo ->
    done_at (sr_state r) = None ->
    exists st,
      done_at st = None /\
      join_loop timeout all i todo r
      = Some (SupResult st
                (sr_exitlevels r ++ map (fun b => Some (exitcode b)) todo)
                (sr_events r ++ map JoinTimed (seq i (length todo)))).
Proof.
  induction todo as [|b todo IH]; intros i r Hall Hd.
  - exists (sr_state r). cbn. rewrite !app_nil_r. destruct r; auto.
  - inversion Hall as [|? ? (e & He & Hle) Hrest]; subst.
    cbn [join_loop]. unfold join_step.
    assert (Hend : end_time (sr_state r) b = Some e).
    { unfold end_time. rewrite Hd. exact He. }
    assert (Hst : join_timed timeout (sr_state r) b
                  = SupState (Nat.max (clock (sr_state r)) e) None).
    { unfold join_timed. rewrite Hend, Hd.
      destruct (Nat.leb_spec e (clock (sr_state r) + timeout)); [reflexivity|lia]. }
    rewrite Hst.
    assert (Hdead : is_alive (SupState (Nat.max (clock (sr_state r)) e) None) b
                    = false).
    { unfold is_alive, end_time. cbn [done_at clock]. rewrite He.
      apply Nat.ltb_ge. lia. }
    rewrite Hdead.
    destruct (IH (S i)
                (SupResult (SupState (Nat.max (clock (sr_state r)) e) None)
                           (sr_exitlevels r ++ [Some (exitcode b)])
                           (sr_events r ++ [JoinTimed i])) Hrest eq_refl)
      as (st & Hst' & Hloop).
    exists st. split; [exact Hst'|]. rewrite Hloop.
    cbn [sr_exitlevels sr_events map seq length].
    rewrite <- !app_assoc. reflexivity.
Qed.

(** X15: A group whose wrappers all end by themselves within the time-out is
    left alone: the flag stays unset, nothing but the timed waits happens,
    and every process reports its own exit code. *)
Theorem supervise_quiet (procs : list behaviour) :
  Forall (fun b => exists e, natural_end b = Some e /\ (e <= timeout)%nat)
         procs ->
  exists r,
    supervise timeout procs = Some r /\
    done_val (sr_state r) = 0 /\
    sr_exitlevels r = map (fun b => Some (exitcode b)) procs /\
    sr_events r = map JoinTimed (seq 0 (length procs)).
Proof.
  intros H.
  destruct (join_loop_quiet procs procs 0%nat sup0 H eq_refl)
    as (st & Hst & Hloop).
  eexists. split; [exact Hloop|]. unfold done_val. cbn [sr_state].
  rewrite Hst. auto.
Qed.

End Durations.

Lemma supervise_duration_witness :
  exists r,
    supervise 5 two_slow = Some r /\ clock (sr_state r) = 10%nat /\
    (clock (sr_state r)
     <= length two_slow * 5 + Z.to_nat (done_val (sr_state r)))%nat.
Proof.
  eexists. split; [reflexivity|]. split; [reflexivity|].
  apply (supervise_duration 5 two_slow). reflexivity.
Defined.

Lemma supervise_quiet_witness :
  exists r,
    supervise 10 two_slow = Some r /\
    done_val (sr_state r) = 0 /\
    sr_exitlevels r = [Some 0; Some 0] /\
    sr_events r = [JoinTimed 0; JoinTimed 1].
Proof.
  apply (supervise_quiet 10 two_slow).
  repeat constructor; eexists; (split; [reflexivity|lia]).
Defined.

(** ** The trace of the joining loop *)

Section Signals.

Variable timeout : nat.

Lemma join_done_at (st st1 : sup_state) (b : behaviour) :
  join st b = Some st1 -> done_at st1 = done_at st.
Proof.
  unfold join. destruct (end_time st b); [|discriminate].
  intros [= <-]. reflexivity.
Qed.

(** The final joins, once the flag has been set at time [t]: every process
    of the group is joined, and exactly those that were running at [t]
    have sent [SIGTERM]. *)
Lemma join_all_members (procs : list behaviour) :
  forall j st t st' evs,
    done_at st = Some t ->
    join_all j procs st = Some (st', evs) ->
    Forall (fun e => exists i, e = Sigterm i \/ e = JoinProc i) evs /\
    (forall i, In (JoinProc i) evs <-> (j <= i < j + length procs)%nat) /\
    (forall i, In (Sigterm i) evs <->
               (j <= i)%nat /\
               exists b, procs !! (i - j)%nat = Some b
                         /\ killed_by_flag t b = true).
Proof.
  induction procs as [|b rest IH]; intros j st t st' evs Hd H;
    cbn [join_all] in H.
  - injection H as <- <-. split; [constructor|]. split; intros i.
    + cbn. split; [tauto|lia].
    + split; [intros []|]. intros (_ & b & Hb & _).
      rewrite lookup_nil in Hb. discriminate Hb.
  - destruct (join st b) as [st1|] eqn:Hj; [|discriminate].
    destruct (join_all (S j) rest st1) as [[st2 evs']|] eqn:Hr;
      [|discriminate].
    injection H as <- <-.
    assert (Hd1 : done_at st1 = Some t)
      by (rewrite (join_done_at _ _ _ Hj); exact Hd).
    destruct (IH _ _ _ _ _ Hd1 Hr) as (Hall & Hjoin & Hsig).
    unfold wrapper_events. rewrite Hd.
    split; [|split].
    + apply Forall_app. split.
      * destruct (killed_by_flag t b); repeat constructor. eauto.
      * constructor; [eauto|exact Hall].
    + intros i. rewrite in_app_iff. cbn [In length]. rewrite Hjoin.
      split.
      * intros [Hin|[[= <-]|Hin]]; [|lia|lia].
        destruct (killed_by_flag t b); [destruct Hin as [Hin|[]]|destruct Hin].
        discriminate Hin.
      * intros Hi. destruct (Nat.eq_dec i j) as [->|Hne]; [auto|].
        right. right. lia.
    + intros i. rewrite in_app_iff. cbn [In]. rewrite Hsig.
      split.
      * intros [Hin|[Hin|(Hle & b' & Hb' & Hk)]].
        -- destruct (killed_by_flag t b) eqn:Hk;
             [destruct Hin as [Hin|[]]|destruct Hin].
           injection Hin as <-. split; [lia|]. exists b.
           rewrite Nat.sub_diag. auto.
        -- discriminate Hin.
        -- split; [lia|]. exists b'. split; [|exact Hk].
           replace (i - j)%nat with (S (i - S j))%nat by lia. exact Hb'.
      * intros (Hle & b' & Hb' & Hk).
        destruct (Nat.eq_dec i j) as [->|Hne].
        -- rewrite Nat.sub_diag in Hb'. injection Hb' as <-.
           rewrite Hk. left. left. reflexivity.
        -- right. right. split; [lia|]. exists b'. split; [|exact Hk].
           replace (i - j)%nat with (S (i - S j))%nat in Hb' by lia.
           exact Hb'.
Qed.

Lemma join_loop_traced (all : list behaviour) :
  forall done todo,
    all = done ++ todo ->
    exists r,
      join_loop timeout all 0 done sup0 = Some r /\
      traced timeout all (length done) r.
Proof.
  induction done as [|b done IH] using rev_ind; intros todo Hall.
  - exists sup0. split; [reflexivity|]. unfold traced. cbn. reflexivity.
  - rewrite <- app_assoc in Hall. cbn [app] in Hall.
    destruct (IH (b :: todo) Hall) as (r & Hr & Htr).
    destruct (join_loop_handled timeout all done (b :: todo) Hall)
      as (r' & Hr' & [_ _ Hcanc]).
    fold sup0 in Hr. rewrite Hr in Hr'. injection Hr' as <-.
    rewrite join_loop_app, Hr. cbn [join_loop length Nat.add].
    rewrite ?Nat.add_0_l. rewrite length_app. cbn [length].
    unfold join_step. unfold traced in Htr |- *.
    destruct (done_at (sr_state r)) as [t|] eqn:Hd.
    + destruct (Hcanc t eq_refl) as (Hdead & _).
      assert (Hb : is_alive (sr_state r) b = false).
      { apply Hdead. rewrite Hall. apply in_or_app. right. left. reflexivity. }
      rewrite (join_timed_dead _ _ _ Hb), Hb.
      eexists. split; [reflexivity|]. cbn [sr_state sr_events]. rewrite Hd.
      destruct Htr as (k & final & Hk & Hexp & Hev & Hfinal).
      exists k, final. split; [lia|]. split; [exact Hexp|].
      split; [|exact Hfinal].
      rewrite Hev.
      replace (length done + 1 - S k)%nat with (S (length done - S k))%nat
        by lia.
      rewrite (seq_S (length done - S k) (S k)), map_app. cbn [map].
      replace (S k + (length done - S k))%nat with (length done) by lia.
      rewrite <- !app_assoc. cbn [app]. rewrite <- !app_assoc. reflexivity.
    + set (st1 := join_timed timeout (sr_state r) b).
      assert (Hd1 : done_at st1 = None)
        by (unfold st1; rewrite join_timed_done_at; exact Hd).
      destruct (is_alive st1 b) eqn:Halive.
      * destruct (join_all_cancelled all 0 (set_done st1) (clock st1))
          as (st2 & evs & Hja & Hd2 & _ & _).
        { unfold set_done. cbn. rewrite Hd1. reflexivity. }
        rewrite Hja.
        eexists. split; [reflexivity|]. cbn [sr_state sr_events]. rewrite Hd2.
        exists (length done), evs. split; [lia|]. split.
        { exists b, r. split; [|split].
          - rewrite Hall. apply list_lookup_middle. reflexivity.
          - replace (take (length done) all) with done
              by (rewrite Hall, take_app_length; reflexivity).
            exact Hr.
          - exact Halive. }
        split.
        { rewrite Htr. rewrite seq_S, map_app. cbn [map Nat.add].
          replace (length done + 1 - S (length done))%nat with 0%nat by lia.
          cbn [seq map]. rewrite app_nil_r, <- app_assoc. reflexivity. }
        destruct (join_all_members all 0 (set_done st1) (clock st1) st2 evs)
          as (Hf & Hjn & Hsg); [|exact Hja|].
        { unfold set_done. cbn. rewrite Hd1. reflexivity. }
        split; [exact Hf|]. split; intros i.
        -- rewrite Hjn. lia.
        -- rewrite Hsg, Nat.sub_0_r. split; [tauto|]. split; [lia|tauto].
      * eexists. split; [reflexivity|]. cbn [sr_state sr_events]. rewrite Hd1.
        rewrite Htr. rewrite Nat.add_1_r, seq_S, map_app. reflexivity.
Qed.

Lemma supervise_traced (procs : list behaviour) (r : sup_result) :
  supervise timeout procs = Some r ->
  traced timeout procs (length procs) r.
Proof.
  intros H.
  destruct (join_loop_traced procs procs [] (eq_sym (app_nil_r _)))
    as (r' & Hr' & Htr).
  unfold supervise in H. fold sup0 in H. rewrite H in Hr'.
  injection Hr' as <-. exact Htr.
Qed.

End Signals.

(** ** One repetition *)

Lemma py_range_head (n : Z) : 1 <= n -> exists rest, py_range n = 0 :: rest.
Proof.
  intros H. unfold py_range.
  destruct (Z.to_nat n) as [|k] eqn:E; [lia|]. cbn. eauto.
Qed.

Section Attempts.

Variable shell : string -> fs -> Z * fs.
Variable aligner : list string -> behaviour.
Variable darwin : bool.
Variable os_makedirs : string -> fs -> option errno * fs.

Lemma setup_sinks_value a c nprocess idx_rev run_names s sk :
  res (setup_sinks os_makedirs a c nprocess idx_rev run_names s) = Ok sk ->
  sk = sinks_of a c nprocess idx_rev run_names.
Proof.
  unfold setup_sinks. rewrite res_bind.
  destruct (res _) as [[]|e]; [|discriminate].
  intros [= <-]. reflexivity.
Qed.

(** Nothing is made for a repetition whose SAM output is discarded. *)
Lemma setup_sinks_discard a c nprocess idx_rev run_names s :
  (idx_rev =? 1) && negb (a_sam_dev_null a) = false ->
  setup_sinks os_makedirs a c nprocess idx_rev run_names s
  = Outcome (Ok (sinks_of a c nprocess idx_rev run_names)) s [].
Proof. unfold setup_sinks. intros ->. reflexivity. Qed.

Lemma sinks_ready_discard a c nthreads nprocess idx_rev s :
  (idx_rev =? 1) && negb (a_sam_dev_null a) = false ->
  sinks_ready os_makedirs a c nthreads nprocess idx_rev s.
Proof.
  intros H. eexists. rewrite (setup_sinks_discard _ _ _ _ _ _ H).
  reflexivity.
Qed.

Lemma record_outcome_effects a c run_name exitlevels s :
  effects (record_outcome shell a c run_name exitlevels s)
  = [Sys (touch_cmd a c run_name ".JOIN");
     Sys (touch_cmd a c run_name (status_ext (classify exitlevels)))].
Proof.
  unfold record_outcome, touch.
  rewrite !effects_bind, !res_bind, !os_system_outcome.
  cbn [res effects fs_after ret app].
  destruct (classify exitlevels); cbn [status_ext];
    rewrite ?effects_bind, ?res_bind, ?effects_bind, ?os_system_outcome;
    cbn [res effects fs_after ret app];
    try destruct (a_stop_on_fail a); reflexivity.
Qed.

Lemma res_start_workers ws s : res (for_each ws (start_worker aligner) s) = Ok tt.
Proof.
  apply res_for_each_total. intros [[cmd ofn] efn] s'. reflexivity.
Qed.

Lemma join_workers_outcome a ws r :
  supervise (a_timeout a) (map (fun w => aligner w.1.1) ws) = Some r ->
  forall s,
    join_workers aligner a ws s
    = Outcome (Ok (sr_exitlevels r)) s (sr_events r ++ []).
Proof. unfold join_workers. intros -> s. reflexivity. Qed.

(** Every repetition whose commands can be built runs the joining loop and
    then records the [JOIN] marker and the marker of its outcome. *)
Lemma attempt_sentinels a iostat_x c nthreads nprocess ntpp rs idx_rev ws s :
  1 <= nprocess ->
  sinks_ready os_makedirs a c nthreads nprocess idx_rev s ->
  workers_of a c nthreads nprocess ntpp rs idx_rev = Ok ws ->
  let run_name := run_name_of a c nthreads idx_rev 0 in
  exists r before rest,
    supervise (a_timeout a) (map (fun w => aligner w.1.1) ws) = Some r /\
    effects (attempt shell aligner darwin os_makedirs a iostat_x c nthreads nprocess ntpp
                     rs idx_rev s)
    = before
      ++ Sys (touch_cmd a c run_name ".JOIN")
         :: Sys (touch_cmd a c run_name
                           (status_ext (classify (sr_exitlevels r))))
         :: rest /\
    incl (sr_events r) before /\
    In (Attempt run_name nthreads idx_rev) before.
Proof.
  intros Hn [sk Hsk] Hws run_name.
  destruct (supervise_handled (a_timeout a) (map (fun w => aligner w.1.1) ws))
    as (r & Hr & _).
  exists r.
  assert (Hidx : py_index (run_names_of a c nthreads nprocess idx_rev) 0
                 = Ok run_name).
  { unfold run_names_of. destruct (py_range_head nprocess Hn) as [rest ->].
    reflexivity. }
  remember (effects (attempt shell aligner darwin os_makedirs a iostat_x c nthreads
                       nprocess ntpp rs idx_rev s)) as E eqn:HE.
  unfold attempt in HE. rewrite Hidx, Hws in HE. cbn [lift] in HE.
  rewrite bind_ret_l in HE.
  erewrite effects_bind_outcome in HE by apply emit_outcome.
  pose proof (outcome_eta (setup_sinks os_makedirs a c nprocess idx_rev
                (run_names_of a c nthreads nprocess idx_rev) s)) as Hss.
  rewrite Hsk in Hss.
  erewrite effects_bind_outcome in HE by exact Hss.
  rewrite bind_ret_l in HE.
  set (e_sinks := effects (setup_sinks _ _ _ _ _ _ s)) in HE.
  set (s1 := fs_after (setup_sinks _ _ _ _ _ _ s)) in HE.
  clearbody e_sinks s1. clear Hss.
  erewrite effects_bind_outcome in HE by apply open_w_outcome.
  erewrite effects_bind_outcome in HE by apply open_w_outcome.
  erewrite effects_bind_outcome in HE by apply os_system_outcome.
  destruct (shell (which "iostat") _) as [wi s2]. cbn [fst snd] in HE.
  erewrite effects_bind_outcome in HE by apply emit_when_outcome.
  erewrite effects_bind_outcome in HE by apply os_system_outcome.
  destruct (shell (which "top") _) as [wt s3]. cbn [fst snd] in HE.
  erewrite effects_bind_outcome in HE by apply emit_when_outcome.
  pose proof (outcome_eta (for_each ws (start_worker aligner) s3)) as Hst.
  rewrite res_start_workers in Hst.
  erewrite effects_bind_outcome in HE by exact Hst.
  set (e_start := effects (for_each ws _ s3)) in HE.
  set (s4 := fs_after (for_each ws _ s3)) in HE.
  clearbody e_start s4. clear Hst.
  erewrite effects_bind_outcome in HE
    by apply (join_workers_outcome a ws r Hr).
  erewrite effects_bind_outcome in HE by apply emit_when_outcome.
  erewrite effects_bind_outcome in HE by apply emit_when_outcome.
  rewrite effects_bind, record_outcome_effects in HE.
  match type of HE with
  | _ = _ ++ _ ++ _ ++ _ ++ _ ++ _ ++ _ ++ _ ++ _ ++ _ ++ _ ++ _ ++ _ ++ ?t =>
      set (tail := t) in HE
  end.
  exists ([Attempt run_name nthreads idx_rev] ++ e_sinks
          ++ [OpenW (Py.join (output_dir_of a c) (run_name +:+ ".top"))]
          ++ [OpenW (Py.join (output_dir_of a c) (run_name +:+ ".iostat"))]
          ++ [Sys (which "iostat")]
          ++ (if wi =? 0
              then [Popen (iostat_cmd iostat_x)
                      (Py.join (output_dir_of a c) (run_name +:+ ".iostat"))]
              else [])
          ++ [Sys (which "top")]
          ++ (if wt =? 0
              then [Popen (top_cmd darwin)
                      (Py.join (output_dir_of a c) (run_name +:+ ".top"))]
              else [])
          ++ e_start ++ (sr_events r ++ [])
          ++ (if wi =? 0 then [Kill (iostat_cmd iostat_x)] else [])
          ++ (if wt =? 0 then [Kill (top_cmd darwin)] else [])),
    tail.
  split; [exact Hr|]. split; [|split].
  - rewrite HE. repeat rewrite <- app_assoc. reflexivity.
  - intros e He. rewrite !in_app_iff. tauto.
  - left. reflexivity.
Qed.

End Attempts.

(** ** The workers a repetition starts *)

Lemma lookup_In {A} (l : list A) (i : nat) (x : A) : l !! i = Some x -> In x l.
Proof. intros H. apply list_elem_of_In, list_elem_of_lookup. eauto. Qed.

Lemma result_collect_In {A B} (f : A -> result B) (xs : list A) :
  forall ys, result_collect f xs = Ok ys ->
    forall y, In y ys -> exists x, In x xs /\ f x = Ok y.
Proof.
  induction xs as [|x xs IH]; intros ys H y Hy; cbn [result_collect] in H.
  - injection H as <-. destruct Hy.
  - destruct (f x) as [y0|] eqn:Hx; [|discriminate]. cbn [rbind] in H.
    destruct (result_collect f xs) as [ys0|]; [|discriminate]. cbn [rbind] in H.
    injection H as <-. destruct Hy as [<-|Hy].
    + exists x. split; [left; reflexivity|exact Hx].
    + destruct (IH ys0 eq_refl y Hy) as (x' & Hin & Hf). eauto using in_cons.
Qed.

Lemma ends_cons {A} (a : A) (l x : list A) :
  (exists pre, l = pre ++ x) -> exists pre, a :: l = pre ++ x.
Proof. intros [pre ->]. exists (a :: pre). reflexivity. Qed.

Lemma ends_app {A} (l1 l2 x : list A) :
  (exists pre, l2 = pre ++ x) -> exists pre, l1 ++ l2 = pre ++ x.
Proof. intros [pre ->]. exists (l1 ++ pre). apply app_assoc. Qed.

Lemma py_index_replicate {A} (n : nat) (x y : A) (k : nat) :
  py_index (replicate n x) k = Ok y -> y = x.
Proof.
  unfold py_index. destruct (replicate n x !! k) eqn:E; [|discriminate].
  intros [= <-]. apply lookup_replicate in E. tauto.
Qed.

Lemma lookup_map {A B} (f : A -> B) (l : list A) :
  forall k, map f l !! k = option_map f (l !! k).
Proof.
  induction l as [|x l IH]; intros [|k]; cbn; auto.
Qed.

Lemma py_range_lookup (n i : Z) :
  0 <= i < n -> py_range n !! Z.to_nat i = Some i.
Proof.
  intros H. unfold py_range. rewrite lookup_map.
  rewrite (proj2 (lookup_seq 0 (Z.to_nat n) (Z.to_nat i) (Z.to_nat i)))
    by (split; lia).
  cbn. f_equal. lia.
Qed.

Lemma py_index_map_range {B} (f : Z -> B) (n i : Z) (y : B) :
  0 <= i < n -> py_index (map f (py_range n)) (Z.to_nat i) = Ok y -> y = f i.
Proof.
  intros H. unfold py_index. rewrite lookup_map, (py_range_lookup n i H).
  cbn. intros [= <-]. reflexivity.
Qed.

Lemma in_effects_bind_inv {A B} (m : M A) (k : A -> M B) s x :
  In x (effects (bind m k s)) ->
  In x (effects (m s))
  \/ exists a, res (m s) = Ok a /\ In x (effects (k a (fs_after (m s)))).
Proof.
  rewrite effects_bind, in_app_iff. intros [H|H]; [auto|].
  destruct (res (m s)) as [a|e]; [eauto|destruct H].
Qed.

(** The events of the joining loop are those of the supervisor. *)
Lemma supervise_events (timeout : nat) (procs : list behaviour)
    (r : sup_result) (e : effect) :
  supervise timeout procs = Some r -> In e (sr_events r) ->
  (exists i, e = JoinTimed i) \/ e = SetDone
  \/ (exists i, e = Sigterm i) \/ (exists i, e = JoinProc i).
Proof.
  intros Hr Hin. apply supervise_traced in Hr. unfold traced in Hr.
  destruct (done_at (sr_state r)) as [t|].
  - destruct Hr as (k & final & _ & _ & Hev & Hf & _).
    rewrite Hev in Hin. rewrite in_app_iff in Hin. cbn [In] in Hin.
    rewrite in_app_iff in Hin.
    destruct Hin as [Hin|[<-|[Hin|Hin]]]; auto.
    + apply in_map_iff in Hin as (i & <- & _). eauto.
    + destruct (proj1 (List.Forall_forall _ _) Hf _ Hin) as (i & [->| ->]);
        eauto 6.
    + apply in_map_iff in Hin as (i & <- & _). eauto.
  - rewrite Hr in Hin. apply in_map_iff in Hin as (i & <- & _). eauto.
Qed.

Section Starts.

Variable shell : string -> fs -> Z * fs.
Variable aligner : list string -> behaviour.
Variable darwin : bool.
Variable os_makedirs : string -> fs -> option errno * fs.

Lemma effects_start_workers ws :
  forall s, effects (for_each ws (start_worker aligner) s)
            = map (fun w => Start w.1.1 w.1.2 w.2) ws.
Proof.
  induction ws as [|[[cmd ofn] efn] ws IH]; intros s; cbn [for_each map].
  - reflexivity.
  - rewrite effects_bind. cbn [start_worker res effects fs_after app].
    rewrite IH. reflexivity.
Qed.

Lemma setup_sinks_made_dir a c nprocess idx_rev run_names s :
  Forall made_dir
    (effects (setup_sinks os_makedirs a c nprocess idx_rev run_names s)).
Proof.
  unfold setup_sinks. apply effects_bind_Forall; [|intros; constructor].
  destruct (_ && _); [|constructor].
  apply effects_for_each_Forall. intros x s1.
  apply effects_mkdir_quiet_Forall. exact I.
Qed.

(** The workers a repetition starts are those of [workers_of]. *)
Lemma attempt_starts a iostat_x c nthreads nprocess ntpp rs idx_rev s
    cmd ofn efn :
  In (Start cmd ofn efn)
     (effects (attempt shell aligner darwin os_makedirs a iostat_x c
                       nthreads nprocess ntpp rs idx_rev s)) ->
  exists ws,
    workers_of a c nthreads nprocess ntpp rs idx_rev = Ok ws /\
    In (cmd, ofn, efn) ws.
Proof.
  unfold attempt. intros H.
  apply in_effects_bind_inv in H as [H|(rn & _ & H)].
  { rewrite effects_lift in H. destruct H. }
  apply in_effects_bind_inv in H as [H|([] & _ & H)].
  { destruct H as [H|[]]. discriminate H. }
  apply in_effects_bind_inv in H as [H|(sk & _ & H)].
  { exfalso.
    exact (proj1 (List.Forall_forall _ _)
             (setup_sinks_made_dir _ _ _ _ _ _) _ H). }
  apply in_effects_bind_inv in H as [H|(ws & Hws & H)].
  { rewrite effects_lift in H. destruct H. }
  exists ws. split.
  { destruct (workers_of a c nthreads nprocess ntpp rs idx_rev);
      [injection Hws as <-; reflexivity|discriminate Hws]. }
  apply in_effects_bind_inv in H as [H|([] & _ & H)].
  { destruct H as [H|[]]. discriminate H. }
  apply in_effects_bind_inv in H as [H|([] & _ & H)].
  { destruct H as [H|[]]. discriminate H. }
  apply in_effects_bind_inv in H as [H|(wi & _ & H)].
  { rewrite os_system_outcome in H. destruct H as [H|[]]. discriminate H. }
  apply in_effects_bind_inv in H as [H|([] & _ & H)].
  { rewrite emit_when_outcome in H. cbn [effects] in H.
    destruct (wi =? 0); [destruct H as [H|[]]; discriminate H|destruct H]. }
  apply in_effects_bind_inv in H as [H|(wt & _ & H)].
  { rewrite os_system_outcome in H. destruct H as [H|[]]. discriminate H. }
  apply in_effects_bind_inv in H as [H|([] & _ & H)].
  { rewrite emit_when_outcome in H. cbn [effects] in H.
    destruct (wt =? 0); [destruct H as [H|[]]; discriminate H|destruct H]. }
  apply in_effects_bind_inv in H as [H|([] & _ & H)].
  { rewrite effects_start_workers in H.
    apply in_map_iff in H as ([[cmd' ofn'] efn'] & [= -> -> ->] & Hin).
    exact Hin. }
  exfalso.
  apply in_effects_bind_inv in H as [H|(lv & _ & H)].
  { unfold join_workers in H.
    destruct (supervise _ _) as [r|] eqn:Hr; [|destruct H].
    apply in_effects_bind_inv in H as [H|([] & _ & H)]; [|destruct H].
    destruct (supervise_events _ _ _ _ Hr H)
      as [[i E]|[E|[[i E]|[i E]]]]; discriminate E. }
  apply in_effects_bind_inv in H as [H|([] & _ & H)].
  { rewrite emit_when_outcome in H. cbn [effects] in H.
    destruct (wi =? 0); [destruct H as [H|[]]; discriminate H|destruct H]. }
  apply in_effects_bind_inv in H as [H|([] & _ & H)].
  { rewrite emit_when_outcome in H. cbn [effects] in H.
    destruct (wt =? 0); [destruct H as [H|[]]; discriminate H|destruct H]. }
  apply in_effects_bind_inv in H as [H|([] & _ & H)].
  { rewrite record_outcome_effects in H.
    destruct H as [H|[H|[]]]; discriminate H. }
  destruct (a_delete_sam a); [|destruct H].
  refine (proj1 (List.Forall_forall (fun e => e <> Start cmd ofn efn) _)
            _ _ H eq_refl).
  apply effects_for_each_Forall. intros p s'.
  destruct (negb _); [|constructor].
  apply effects_os_remove_Forall. discriminate.
Qed.

End Starts.

Lemma worker_spec_discard a c ntpp rs n i w :
  worker_spec a c ntpp rs
              (Sinks (replicate n devnull) (replicate n devnull)
                     (replicate n devnull)) i = Ok w ->
  w.1.2 = devnull /\ w.2 = devnull /\
  (cf_tool c <> "bwa" -> exists pre, w.1.1 = pre ++ ["-S"; devnull]).
Proof.
  unfold worker_spec. cbn [stdout_ofns stderr_ofns sam_ofns].
  destruct (tool_exe (cf_tool c)) as [exe|]; [|discriminate]. cbn [rbind].
  destruct (py_index (replicate n devnull) (Z.to_nat i)) as [x|] eqn:Hx;
    [|discriminate].
  apply py_index_replicate in Hx. subst x. cbn [rbind].
  destruct (String.eqb_spec (cf_tool c) "bwa") as [Hbwa|Hbwa].
  - destruct (read_file rs i 0) as [r0|]; [|discriminate]. cbn [rbind].
    destruct (match a_m2 a with
              | Some _ => r1 <-? read_file rs i 1;; Ok [r0; r1]
              | None => Ok [r0]
              end) as [mates|]; [|discriminate].
    cbn [rbind]. intros [= <-]. cbn [fst snd]. tauto.
  - destruct (match a_m2 a with
              | Some _ => _
              | None => _
              end) as [reads|]; [|discriminate].
    cbn [rbind]. intros [= <-]. cbn [fst snd]. repeat split.
    intros _.
    repeat first [ exists []; reflexivity | apply ends_cons | apply ends_app ].
Qed.

(** The sinks of worker [i] of the repetition numbered 1. *)
Lemma worker_spec_persisted a c nthreads nprocess ntpp rs i w :
  0 <= i < nprocess ->
  worker_spec a c ntpp rs
    (sinks_of a c nprocess 1 (run_names_of a c nthreads nprocess 1)) i
  = Ok w ->
  started_with a c nthreads 1 i w.1.1 w.1.2 w.2.
Proof.
  intros Hi. unfold started_with. change (1 =? 1) with true. cbv iota zeta.
  assert (Hsam : forall x,
            py_index (sam_ofns (sinks_of a c nprocess 1
                                  (run_names_of a c nthreads nprocess 1)))
                     (Z.to_nat i) = Ok x ->
            x = sam_sink a c (run_name_of a c nthreads 1 i)).
  { intros x. unfold sinks_of, sam_sink, run_names_of.
    change (1 =? 1) with true. cbv iota.
    destruct (a_sam_dev_null a); cbn [negb sam_ofns].
    - apply py_index_replicate.
    - rewrite map_map.
      apply (py_index_map_range
               (fun j => Py.join
                           (Py.join
                              (Py.join3 (if a_sam_output_dir a
                                         then output_dir_of a c
                                         else a_tempdir a)
                                        (cf_name c) (pe_str a))
                              (run_name_of a c nthreads 1 j)) "out.sam")).
      exact Hi. }
  assert (Herr : forall x,
            py_index (stderr_ofns (sinks_of a c nprocess 1
                                     (run_names_of a c nthreads nprocess 1)))
                     (Z.to_nat i) = Ok x ->
            x = Py.join (output_dir_of a c)
                        (run_name_of a c nthreads 1 i +:+ ".err")).
  { intros x. unfold sinks_of, run_names_of.
    change (1 =? 1) with true. cbv iota.
    destruct (negb (a_sam_dev_null a)); cbn [stderr_ofns];
      rewrite map_map;
      apply (py_index_map_range
               (fun j => Py.join (output_dir_of a c)
                                 (run_name_of a c nthreads 1 j +:+ ".err")));
      exact Hi. }
  assert (Hout : forall x,
            py_index (stdout_ofns (sinks_of a c nprocess 1
                                     (run_names_of a c nthreads nprocess 1)))
                     (Z.to_nat i) = Ok x ->
            x = Py.join (output_dir_of a c)
                        (run_name_of a c nthreads 1 i +:+ ".out")).
  { intros x. unfold sinks_of, run_names_of.
    change (1 =? 1) with true. cbv iota.
    destruct (negb (a_sam_dev_null a)); cbn [stdout_ofns];
      rewrite map_map;
      apply (py_index_map_range
               (fun j => Py.join (output_dir_of a c)
                                 (run_name_of a c nthreads 1 j +:+ ".out")));
      exact Hi. }
  unfold worker_spec.
  destruct (tool_exe (cf_tool c)) as [exe|]; [|discriminate]. cbn [rbind].
  destruct (py_index (stderr_ofns _) (Z.to_nat i)) as [efn|] eqn:Hefn;
    [|discriminate].
  specialize (Herr _ eq_refl). cbn [rbind].
  destruct (String.eqb (cf_tool c) "bwa").
  - destruct (read_file rs i 0) as [r0|]; [|discriminate]. cbn [rbind].
    destruct (match a_m2 a with
              | Some _ => r1 <-? read_file rs i 1;; Ok [r0; r1]
              | None => Ok [r0]
              end) as [mates|]; [|discriminate].
    cbn [rbind].
    destruct (py_index (sam_ofns _) (Z.to_nat i)) as [sam|] eqn:Hs;
      [|discriminate].
    specialize (Hsam _ eq_refl). cbn [rbind]. intros [= <-]. cbn [fst snd].
    auto.
  - destruct (match a_m2 a with
              | Some _ => _
              | None => _
              end) as [reads|]; [|discriminate].
    cbn [rbind].
    destruct (py_index (sam_ofns _) (Z.to_nat i)) as [sam|] eqn:Hs;
      [|discriminate].
    specialize (Hsam _ eq_refl). cbn [rbind].
    destruct (py_index (stdout_ofns _) (Z.to_nat i)) as [ofn|] eqn:Ho;
      [|discriminate].
    specialize (Hout _ eq_refl). cbn [rbind]. intros [= <-]. cbn [fst snd].
    subst. repeat split.
    repeat first [ exists []; reflexivity | apply ends_cons | apply ends_app ].
Qed.

(** The sinks of every worker of a repetition. *)
Lemma workers_of_sinks a c nthreads nprocess ntpp rs idx_rev ws w :
  workers_of a c nthreads nprocess ntpp rs idx_rev = Ok ws -> In w ws ->
  exists i, 0 <= i < nprocess /\
            started_with a c nthreads idx_rev i w.1.1 w.1.2 w.2.
Proof.
  intros Hws Hw. unfold workers_of in Hws.
  destruct (result_collect_In _ _ _ Hws w Hw) as (i & Hi & Hspec).
  apply in_py_range in Hi. exists i. split; [exact Hi|].
  destruct (Z.eqb_spec idx_rev 1) as [->|Hne].
  - eapply worker_spec_persisted; eassumption.
  - unfold started_with. rewrite (proj2 (Z.eqb_neq _ _) Hne).
    unfold sinks_of in Hspec. rewrite (proj2 (Z.eqb_neq _ _) Hne) in Hspec.
    apply worker_spec_discard in Hspec. tauto.
Qed.

(** ** Outcomes and commands of a repetition *)

Lemma classify_none (exitlevels : list (option Z)) :
  In None exitlevels -> classify exitlevels = TIME_OUT.
Proof.
  intros Hin. unfold classify.
  replace (existsb _ exitlevels) with true; [reflexivity|].
  symmetry. apply existsb_exists. exists None. auto.
Qed.

Lemma classify_spec (exitlevels : list (option Z)) :
  (classify exitlevels = TIME_OUT <-> In None exitlevels) /\
  (classify exitlevels = SUCCEED
   <-> Forall (fun x => x = Some 0) exitlevels) /\
  (classify exitlevels = FAIL
   <-> ~ In None exitlevels
       /\ exists code, In (Some code) exitlevels /\ code <> 0).
Proof.
  unfold classify.
  destruct (existsb _ exitlevels) eqn:Et.
  - apply existsb_exists in Et as (x & Hin & Hx).
    destruct x as [code|]; [discriminate|].
    repeat split; try discriminate; try tauto.
    intros HF. rewrite List.Forall_forall in HF.
    specialize (HF _ Hin). discriminate.
  - assert (Hnone : ~ In None exitlevels).
    { intros Hin. apply not_true_iff_false in Et. apply Et.
      apply existsb_exists. exists None. auto. }
    clear Et. destruct (existsb _ exitlevels) eqn:Ef.
    + apply existsb_exists in Ef as (x & Hin & Hx).
      destruct x as [code|]; [|destruct (Hnone Hin)].
      apply negb_true_iff, Z.eqb_neq in Hx.
      repeat split; try discriminate; try tauto.
      * intros HF. rewrite List.Forall_forall in HF.
        specialize (HF _ Hin). congruence.
      * eauto.
    + repeat split; try discriminate; try tauto.
      * intros _. apply List.Forall_forall. intros [code|] Hin;
          [|destruct (Hnone Hin)].
        destruct (Z.eqb_spec code 0) as [->|Hne]; [reflexivity|].
        apply not_true_iff_false in Ef. destruct Ef.
        apply existsb_exists. exists (Some code). split; [exact Hin|].
        apply negb_true_iff, Z.eqb_neq. exact Hne.
      * intros [_ (code & Hin & Hne)].
        apply not_true_iff_false in Ef. destruct Ef.
        apply existsb_exists. exists (Some code). split; [exact Hin|].
        apply negb_true_iff, Z.eqb_neq. exact Hne.
Qed.

(** X16: The three outcomes of a group: [TIME_OUT] as soon as one exit level is
    missing, whatever the others are; [SUCCEED] when every exit level is 0,
    so also for an empty group; [FAIL] when none is missing and one is not
    0. *)
Theorem classify_cases (exitlevels : list (option Z)) :
  (classify exitlevels = TIME_OUT <-> In None exitlevels) /\
  (classify exitlevels = SUCCEED
   <-> Forall (fun x => x = Some 0) exitlevels) /\
  (classify exitlevels = FAIL
   <-> ~ In None exitlevels
       /\ exists code, In (Some code) exitlevels /\ code <> 0).
Proof. apply classify_spec. Qed.

(** X17: The exit code of a wrapper tells whether it could start its aligner,
    not how the aligner ended: [worker] never looks at the return code of
    the aligner.  So a group is recorded as [FAIL] only when some wrapper
    could not open its sinks or spawn its command; an aligner that starts and
    then exits with an error counts as a success. *)
Theorem fail_means_not_started (timeout : nat) (procs : list behaviour)
    (r : sup_result) :
  supervise timeout procs = Some r ->
  classify (sr_exitlevels r) = FAIL ->
  exists b, In b procs /\ b_spawns b = false.
Proof.
  intros Hr Hf.
  destruct (supervise_handled timeout procs) as (r' & Hr' & Hh).
  rewrite Hr in Hr'. injection Hr' as <-.
  apply (proj2 (proj2 (classify_spec _))) in Hf as (_ & code & Hin & Hne).
  pose proof (h_codes _ _ _ _ Hh) as Hcodes.
  apply list_elem_of_In, list_elem_of_lookup in Hin as [k Hk].
  destruct (Forall2_lookup_r _ _ _ _ _ Hcodes Hk) as (b & Hb & [Hx|Hx]);
    [discriminate|].
  injection Hx as ->. exists b. split.
  - apply list_elem_of_In, list_elem_of_lookup. eauto.
  - unfold exitcode in Hne. destruct (b_spawns b); [lia|reflexivity].
Qed.

Lemma fail_means_not_started_witness :
  exists b, In b [Behaviour false None []] /\ b_spawns b = false.
Proof.
  apply (fail_means_not_started 5 [Behaviour false None []]
           (SupResult (SupState 0 None) [Some 1] [JoinTimed 0]));
    reflexivity.
Defined.

Lemma bind_cong {A B} (m m' : M A) (k k' : A -> M B) s :
  m s = m' s ->
  (forall x, res (m s) = Ok x ->
     k x (fs_after (m s)) = k' x (fs_after (m s))) ->
  bind m k s = bind m' k' s.
Proof.
  intros Hm Hk. unfold bind. rewrite <- Hm.
  destruct (res (m s)) as [x|e] eqn:E; [|reflexivity].
  rewrite (Hk x eq_refl). reflexivity.
Qed.

Lemma length_py_range (n : Z) : length (py_range n) = Z.to_nat n.
Proof. unfold py_range. rewrite length_map, length_seq. reflexivity. Qed.

Lemma result_collect_total {A B} (f : A -> result B) (xs : list A) :
  (forall x, In x xs -> exists y, f x = Ok y) ->
  exists ys, result_collect f xs = Ok ys /\ length ys = length xs.
Proof.
  induction xs as [|x xs IH]; intros H.
  - exists []. auto.
  - destruct (H x (or_introl eq_refl)) as [y Hy].
    destruct IH as (ys & Hys & Hlen); [intros; apply H; right; assumption|].
    exists (y :: ys). cbn [result_collect]. rewrite Hy, Hys. cbn. auto.
Qed.

Lemma py_index_total {A} (l : list A) (k : nat) :
  (k < length l)%nat -> exists x, py_index l k = Ok x.
Proof.
  intros H. unfold py_index.
  destruct (lookup_lt_is_Some_2 l k H) as [x ->]. eauto.
Qed.

(** The three lists of sinks have one entry per process. *)
Lemma sinks_of_lengths a c nthreads nprocess idx_rev :
  let sk := sinks_of a c nprocess idx_rev
                     (run_names_of a c nthreads nprocess idx_rev) in
  length (stdout_ofns sk) = Z.to_nat nprocess /\
  length (stderr_ofns sk) = Z.to_nat nprocess /\
  length (sam_ofns sk) = Z.to_nat nprocess.
Proof.
  unfold sinks_of, run_names_of.
  destruct (idx_rev =? 1); [destruct (negb (a_sam_dev_null a))|];
    cbn [stdout_ofns stderr_ofns sam_ofns];
    rewrite ?length_map, ?length_replicate, ?length_py_range; auto.
Qed.

Lemma read_file_total (rs : list (list string)) (i : Z) (k : nat) l :
  rs !! Z.to_nat i = Some l -> (k < length l)%nat ->
  exists f, read_file rs i k = Ok f.
Proof.
  intros Hl Hk. unfold read_file, py_index. rewrite Hl. cbn [rbind].
  destruct (lookup_lt_is_Some_2 l k Hk) as [x ->]. eauto.
Qed.

Lemma workers_of_fits (a : args) (c : config)
    (nthreads nprocess ntpp : Z) (rs : list (list string)) (idx_rev : Z)
    (exe : string) :
  tool_exe (cf_tool c) = Ok exe ->
  (forall k, (k < Z.to_nat nprocess)%nat ->
     exists l, rs !! k = Some l /\ (mates a <= length l)%nat) ->
  exists ws,
    workers_of a c nthreads nprocess ntpp rs idx_rev = Ok ws /\
    length ws = Z.to_nat nprocess.
Proof.
  intros Hexe Hrs. unfold workers_of.
  destruct (sinks_of_lengths a c nthreads nprocess idx_rev) as (Ho & He & Hs).
  cbv zeta in Ho, He, Hs.
  set (sk := sinks_of a c nprocess idx_rev _) in *.
  destruct (result_collect_total (worker_spec a c ntpp rs sk)
              (py_range nprocess)) as (ws & Hws & Hlen).
  - intros i Hi. apply in_py_range in Hi.
    assert (Hk : (Z.to_nat i < Z.to_nat nprocess)%nat) by lia.
    destruct (Hrs _ Hk) as (l & Hl & Hlen).
    destruct (py_index_total (stderr_ofns sk) (Z.to_nat i)) as [efn Hefn];
      [lia|].
    destruct (py_index_total (stdout_ofns sk) (Z.to_nat i)) as [ofn Hofn];
      [lia|].
    destruct (py_index_total (sam_ofns sk) (Z.to_nat i)) as [sam Hsam];
      [lia|].
    assert (H0 : exists f, read_file rs i 0 = Ok f).
    { apply (read_file_total rs i 0 l Hl). unfold mates in Hlen.
      destruct (a_m2 a); lia. }
    destruct H0 as [r0 Hr0].
    unfold worker_spec. rewrite Hexe, Hefn, Hsam, Hofn, Hr0. cbn [rbind].
    unfold mates in Hlen.
    destruct (a_m2 a) as [m2|].
    + destruct (read_file_total rs i 1 l Hl) as [r1 Hr1]; [lia|].
      rewrite Hr1. cbn [rbind].
      destruct (String.eqb (cf_tool c) "bwa"); eauto.
    + cbn [rbind]. destruct (String.eqb (cf_tool c) "bwa"); eauto.
  - exists ws. split; [exact Hws|]. rewrite Hlen. apply length_py_range.
Qed.

(** X18: When the tool is known and the read set holds, for each of the
    [nprocess] processes, the files of the mates in use, the commands of a
    repetition can all be built, one per process: no index is out of range,
    for the reads or for the sinks. *)
Theorem workers_of_total (a : args) (c : config)
    (nthreads nprocess ntpp : Z) (rs : list (list string)) (idx_rev : Z)
    (exe : string) :
  tool_exe (cf_tool c) = Ok exe ->
  (forall k, (k < Z.to_nat nprocess)%nat ->
     exists l, rs !! k = Some l /\ (mates a <= length l)%nat) ->
  exists ws,
    workers_of a c nthreads nprocess ntpp rs idx_rev = Ok ws /\
    length ws = Z.to_nat nprocess.
Proof. apply workers_of_fits. Qed.

Section Outcomes.

Variable shell : string -> fs -> Z * fs.
Variable aligner : list string -> behaviour.
Variable darwin : bool.
Variable os_makedirs : string -> fs -> option errno * fs.

(** X19: Every group leaves exactly two markers, [JOIN] and then the one of
    its outcome, also when the error of [--stop-on-fail] follows.  That
    error is raised for the outcome [FAIL] only: a group in which one
    process timed out is recorded as [TIME_OUT] and does not stop the run,
    whatever the exit codes of the other processes. *)
Theorem record_outcome_verdict (a : args) (c : config) (run_name : string)
    (exitlevels : list (option Z)) (s : fs) :
  let o := record_outcome shell a c run_name exitlevels s in
  sys_cmds (effects o)
  = [touch_cmd a c run_name ".JOIN";
     touch_cmd a c run_name (status_ext (classify exitlevels))] /\
  (res o <> Ok tt
   <-> a_stop_on_fail a = true /\ classify exitlevels = FAIL) /\
  (In None exitlevels -> res o = Ok tt).
Proof.
  cbv zeta. split; [rewrite record_outcome_effects; reflexivity|].
  assert (Hres : res (record_outcome shell a c run_name exitlevels s)
                 = if a_stop_on_fail a
                   then match classify exitlevels with
                        | FAIL => Raise (RuntimeError
                            "At least one subprocess exited with non-zero exit level")
                        | _ => Ok tt
                        end
                   else Ok tt).
  { unfold record_outcome, touch.
    rewrite !res_bind, !os_system_outcome.
    cbn [res effects fs_after ret].
    destruct (classify exitlevels);
      rewrite ?res_bind, ?os_system_outcome; cbn [res effects fs_after ret];
      destruct (a_stop_on_fail a); reflexivity. }
  rewrite Hres. split.
  - destruct (a_stop_on_fail a);
      [|split; [intros H; destruct (H eq_refl) | intros [H _]; discriminate H]].
    destruct (classify exitlevels); split;
      try (intros H; destruct (H eq_refl));
      try (intros [_ H]; discriminate H);
      try (intros _; split; reflexivity);
      try (intros _; discriminate).
  - intros Hin. rewrite (classify_none _ Hin). destruct (a_stop_on_fail a); reflexivity.
Qed.

Lemma for_each_discarded (n : nat) (s : fs) :
  for_each (replicate n devnull)
    (fun sam_ofn =>
       if negb (String.eqb sam_ofn devnull) then os_remove sam_ofn
       else ret tt) s
  = ret tt s.
Proof.
  induction n as [|n IH]; [reflexivity|].
  cbn [replicate for_each]. rewrite String.eqb_refl. cbn [negb].
  rewrite bind_ret_l. exact IH.
Qed.

Lemma sam_ofns_discarded a c nprocess idx_rev run_names :
  idx_rev <> 1 \/ a_sam_dev_null a = true ->
  sam_ofns (sinks_of a c nprocess idx_rev run_names)
  = replicate (Z.to_nat nprocess) devnull.
Proof.
  intros H. unfold sinks_of.
  destruct (Z.eqb_spec idx_rev 1) as [E|_]; [|reflexivity].
  destruct H as [H| ->]; [destruct (H E)|reflexivity].
Qed.

(** X20: [--delete-sam] does nothing in a repetition whose alignment output is
    discarded, the first of two repetitions or any repetition under
    [--sam-dev-null]: the repetition runs as it does without the option. *)
Theorem delete_sam_spares_discarded (a : args) (iostat_x : bool)
    (c : config) (nthreads nprocess ntpp : Z) (rs : list (list string))
    (idx_rev : Z) (s : fs) :
  idx_rev <> 1 \/ a_sam_dev_null a = true ->
  attempt shell aligner darwin os_makedirs a iostat_x c nthreads nprocess ntpp rs
          idx_rev s
  = attempt shell aligner darwin os_makedirs (keep_sam a) iostat_x c nthreads nprocess
            ntpp rs idx_rev s.
Proof.
  intros Hd. unfold attempt.
  apply bind_cong; [reflexivity|]. intros rn _.
  apply bind_cong; [reflexivity|]. intros _ _.
  apply bind_cong; [reflexivity|]. intros sk Hsk.
  apply setup_sinks_value in Hsk. subst sk.
  apply bind_cong; [reflexivity|]. intros ws _.
  do 11 (apply bind_cong; [reflexivity|]; intros ? _).
  cbn [a_delete_sam keep_sam].
  destruct (a_delete_sam a); [|reflexivity].
  rewrite (sam_ofns_discarded _ _ _ _ _ Hd).
  apply for_each_discarded.
Qed.

Lemma in_effects_bind_l {A B} (m : M A) (k : A -> M B) s x :
  In x (effects (m s)) -> In x (effects (bind m k s)).
Proof. intros H. rewrite effects_bind. apply in_or_app. auto. Qed.

Lemma in_effects_bind_r {A B} (m : M A) (k : A -> M B) s a x :
  res (m s) = Ok a -> In x (effects (k a (fs_after (m s)))) ->
  In x (effects (bind m k s)).
Proof.
  intros Hm H. rewrite (effects_bind_ok _ _ _ _ Hm). apply in_or_app. auto.
Qed.

(** X21: Every repetition whose commands can be built and whose output
    directories are set up opens the logs of the two monitors,
    [<run name>.top] and [<run name>.iostat], under the output directory of
    the entry: the first of two repetitions does too, its logs are not
    discarded, and so does a run without the monitors installed. *)
Theorem monitor_logs_opened (a : args) (iostat_x : bool) (c : config)
    (nthreads nprocess ntpp : Z) (rs : list (list string)) (idx_rev : Z)
    (ws : list (list string * string * string)) (s : fs) :
  1 <= nprocess ->
  sinks_ready os_makedirs a c nthreads nprocess idx_rev s ->
  workers_of a c nthreads nprocess ntpp rs idx_rev = Ok ws ->
  let run_name := run_name_of a c nthreads idx_rev 0 in
  let evs := effects (attempt shell aligner darwin os_makedirs a iostat_x c nthreads
                              nprocess ntpp rs idx_rev s) in
  In (OpenW (Py.join (output_dir_of a c) (run_name +:+ ".top"))) evs /\
  In (OpenW (Py.join (output_dir_of a c) (run_name +:+ ".iostat"))) evs.
Proof.
  intros Hn [sk Hsk] Hws run_name. cbv zeta.
  assert (Hidx : py_index (run_names_of a c nthreads nprocess idx_rev) 0
                 = Ok run_name).
  { unfold run_names_of. destruct (py_range_head nprocess Hn) as [rest ->].
    reflexivity. }
  unfold attempt. rewrite Hidx, Hws. cbn [lift]. rewrite bind_ret_l.
  split.
  - eapply in_effects_bind_r; [reflexivity|].
    eapply in_effects_bind_r; [exact Hsk|].
    rewrite bind_ret_l.
    apply in_effects_bind_l. left. reflexivity.
  - eapply in_effects_bind_r; [reflexivity|].
    eapply in_effects_bind_r; [exact Hsk|].
    rewrite bind_ret_l.
    eapply in_effects_bind_r; [reflexivity|].
    apply in_effects_bind_l. left. reflexivity.
Qed.

(** Without its output directories a repetition stops before the logs:
    the final repetition of a run whose SAM directory cannot be made raises
    [OSError] after the attempt to make it. *)
Lemma attempt_without_sinks (a : args) (iostat_x : bool) (c : config)
    (nthreads nprocess ntpp : Z) (rs : list (list string)) (idx_rev : Z)
    (s : fs) :
  1 <= nprocess ->
  ~ sinks_ready os_makedirs a c nthreads nprocess idx_rev s ->
  let run_name := run_name_of a c nthreads idx_rev 0 in
  let o := attempt shell aligner darwin os_makedirs a iostat_x c nthreads
                   nprocess ntpp rs idx_rev s in
  res o = Raise OSError /\
  Forall (fun e => e = Attempt run_name nthreads idx_rev
                   \/ exists d, e = Makedirs d) (effects o).
Proof.
  intros Hn Hnot run_name o.
  assert (Hidx : py_index (run_names_of a c nthreads nprocess idx_rev) 0
                 = Ok run_name).
  { unfold run_names_of. destruct (py_range_head nprocess Hn) as [rest ->].
    reflexivity. }
  subst o. unfold attempt. rewrite Hidx. cbn [lift]. rewrite bind_ret_l.
  erewrite bind_ok by apply emit_outcome.
  cbn [res fs_after effects].
  set (ss := setup_sinks os_makedirs a c nprocess idx_rev
               (run_names_of a c nthreads nprocess idx_rev) s).
  assert (Hev : Forall (fun e => e = Attempt run_name nthreads idx_rev
                                 \/ exists d, e = Makedirs d) (effects ss)).
  { unfold ss, setup_sinks. apply effects_bind_Forall;
      [|intros [] s1; constructor].
    destruct (_ && _); [|constructor].
    apply effects_for_each_Forall. intros rn s1.
    apply effects_mkdir_quiet_Forall. eauto. }
  assert (Hres : res ss = Raise OSError).
  { destruct (res ss) as [sk|e] eqn:E.
    - destruct Hnot. exists sk. exact E.
    - revert E. unfold ss, setup_sinks. rewrite res_bind.
      assert (Hfe : forall xs s1 e',
                res (for_each xs
                       (fun rn =>
                          mkdir_quiet os_makedirs
                            (Py.join
                               (Py.join3
                                  (if a_sam_output_dir a
                                   then output_dir_of a c
                                   else a_tempdir a) (cf_name c) (pe_str a))
                               rn)) s1) = Raise e' -> e' = OSError).
      { induction xs as [|x xs IH]; intros s1 e'; cbn [for_each].
        - discriminate.
        - rewrite res_bind.
          destruct (mkdir_quiet_res os_makedirs
                      (Py.join (Py.join3 (if a_sam_output_dir a
                                          then output_dir_of a c
                                          else a_tempdir a)
                                         (cf_name c) (pe_str a)) x) s1)
            as [-> | ->].
          + apply IH.
          + intros [= <-]. reflexivity. }
      destruct (_ && _).
      + destruct (res (for_each _ _ s)) as [[]|e'] eqn:E'.
        * discriminate.
        * intros [= <-]. f_equal. exact (Hfe _ _ _ E').
      + discriminate. }
  rewrite res_bind, effects_bind. fold ss. rewrite Hres.
  cbn [res effects app].
  split; [reflexivity|].
  constructor; [left; reflexivity|]. rewrite app_nil_r. exact Hev.
Qed.

End Outcomes.

Lemma monitor_logs_opened_witness :
  let evs := effects (attempt shell_idle aligner_ok false makedirs_plain (unpaired_args false)
                              false entry_x 2 1 2 [["tmp/x/unp/1.fq"]] 2 ∅) in
  In (OpenW "out/unp/x/x_unp_0_0_2_2.top") evs /\
  In (OpenW "out/unp/x/x_unp_0_0_2_2.iostat") evs.
Proof.
  apply (monitor_logs_opened shell_idle aligner_ok false makedirs_plain
           (unpaired_args false) false entry_x 2 1 2 [["tmp/x/unp/1.fq"]] 2
           workers_x_warm_up ∅).
  - lia.
  - eexists. reflexivity.
  - reflexivity.
Defined.

Lemma workers_of_total_witness :
  exists ws,
    workers_of (unpaired_args false) entry_x 2 1 2 [["tmp/x/unp/1.fq"]] 2
    = Ok ws /\ length ws = 1%nat.
Proof.
  apply (workers_of_total (unpaired_args false) entry_x 2 1 2
           [["tmp/x/unp/1.fq"]] 2 "bowtie2-align-s").
  - reflexivity.
  - intros k Hk. destruct k as [|k]; [|cbn in Hk; lia].
    eexists. split; [reflexivity|]. cbn. lia.
Defined.

Lemma delete_sam_spares_discarded_witness :
  attempt shell_idle aligner_ok false makedirs_plain delete_sam_args false entry_x 2 1 2
          [["tmp/x/unp/1.fq"]] 2 ∅
  = attempt shell_idle aligner_ok false makedirs_plain (keep_sam delete_sam_args) false
            entry_x 2 1 2 [["tmp/x/unp/1.fq"]] 2 ∅.
Proof.
  apply (delete_sam_spares_discarded shell_idle aligner_ok false
           makedirs_plain delete_sam_args). left. lia.
Defined.

(** ** Run names *)

Lemma length_append (s t : string) :
  String.length (s +:+ t) = (String.length s + String.length t)%nat.
Proof.
  induction s as [|ch s IH]; [reflexivity|].
  change (S (String.length (s +:+ t))
          = S (String.length s + String.length t)).
  now rewrite IH.
Qed.

Lemma append_inv_tail (s1 s2 t : string) : s1 +:+ t = s2 +:+ t -> s1 = s2.
Proof.
  revert s2. induction s1 as [|ch s1 IH]; intros [|ch2 s2] H.
  - reflexivity.
  - apply (f_equal String.length) in H.
    change (String.length t = S (String.length (s2 +:+ t))) in H.
    rewrite length_append in H. lia.
  - apply (f_equal String.length) in H.
    change (S (String.length (s1 +:+ t)) = String.length t) in H.
    rewrite length_append in H. lia.
  - change (String ch (s1 +:+ t) = String ch2 (s2 +:+ t)) in H.
    injection H as -> H. f_equal. apply IH, H.
Qed.

Lemma run_name_of_inj a c nthreads idx_rev (i j : Z) :
  run_name_of a c nthreads idx_rev i = run_name_of a c nthreads idx_rev j ->
  i = j.
Proof.
  unfold run_name_of. intros H.
  do 6 apply (String.app_inj _) in H.
  change (Py.str i +:+ ("_" +:+ Py.str nthreads +:+ "_" +:+ Py.str idx_rev)
          = Py.str j +:+ ("_" +:+ Py.str nthreads +:+ "_" +:+ Py.str idx_rev))
    in H.
  apply append_inv_tail in H. apply (inj pretty). exact H.
Qed.

(** X22: The processes of one repetition have pairwise distinct run names, so
    no two of them write to the same output file. *)
Theorem run_names_distinct (a : args) (c : config)
    (nthreads nprocess idx_rev : Z) :
  NoDup (run_names_of a c nthreads nprocess idx_rev).
Proof.
  unfold run_names_of, py_range.
  apply NoDup_fmap_2_strong.
  - intros i j _ _. apply run_name_of_inj.
  - apply NoDup_fmap_2; [apply Nat2Z.inj'|apply NoDup_seq].
Qed.

(** ** Exit levels and time-outs *)

Lemma classify_timed_out (lv : list (option Z)) (k : nat) :
  lv !! k = Some None -> classify lv = TIME_OUT.
Proof.
  intros H. unfold classify.
  assert (E : existsb (fun x : option Z =>
                         match x with None => true | Some _ => false end) lv
              = true).
  { apply existsb_exists. exists None. split; [|reflexivity].
    apply list_elem_of_In, list_elem_of_lookup. eauto. }
  rewrite E. reflexivity.
Qed.

(** C1 (as amended): every collected exit level is the exit code of the
    wrapper or the timed-out mark; once the flag has been set, exactly the
    command whose wait expired carries the mark, and every other command, also
    one ended through the flag, carries its wrapper's exit code, which is 0
    for one ended through the flag. *)
Theorem exitlevels_of_group (timeout : nat) (procs : list behaviour) :
  exists r,
    supervise timeout procs = Some r /\
    Forall2 (fun b x => x = None \/ x = Some (exitcode b))
            procs (sr_exitlevels r) /\
    forall t, done_at (sr_state r) = Some t ->
      exists k,
        wait_expires timeout procs k /\
        sr_exitlevels r !! k = Some None /\
        forall i b, procs !! i = Some b -> i <> k ->
          sr_exitlevels r !! i = Some (Some (exitcode b)) /\
          (killed_by_flag t b = true ->
           sr_exitlevels r !! i = Some (Some 0)).
Proof.
  destruct (supervise_handled timeout procs) as (r & Hr & [Hcodes _ Hcanc]).
  exists r. split; [exact Hr|]. split; [exact Hcodes|].
  intros t Ht. destruct (Hcanc t Ht) as (_ & _ & k & Hexp & _ & Hk & Hrest).
  exists k. split; [exact Hexp|]. split; [exact Hk|].
  intros i b Hb Hik. split; [eauto|].
  intros Hkill. rewrite <- (killed_by_flag_exitcode t b Hkill). eauto.
Qed.

Lemma exitlevels_of_group_witness :
  exists r, supervise 5 two_stuck = Some r /\
            sr_exitlevels r = [None; Some 0].
Proof.
  destruct (exitlevels_of_group 5 two_stuck) as (r & Hr & _).
  exists r. split; [exact Hr|].
  vm_compute in Hr. injection Hr as <-. reflexivity.
Defined.

(** C1 (as stated) fails: of two aligners that never exit, both are ended
    through the flag set when the wait for the first expires, and the second
    reports exit code 0, not the timed-out mark. *)
Lemma killed_worker_reports_exit_code :
  exists r b,
    supervise 5 two_stuck = Some r /\
    done_at (sr_state r) = Some 5%nat /\
    two_stuck !! 1%nat = Some b /\ killed_by_flag 5 b = true /\
    sr_exitlevels r !! 1%nat = Some (Some 0) /\
    sr_exitlevels r !! 1%nat <> Some None.
Proof.
  eexists. eexists. split; [reflexivity|].
  repeat split; try reflexivity. discriminate.
Qed.

(** The wait that expires is the first and the only one: after it the flag
    is set and every process has ended. *)
Lemma wait_expires_first (timeout : nat) (procs : list behaviour) (i k : nat) :
  wait_expires timeout procs i -> wait_expires timeout procs k -> (k <= i)%nat.
Proof.
  intros Hi (b & r & Hb & Hr & Hal).
  destruct (join_loop_handled timeout procs (take k procs) (drop k procs)
              (eq_sym (take_drop k procs)))
    as (r' & Hr' & [_ Hquiet Hcanc]).
  fold sup0 in Hr. rewrite Hr in Hr'. injection Hr' as <-.
  destruct (done_at (sr_state r)) as [t|] eqn:Hd.
  - destruct (Hcanc t eq_refl) as (Hdead & _).
    assert (Hbd : is_alive (sr_state r) b = false).
    { apply Hdead. apply list_elem_of_In, list_elem_of_lookup. eauto. }
    rewrite (join_timed_dead _ _ _ Hbd), Hbd in Hal. discriminate Hal.
  - destruct (Nat.le_gt_cases k i) as [Hle|Hgt]; [exact Hle|].
    exfalso. apply (proj2 (Hquiet eq_refl i)); [|exact Hi].
    rewrite length_take. apply lookup_lt_Some in Hb. lia.
Qed.

Section TimedOut.

Variable shell : string -> fs -> Z * fs.
Variable aligner : list string -> behaviour.
Variable darwin : bool.
Variable os_makedirs : string -> fs -> option errno * fs.

(** C5: when the wait for worker [i] of a repetition expires with the
    worker still running, the flag is set, at a time [t], right after that
    wait, and the final joins follow: every worker of the group is joined,
    and every one that was still running at [t], the slow one or another,
    has sent [SIGTERM] to its aligner and left its loop, so that none is
    alive after the final joins.  The repetition is classified [TIME_OUT],
    and the [JOIN] marker, then the [TIME_OUT] marker are written after the
    joining loop. *)
Theorem timed_out_attempt (a : args) (iostat_x : bool) (c : config)
    (nthreads nprocess ntpp : Z) (rs : list (list string)) (idx_rev : Z)
    (ws : list (list string * string * string)) (i : nat) (s : fs) :
  1 <= nprocess ->
  sinks_ready os_makedirs a c nthreads nprocess idx_rev s ->
  workers_of a c nthreads nprocess ntpp rs idx_rev = Ok ws ->
  let procs := map (fun w => aligner w.1.1) ws in
  wait_expires (a_timeout a) procs i ->
  let run_name := run_name_of a c nthreads idx_rev 0 in
  exists r t final before rest,
    supervise (a_timeout a) procs = Some r /\
    done_at (sr_state r) = Some t /\ done_val (sr_state r) = 1 /\
    sr_events r
    = map JoinTimed (seq 0 (S i)) ++ SetDone :: final
      ++ map JoinTimed (seq (S i) (length procs - S i)) /\
    Forall (fun e => exists j, e = Sigterm j \/ e = JoinProc j) final /\
    (forall j b, procs !! j = Some b ->
       In (JoinProc j) final /\
       (killed_by_flag t b = true <-> In (Sigterm j) final) /\
       is_alive (sr_state r) b = false) /\
    classify (sr_exitlevels r) = TIME_OUT /\
    effects (attempt shell aligner darwin os_makedirs a iostat_x c nthreads
                     nprocess ntpp rs idx_rev s)
    = before
      ++ Sys (touch_cmd a c run_name ".JOIN")
         :: Sys (touch_cmd a c run_name ".TIME_OUT") :: rest /\
    incl (sr_events r) before.
Proof.
  intros Hn Hsk Hws procs Hexp run_name.
  destruct (attempt_sentinels shell aligner darwin os_makedirs a iostat_x c
              nthreads nprocess ntpp rs idx_rev ws s Hn Hsk Hws)
    as (r & before & rest & Hr & Heff & Hincl & _).
  fold procs in Hr.
  destruct (wait_expires_sets_done _ _ _ _ Hexp Hr) as [t Ht].
  destruct (supervise_handled (a_timeout a) procs)
    as (r' & Hr' & [_ _ Hcanc]).
  rewrite Hr in Hr'. injection Hr' as <-.
  destruct (Hcanc t Ht) as (Hdead & _ & k0 & _ & _ & Hk0 & _).
  assert (Hcl : classify (sr_exitlevels r) = TIME_OUT)
    by (eapply classify_timed_out; exact Hk0).
  pose proof (supervise_traced _ _ _ Hr) as Htr.
  unfold traced in Htr. rewrite Ht in Htr.
  destruct Htr as (k & final & _ & Hexpk & Hev & Hf & Hjn & Hsg).
  assert (k = i) as ->.
  { apply Nat.le_antisymm; eapply wait_expires_first; eassumption. }
  exists r, t, final, before, rest. split; [exact Hr|].
  split; [exact Ht|].
  split; [unfold done_val; rewrite Ht; reflexivity|].
  split; [exact Hev|]. split; [exact Hf|]. split.
  { intros j b Hb. split; [|split].
    - apply Hjn. apply lookup_lt_Some in Hb. exact Hb.
    - rewrite Hsg. split; [eauto|].
      intros (b' & Hb' & Hk). congruence.
    - apply Hdead. apply list_elem_of_In, list_elem_of_lookup. eauto. }
  split; [exact Hcl|]. split; [|exact Hincl].
  rewrite Hcl in Heff. exact Heff.
Qed.

End TimedOut.

Lemma timed_out_attempt_witness :
  exists r final before rest,
    supervise 5 [Behaviour true (Some 3%nat) []; Behaviour true None [];
                 Behaviour true (Some 20%nat) []] = Some r /\
    sr_events r
    = [JoinTimed 0; JoinTimed 1; SetDone] ++ final ++ [JoinTimed 2] /\
    ~ In (Sigterm 0) final /\ In (Sigterm 1) final /\ In (Sigterm 2) final /\
    effects (attempt shell_idle aligner_by_slice false makedirs_plain
                     (unpaired_args false) true entry_y 6 3 2 three_slices 1 ∅)
    = before
      ++ Sys "touch out/unp/y/y_unp_2_0_6_1.JOIN"
         :: Sys "touch out/unp/y/y_unp_2_0_6_1.TIME_OUT" :: rest.
Proof.
  destruct (timed_out_attempt shell_idle aligner_by_slice false makedirs_plain
              (unpaired_args false) true entry_y 6 3 2 three_slices 1
              [(["build/unp/y/bowtie2-align-s"; "-p"; "2"; "-k"; "1"; "-x";
                 "idx"; "-t"; "--mm"; "-U"; "tmp/1_aaa"; "-S";
                 "tmp/y/unp/y_unp_2_0_6_1/out.sam"],
                "out/unp/y/y_unp_2_0_6_1.out", "out/unp/y/y_unp_2_0_6_1.err");
               (["build/unp/y/bowtie2-align-s"; "-p"; "2"; "-k"; "1"; "-x";
                 "idx"; "-t"; "--mm"; "-U"; "tmp/1_aab"; "-S";
                 "tmp/y/unp/y_unp_2_1_6_1/out.sam"],
                "out/unp/y/y_unp_2_1_6_1.out", "out/unp/y/y_unp_2_1_6_1.err");
               (["build/unp/y/bowtie2-align-s"; "-p"; "2"; "-k"; "1"; "-x";
                 "idx"; "-t"; "--mm"; "-U"; "tmp/1_aac"; "-S";
                 "tmp/y/unp/y_unp_2_2_6_1/out.sam"],
                "out/unp/y/y_unp_2_2_6_1.out", "out/unp/y/y_unp_2_2_6_1.err")]
              1%nat ∅)
    as (r & t & final & before & rest & Hr & Ht & _ & Hev & _ & Hw & _ & Heff
        & _).
  - lia.
  - eexists. vm_compute. reflexivity.
  - vm_compute. reflexivity.
  - eexists. eexists. split; [reflexivity|]. split; [vm_compute; reflexivity|].
    vm_compute. reflexivity.
  - assert (Hr' := Hr). vm_compute in Hr'. injection Hr' as Hrr.
    rewrite <- Hrr in Ht. cbn [sr_state done_at] in Ht. injection Ht as <-.
    exists r, final, before, rest.
    split; [exact Hr|]. split; [exact Hev|].
    split; [|split; [|split; [|exact Heff]]].
    + intros Hin.
      apply (proj2 (proj1 (proj2 (Hw 0%nat _ eq_refl)))) in Hin.
      discriminate Hin.
    + apply (proj1 (proj1 (proj2 (Hw 1%nat _ eq_refl)))). reflexivity.
    + apply (proj1 (proj1 (proj2 (Hw 2%nat _ eq_refl)))). reflexivity.
Defined.

(** ** Traces of markers *)








(** ** The effects of the parts of the driver *)

Section Effects.

Variable shell : string -> fs -> Z * fs.
Variable aligner : list string -> behaviour.
Variable darwin : bool.
Variable os_makedirs : string -> fs -> option errno * fs.
Variable Q : effect -> Prop.
Hypothesis Q_plain : forall e, plain e -> Q e.

Lemma Forall_lift {A} (r : result A) s : Forall Q (effects (lift r s)).
Proof. rewrite effects_lift. constructor. Qed.

Lemma Forall_assert b s : Forall Q (effects (assert_ b s)).
Proof. rewrite effects_assert. constructor. Qed.

Lemma Forall_os_system cmd s : Forall Q (effects (os_system shell cmd s)).
Proof. rewrite os_system_outcome. repeat constructor. apply Q_plain. exact I. Qed.




Lemma Forall_slice_all_fastq reads_per n ifn ofn s :
  Forall Q (effects (slice_all_fastq shell reads_per n ifn ofn s)).
Proof.
  unfold slice_all_fastq.
  apply effects_bind_Forall; [apply Forall_assert|]. intros _ s1.
  apply effects_bind_Forall; [apply Forall_os_system|]. intros r s2.
  destruct (negb (r =? 0)); [constructor|].
  apply effects_for_each_Forall. intros i s3.
  apply effects_bind_Forall; [apply Forall_lift|]. intros lab s4.
  apply effects_bind_Forall; [rewrite effects_wcl; constructor|].
  intros k s5. destruct (negb _); constructor.
Qed.

Lemma Forall_slice_fastq b e ifn ofn s :
  Forall Q (effects (slice_fastq shell b e ifn ofn s)).
Proof.
  unfold slice_fastq.
  apply effects_bind_Forall; [apply Forall_os_system|]. intros r s2.
  destruct (negb (r =? 0)); [constructor|].
  apply effects_bind_Forall; [rewrite effects_wcl; constructor|].
  intros k s5. destruct (negb _); constructor.
Qed.

Lemma Forall_expected_slices a tmpdir i s :
  Forall Q (effects (expected_slices a tmpdir i s)).
Proof.
  unfold expected_slices.
  apply effects_bind_Forall; [apply Forall_lift|]. intros lab s1.
  apply effects_bind_Forall; [constructor|]. intros e0 s2.
  destruct (negb e0); [constructor|].
  destruct (a_m2 a); [|constructor].
  apply effects_bind_Forall; [constructor|]. intros e1 s3.
  destruct (negb e1); constructor.
Qed.

Lemma Forall_prepare_reads a nthread mp_mt tmpdir blocked s :
  Forall Q (effects (prepare_reads shell a nthread mp_mt tmpdir blocked s)).
Proof.
  unfold prepare_reads. destruct (0 <? mp_mt).
  - destruct blocked; [constructor|].
    apply effects_bind_Forall; [apply Forall_assert|]. intros _ s1.
    apply effects_bind_Forall; [apply Forall_lift|]. intros q s2.
    apply effects_bind_Forall; [apply Forall_slice_all_fastq|]. intros _ s3.
    apply effects_bind_Forall.
    { destruct (a_m2 a); [apply Forall_slice_all_fastq|constructor]. }
    intros _ s4.
    apply effects_bind_Forall.
    { apply effects_for_collect_Forall. intros. apply Forall_expected_slices. }
    intros read_sets s5.
    apply effects_bind_Forall; [apply Forall_lift|]. intros lab s6.
    apply effects_bind_Forall; [constructor|]. intros ex s7.
    destruct ex; constructor.
  - apply effects_bind_Forall; [apply Forall_slice_fastq|]. intros _ s1.
    destruct (a_m2 a); [|constructor].
    apply effects_bind_Forall; [apply Forall_slice_fastq|]. intros _ s2.
    constructor.
Qed.








Lemma effects_verify_index basename tool s :
  effects (verify_index basename tool s) = [].
Proof.
  unfold verify_index. destruct (String.eqb tool "bwa"); [reflexivity|].
  rewrite effects_bind, effects_lift. cbn [app].
  destruct (res (lift (tool_ext tool) s)) as [te|]; [|reflexivity].
  rewrite effects_bind. cbn [all_exist effects res fs_after app].
  destruct (_ && _); reflexivity.
Qed.

End Effects.

(** ** The start of a pair *)

Lemma runs_effects {A} (m : M A) s a s' evs :
  runs m s a s' evs -> effects (m s) = evs.
Proof. unfold runs. intros ->. reflexivity. Qed.

Lemma runs_res {A} (m : M A) s a s' evs :
  runs m s a s' evs -> res (m s) = Ok a.
Proof. unfold runs. intros ->. reflexivity. Qed.

Lemma runs_fs_after {A} (m : M A) s a s' evs :
  runs m s a s' evs -> fs_after (m s) = s'.
Proof. unfold runs. intros ->. reflexivity. Qed.

(** A purge that returns has removed every file of the read set, in order. *)
Lemma for_each_remove (l : list string) :
  forall s u s' evs,
    runs (for_each l os_remove) s u s' evs ->
    evs = map Remove l /\
    (forall f, In f l -> s' !! f = None) /\
    (forall f, s !! f = None -> s' !! f = None).
Proof.
  induction l as [|p l IH]; intros s u s' evs H;
    apply runs_for_each_inv in H.
  - destruct H as (-> & ->). repeat split; auto. intros f [].
  - destruct H as (s1 & e1 & e2 & H1 & H2 & ->).
    apply runs_os_remove_inv in H1 as (_ & -> & ->).
    destruct (IH _ _ _ _ H2) as (-> & Hgone & Hmono).
    repeat split.
    + intros f [<-|Hf]; [|auto]. apply Hmono, lookup_delete_eq.
    + intros f Hf. apply Hmono. rewrite lookup_delete_None. auto.
Qed.

Lemma purge_loop_removes (rs : list (list string)) :
  forall s u s' evs,
    runs (for_each rs (fun read_list => for_each read_list os_remove))
         s u s' evs ->
    evs = map Remove (concat rs) /\
    (forall f, In f (concat rs) -> s' !! f = None) /\
    (forall f, s !! f = None -> s' !! f = None).
Proof.
  induction rs as [|l rs IH]; intros s u s' evs H;
    apply runs_for_each_inv in H.
  - destruct H as (-> & ->). repeat split; auto. intros f [].
  - destruct H as (s1 & e1 & e2 & H1 & H2 & ->).
    apply for_each_remove in H1 as (-> & Hgone & Hmono).
    apply IH in H2 as (-> & Hgone2 & Hmono2).
    split; [cbn [concat]; rewrite map_app; reflexivity|]. split.
    + intros f Hf. cbn [concat] in Hf.
      apply in_app_or in Hf as [Hf|Hf]; auto.
    + auto.
Qed.

Lemma purge_removes (rs : list (list string)) s u s' evs :
  runs (purge (Some rs)) s u s' evs ->
  evs = map Remove (concat rs) /\ forall f, In f (concat rs) -> s' !! f = None.
Proof.
  cbn [purge]. intros H. apply purge_loop_removes in H. tauto.
Qed.

Lemma purge_runs rs s u s' evs :
  runs (purge rs) s u s' evs -> evs = purge_effects rs.
Proof.
  destruct rs as [l|]; intros H.
  - apply purge_removes in H. tauto.
  - apply runs_ret_inv in H. tauto.
Qed.

Section Prologue.

Variable shell : string -> fs -> Z * fs.
Variable os_makedirs : string -> fs -> option errno * fs.

Lemma regime_changed_verified st c iv :
  regime_changed (CtlState iv (read_set st) (last_mp_mt st) (last_blocked st)) c
  = regime_changed st c.
Proof. reflexivity. Qed.

(** What a returning [pair_prologue] has done. *)
Lemma pair_prologue_ok a n st c s st' ro s' evs :
  runs (pair_prologue shell os_makedirs a n st c) s (st', ro) s' evs ->
  let verified := bool_decide (cf_tool c ∈ indexes_verified st) in
  indexes_verified st'
  = (if verified then indexes_verified st
     else {[cf_tool c]} ∪ indexes_verified st) /\
  if skipped n (cf_mp_mt c) then
    ro = None /\ read_set st' = read_set st /\
    last_mp_mt st' = last_mp_mt st /\ last_blocked st' = last_blocked st /\
    Forall plain evs
  else
    last_blocked st' = is_blocked c /\
    if regime_changed st c then
      ro = Some 2 /\ last_mp_mt st' = Some (cf_mp_mt c) /\
      exists rs pre mid e_prep,
        read_set st' = Some rs /\
        evs = pre ++ purge_effects (read_set st) ++ mid
              ++ PrepareReads n (cf_mp_mt c) (reads_dir a c) (is_blocked c)
                 :: e_prep /\
        Forall plain pre /\ sys_cmds pre = [] /\
        Forall plain mid /\ sys_cmds mid = [] /\ Forall plain e_prep
    else
      ro = Some (if verified then 1 else 2) /\
      read_set st' = read_set st /\ last_mp_mt st' = last_mp_mt st /\
      Forall plain evs.
Proof.
  intros H. cbv zeta. unfold pair_prologue in H.
  apply runs_bind_inv in H as (ex & sa & ea & eb & H1 & H & ->).
  apply runs_exists_inv in H1 as (_ & -> & ->).
  apply runs_bind_inv in H as ([] & sb & e1 & ec & Hmk & H & ->).
  assert (Hmk' : Forall plain e1 /\ sys_cmds e1 = []).
  { destruct (negb ex).
    - apply runs_effects in Hmk. subst e1.
      split; [apply effects_mkdir_quiet_Forall; exact I
             |apply mkdir_quiet_sys_cmds].
    - apply runs_ret_inv in Hmk as (_ & _ & ->). split; constructor. }
  destruct Hmk' as [Hp1 Hc1]. clear Hmk.
  apply runs_bind_inv in H as ([st1 redo1] & sc & e3 & ed & Hver & H & ->).
  assert (Hv : e3 = [] /\
               st1 = CtlState (if bool_decide (cf_tool c ∈ indexes_verified st)
                               then indexes_verified st
                               else {[cf_tool c]} ∪ indexes_verified st)
                              (read_set st) (last_mp_mt st) (last_blocked st) /\
               redo1 = if bool_decide (cf_tool c ∈ indexes_verified st)
                       then 1 else 2).
  { destruct (decide (cf_tool c ∈ indexes_verified st)) as [Hin|Hin].
    - rewrite bool_decide_eq_true_2 by exact Hin.
      apply runs_ret_inv in Hver as ([= -> ->] & _ & ->).
      destruct st; auto.
    - rewrite bool_decide_eq_false_2 by exact Hin.
      apply runs_bind_inv in Hver as (b & sd & e5 & e6 & Hvi & Hr & ->).
      apply runs_effects in Hvi. rewrite effects_verify_index in Hvi. subst e5.
      apply runs_ret_inv in Hr as ([= -> ->] & _ & ->). auto. }
  destruct Hv as (-> & -> & ->). clear Hver.
  cbn [indexes_verified read_set last_mp_mt last_blocked] in H.
  rewrite regime_changed_verified in H.
  destruct (skipped n (cf_mp_mt c)).
  { apply runs_ret_inv in H as ([= -> ->] & _ & ->). cbn.
    split; [reflexivity|]. repeat split; try reflexivity.
    rewrite !app_nil_r. exact Hp1. }
  apply runs_bind_inv in H as ([st2 redo2] & se & ee & ef & Hprep & H & ->).
  apply runs_ret_inv in H as ([= -> ->] & _ & ->). cbn.
  destruct (regime_changed st c).
  - apply runs_bind_inv in Hprep as ([] & sf & e7 & eg & Hpurge & Hprep & ->).
    apply purge_runs in Hpurge. subst e7.
    apply runs_bind_inv in Hprep as ([] & sg & e9 & eh & Hmk2 & Hprep & ->).
    assert (Hmk2' : Forall plain e9 /\ sys_cmds e9 = []).
    { apply runs_effects in Hmk2. subst e9.
      split; [apply effects_mkdir_quiet_Forall; exact I
             |apply mkdir_quiet_sys_cmds]. }
    destruct Hmk2' as [Hp9 Hc9]. clear Hmk2.
    apply runs_bind_inv in Hprep as ([] & sh & e11 & ei & Hem & Hprep & ->).
    apply runs_emit_inv in Hem as (-> & ->).
    apply runs_bind_inv in Hprep as (rs & si & e13 & ej & Hpr & Hret & ->).
    apply runs_ret_inv in Hret as ([= -> ->] & _ & ->). cbn.
    split; [reflexivity|]. split; [reflexivity|].
    split; [reflexivity|]. split; [reflexivity|].
    exists rs, e1, e9, e13. split; [reflexivity|].
    split; [rewrite !app_nil_r; cbn; rewrite <- ?app_assoc; reflexivity|].
    repeat split; auto.
    apply runs_effects in Hpr. rewrite <- Hpr.
    apply Forall_prepare_reads. auto.
  - apply runs_ret_inv in Hprep as ([= -> ->] & _ & ->). cbn.
    split; [reflexivity|]. split; [reflexivity|].
    repeat split; try reflexivity. rewrite !app_nil_r. exact Hp1.
Qed.


End Prologue.

(** ** The sweep *)

Section Sweep.

Variable shell : string -> fs -> Z * fs.
Variable aligner : list string -> behaviour.
Variable darwin : bool.
Variable os_makedirs : string -> fs -> option errno * fs.







End Sweep.

(** ** The first entry of a number of threads *)

Lemma bind_ret_r (m : M unit) (s : fs) : bind m (fun _ => ret tt) s = m s.
Proof.
  unfold bind. destruct (m s) as [[[]|e] s1 e1]; cbn; [|reflexivity].
  rewrite app_nil_r. reflexivity.
Qed.


Section Fresh.

Variable shell : string -> fs -> Z * fs.
Variable aligner : list string -> behaviour.
Variable darwin : bool.
Variable os_makedirs : string -> fs -> option errno * fs.




(** The repetitions, one by one: they are numbered downwards, so that the
    last one is numbered 1. *)
Lemma repetitions_one a iostat_x n st c rs s :
  read_set st = Some rs -> 1 <= nprocess_of n (cf_mp_mt c) ->
  repetitions shell aligner darwin os_makedirs a iostat_x n st c 1 s
  = attempt shell aligner darwin os_makedirs a iostat_x c n
            (nprocess_of n (cf_mp_mt c)) (ntpp_of n (cf_mp_mt c)) rs 1 s.
Proof.
  intros Hrs Hn. unfold repetitions. fold (nprocess_of n (cf_mp_mt c)).
  fold (ntpp_of n (cf_mp_mt c)).
  rewrite (proj2 (Z.leb_le _ _) Hn). cbn [assert_]. rewrite bind_ret_l.
  rewrite Hrs, bind_ret_l.
  change (py_range 1) with [0]. cbn [for_each].
  change (1 - 0) with 1. apply bind_ret_r.
Qed.

Lemma repetitions_two a iostat_x n st c rs s :
  read_set st = Some rs -> 1 <= nprocess_of n (cf_mp_mt c) ->
  repetitions shell aligner darwin os_makedirs a iostat_x n st c 2 s
  = (attempt shell aligner darwin os_makedirs a iostat_x c n
             (nprocess_of n (cf_mp_mt c)) (ntpp_of n (cf_mp_mt c)) rs 2 >>
     attempt shell aligner darwin os_makedirs a iostat_x c n
             (nprocess_of n (cf_mp_mt c)) (ntpp_of n (cf_mp_mt c)) rs 1) s.
Proof.
  intros Hrs Hn. unfold repetitions. fold (nprocess_of n (cf_mp_mt c)).
  fold (ntpp_of n (cf_mp_mt c)).
  rewrite (proj2 (Z.leb_le _ _) Hn). cbn [assert_]. rewrite bind_ret_l.
  rewrite Hrs, bind_ret_l.
  change (py_range 2) with [0; 1]. cbn [for_each].
  change (2 - 0) with 2. change (2 - 1) with 1.
  apply bind_cong; [reflexivity|]. intros [] _. apply bind_ret_r.
Qed.

(** Repetitions that return have had their processes and their reads. *)
Lemma repetitions_runs a iostat_x n st c redo s u s' evs :
  runs (repetitions shell aligner darwin os_makedirs a iostat_x n st c redo)
       s u s' evs ->
  1 <= nprocess_of n (cf_mp_mt c) /\ exists rs, read_set st = Some rs.
Proof.
  unfold repetitions. fold (nprocess_of n (cf_mp_mt c)). intros H.
  apply runs_bind_inv in H as ([] & s1 & e1 & e2 & Ha & H & _).
  apply runs_assert_inv in Ha as (Ha & _).
  split; [apply Z.leb_le; exact Ha|].
  destruct (read_set st) as [rs|]; [eauto|].
  apply runs_bind_inv in H as (rs & s2 & e3 & e4 & Hr & _).
  destruct (runs_raise_inv _ _ _ _ _ Hr).
Qed.

(** The loop body for an entry that is not skipped, when it returns: what
    comes before the repetitions, then one or two of them. *)
Lemma pair_step_repetitions a iostat_x n st c s st' s' evs :
  skipped n (cf_mp_mt c) = false ->
  runs (pair_step shell aligner darwin os_makedirs a iostat_x n st c)
       s st' s' evs ->
  let run rs idx_rev :=
    attempt shell aligner darwin os_makedirs a iostat_x c n
            (nprocess_of n (cf_mp_mt c)) (ntpp_of n (cf_mp_mt c)) rs
            idx_rev in
  exists redo rs s1 e1,
    runs (pair_prologue shell os_makedirs a n st c) s (st', Some redo) s1 e1
    /\ redo = (if bool_decide (cf_tool c ∈ indexes_verified st)
                  && negb (regime_changed st c)
               then 1 else 2)
    /\ read_set st' = Some rs
    /\ evs = e1 ++ effects ((if redo =? 2 then run rs 2 >> run rs 1
                             else run rs 1) s1).
Proof.
  intros Hc H run. unfold pair_step in H.
  apply runs_bind_inv in H as ([st4 ro] & s4 & e7 & e8 & Hpro & Hk & ->).
  pose proof Hpro as Hok. apply pair_prologue_ok in Hok as (_ & Hcase).
  rewrite Hc in Hcase. destruct Hcase as (_ & Hcase).
  assert (Hro : ro = Some (if bool_decide (cf_tool c ∈ indexes_verified st)
                              && negb (regime_changed st c)
                           then 1 else 2)).
  { destruct (regime_changed st c).
    - destruct Hcase as (-> & _). rewrite andb_false_r. reflexivity.
    - destruct Hcase as (-> & _). rewrite andb_true_r. reflexivity. }
  clear Hcase. subst ro.
  set (redo := if bool_decide (cf_tool c ∈ indexes_verified st)
                  && negb (regime_changed st c) then 1 else 2) in *.
  apply runs_bind_inv in Hk as ([] & s5 & e9 & e10 & Hrep & Hret & ->).
  apply runs_ret_inv in Hret as (-> & -> & ->).
  destruct (repetitions_runs _ _ _ _ _ _ _ _ _ _ Hrep) as (Hn & rs & Hrs).
  exists redo, rs, s4, e7. split; [exact Hpro|]. split; [reflexivity|].
  split; [exact Hrs|]. rewrite app_nil_r. f_equal.
  apply runs_effects in Hrep. rewrite <- Hrep.
  assert (Hredo : redo = 1 \/ redo = 2)
    by (unfold redo; destruct (_ && _); auto).
  destruct Hredo as [-> | ->]; cbn [Z.eqb Pos.eqb].
  - rewrite (repetitions_one _ _ _ _ _ rs _ Hrs Hn). reflexivity.
  - rewrite (repetitions_two _ _ _ _ _ rs _ Hrs Hn). reflexivity.
Qed.


End Fresh.

(** ** The sweep controller *)

(** C2: the index of Bowtie 2 is incomplete (no file of it exists), the
    verification says so, and the sweep nevertheless runs both repetitions of
    the entry and ends normally. *)
Lemma missing_index_ignored :
  let o := sweep shell_sed aligner_ok false makedirs_plain (unpaired_args false) [2] ∅ in
  res (verify_index "idx" "bowtie2" ∅) = Ok false /\
  res o = Ok tt /\
  In (start_x "/dev/null" "/dev/null" "/dev/null") (effects o) /\
  In (start_x "tmp/x/unp/x_unp_0_0_2_1/out.sam"
              "out/unp/x/x_unp_0_0_2_1.out" "out/unp/x/x_unp_0_0_2_1.err")
     (effects o).
Proof.
  cbv zeta. split; [reflexivity|]. split; [vm_compute; reflexivity|]. split.
  - apply (lookup_In _ 12). vm_compute. reflexivity.
  - apply (lookup_In _ 26). vm_compute. reflexivity.
Qed.

Section Controller.

Variable shell : string -> fs -> Z * fs.
Variable aligner : list string -> behaviour.
Variable darwin : bool.
Variable os_makedirs : string -> fs -> option errno * fs.

(** C3 (as amended): an entry that is not skipped gets one repetition,
    and two exactly when its index was verified or its reads were prepared
    just before.  The repetitions run one after the other and are numbered
    downwards: one repetition is the one numbered 1, and of two the first
    is numbered 2 and the second, run when the first returns, is numbered
    1.  Every worker a repetition starts has the sinks of its number: the
    first of two sends the standard output, the standard error and the
    alignment output of every worker to the discard sink, the one numbered
    1 writes them under the output directory.  Every repetition, the first
    of two included, records the [JOIN] marker and the marker of its
    outcome under its own run name.  So, in all, a returning run of the loop
    body for such an entry is what comes before the repetitions, followed by
    the one repetition or by the two. *)
Theorem warm_up_policy (a : args) (iostat_x : bool) (c : config)
    (nthreads : Z) :
  let run nprocess ntpp rs idx_rev :=
    attempt shell aligner darwin os_makedirs a iostat_x c nthreads nprocess
            ntpp rs idx_rev in
  (forall st s st' redo,
      res (pair_prologue shell os_makedirs a nthreads st c s)
      = Ok (st', Some redo) ->
      redo = if bool_decide (cf_tool c ∈ indexes_verified st)
                && negb (regime_changed st c)
             then 1 else 2) /\
  (forall st rs s,
      read_set st = Some rs ->
      let nprocess := nprocess_of nthreads (cf_mp_mt c) in
      let ntpp := ntpp_of nthreads (cf_mp_mt c) in
      1 <= nprocess ->
      repetitions shell aligner darwin os_makedirs a iostat_x nthreads st c
                  1 s
      = run nprocess ntpp rs 1 s /\
      repetitions shell aligner darwin os_makedirs a iostat_x nthreads st c
                  2 s
      = (run nprocess ntpp rs 2 >> run nprocess ntpp rs 1) s) /\
  (forall nprocess ntpp rs idx_rev s cmd ofn efn,
      In (Start cmd ofn efn) (effects (run nprocess ntpp rs idx_rev s)) ->
      exists i, 0 <= i < nprocess /\
                started_with a c nthreads idx_rev i cmd ofn efn) /\
  (forall nprocess ntpp rs idx_rev ws s,
      1 <= nprocess ->
      sinks_ready os_makedirs a c nthreads nprocess idx_rev s ->
      workers_of a c nthreads nprocess ntpp rs idx_rev = Ok ws ->
      let run_name := run_name_of a c nthreads idx_rev 0 in
      let evs := effects (run nprocess ntpp rs idx_rev s) in
      In (Sys (touch_cmd a c run_name ".JOIN")) evs /\
      exists outcome, In (Sys (touch_cmd a c run_name (status_ext outcome))) evs) /\
  (forall st s st' s' evs,
      skipped nthreads (cf_mp_mt c) = false ->
      runs (pair_step shell aligner darwin os_makedirs a iostat_x nthreads
                      st c) s st' s' evs ->
      let nprocess := nprocess_of nthreads (cf_mp_mt c) in
      let ntpp := ntpp_of nthreads (cf_mp_mt c) in
      exists redo rs s1 e1,
        runs (pair_prologue shell os_makedirs a nthreads st c)
             s (st', Some redo) s1 e1 /\
        redo = (if bool_decide (cf_tool c ∈ indexes_verified st)
                   && negb (regime_changed st c)
                then 1 else 2) /\
        read_set st' = Some rs /\
        evs = e1 ++ effects ((if redo =? 2
                              then run nprocess ntpp rs 2
                                   >> run nprocess ntpp rs 1
                              else run nprocess ntpp rs 1) s1)).
Proof.
  cbv zeta. split; [|split; [|split; [|split]]].
  - intros st s st' redo H. apply res_ok_runs in H.
    apply pair_prologue_ok in H as (_ & Hcase).
    destruct (skipped nthreads (cf_mp_mt c)).
    { destruct Hcase as (Hro & _). discriminate Hro. }
    destruct Hcase as (_ & Hcase).
    destruct (regime_changed st c).
    + destruct Hcase as ([= ->] & _). rewrite andb_false_r. reflexivity.
    + destruct Hcase as ([= ->] & _). rewrite andb_true_r. reflexivity.
  - intros st rs s Hrs Hn. split.
    + apply repetitions_one; assumption.
    + apply repetitions_two; assumption.
  - intros nprocess ntpp rs idx_rev s cmd ofn efn H.
    apply attempt_starts in H as (ws & Hws & Hin).
    apply (workers_of_sinks _ _ _ _ _ _ _ _ _ Hws Hin).
  - intros nprocess ntpp rs idx_rev ws s Hn Hsk Hws.
    destruct (attempt_sentinels shell aligner darwin os_makedirs a iostat_x
                c nthreads nprocess ntpp rs idx_rev ws s Hn Hsk Hws)
      as (r & before & rest & _ & Heff & _).
    rewrite Heff. split.
    + apply in_or_app. right. left. reflexivity.
    + exists (classify (sr_exitlevels r)).
      apply in_or_app. right. right. left. reflexivity.
  - intros st s st' s' evs Hc H.
    exact (pair_step_repetitions shell aligner darwin os_makedirs a iostat_x
             nthreads st c s st' s' evs Hc H).
Qed.

Lemma regime_changed_pair st c :
  (last_mp_mt st, last_blocked st) <> (Some (cf_mp_mt c), is_blocked c) ->
  regime_changed st c = true.
Proof.
  unfold regime_changed. intros H.
  destruct (last_mp_mt st) as [m|]; [|reflexivity].
  destruct (Z.eqb_spec (cf_mp_mt c) m) as [E1|]; [|reflexivity].
  destruct (Bool.eqb_spec (is_blocked c) (last_blocked st)) as [E|];
    [|reflexivity].
  exfalso. apply H. congruence.
Qed.

(** C4 (as amended): when the pair (threads per process, blocked) of an
    entry that is not skipped differs from the tracked one, the files of the
    read set in use are removed before the partitioner is called; a sweep
    whose loops end normally removes the files of the last read set; a sweep
    whose loops raise does nothing after the error, and removes nothing. *)
Theorem purge_policy (a : args) :
  (forall nthreads st c s st' redo rs,
      res (pair_prologue shell os_makedirs a nthreads st c s) = Ok (st', Some redo) ->
      (last_mp_mt st, last_blocked st) <> (Some (cf_mp_mt c), is_blocked c) ->
      read_set st = Some rs ->
      exists pre post,
        effects (pair_prologue shell os_makedirs a nthreads st c s)
        = pre ++ map Remove (concat rs) ++ post /\
        Forall plain pre /\ sys_cmds pre = [] /\
        In (PrepareReads nthreads (cf_mp_mt c) (reads_dir a c) (is_blocked c))
           post) /\
  (forall series s st rs,
      res (sweep_loops shell aligner darwin os_makedirs a series s) = Ok st ->
      read_set st = Some rs ->
      res (sweep shell aligner darwin os_makedirs a series s) = Ok tt ->
      effects (sweep shell aligner darwin os_makedirs a series s)
      = effects (sweep_loops shell aligner darwin os_makedirs a series s)
        ++ map Remove (concat rs) /\
      forall f, In f (concat rs) ->
        fs_after (sweep shell aligner darwin os_makedirs a series s) !! f = None) /\
  (forall series s e,
      res (sweep_loops shell aligner darwin os_makedirs a series s) = Raise e ->
      sweep shell aligner darwin os_makedirs a series s
      = Outcome (Raise e)
                (fs_after (sweep_loops shell aligner darwin os_makedirs a series s))
                (effects (sweep_loops shell aligner darwin os_makedirs a series s))).
Proof.
  repeat split.
  - intros nthreads st c s st' redo rs H Hpair Hrs.
    apply res_ok_runs in H. apply pair_prologue_ok in H as (_ & Hcase).
    destruct (skipped nthreads (cf_mp_mt c)).
    { destruct Hcase as (Hro & _). discriminate Hro. }
    destruct Hcase as (_ & Hcase).
    rewrite (regime_changed_pair st c Hpair) in Hcase.
    destruct Hcase as (_ & _ & rs' & pre & mid & e_prep & _ & Hevs & Hpre
                       & Hcmd & _).
    rewrite Hrs in Hevs. cbn [purge_effects] in Hevs.
    exists pre. eexists. split; [exact Hevs|]. split; [exact Hpre|].
    split; [exact Hcmd|]. apply in_or_app. right. left. reflexivity.
  - unfold sweep in *. rewrite effects_bind, H.
    rewrite res_bind, H in H1. rewrite H0 in *.
    apply res_ok_runs in H1. apply purge_removes in H1 as [-> _].
    reflexivity.
  - intros f Hf. unfold sweep in *. rewrite fs_after_bind, H.
    rewrite res_bind, H in H1. rewrite H0 in *.
    apply res_ok_runs in H1. apply purge_removes in H1 as [_ Hgone]. auto.
  - intros series s e H. unfold sweep. apply bind_raise.
    rewrite <- H. apply outcome_eta.
Qed.


End Controller.

Lemma warm_up_policy_witness :
  let st := CtlState ∅ (Some [["tmp/x/unp/1.fq"]]) (Some 0) false in
  let run := attempt shell_idle aligner_ok false makedirs_plain
                     (unpaired_args false) true entry_x 2 1 2
                     [["tmp/x/unp/1.fq"]] in
  repetitions shell_idle aligner_ok false makedirs_plain (unpaired_args false)
              true 2 st entry_x 2 ∅
  = (run 2 >> run 1) ∅ /\
  In (Sys "touch out/unp/x/x_unp_0_0_2_2.JOIN") (effects (run 2 ∅)).
Proof.
  cbv zeta. split.
  - refine (proj2 (proj1 (proj2
              (warm_up_policy shell_idle aligner_ok false makedirs_plain
                 (unpaired_args false) true entry_x 2))
              (CtlState ∅ (Some [["tmp/x/unp/1.fq"]]) (Some 0) false)
              [["tmp/x/unp/1.fq"]] ∅ eq_refl _)).
    vm_compute. discriminate.
  - refine (proj1 (proj1 (proj2 (proj2 (proj2
              (warm_up_policy shell_idle aligner_ok false makedirs_plain
                 (unpaired_args false) true entry_x 2))))
              1 2 [["tmp/x/unp/1.fq"]] 2 workers_x_warm_up ∅ _ _ _)).
    + lia.
    + eexists. reflexivity.
    + vm_compute. reflexivity.
Defined.

(** C3 (as stated) fails: in a sweep of one entry at two threads, the first
    of the two repetitions, numbered 2, leaves a [JOIN] and a [SUCCEED]
    marker. *)
Lemma warm_up_leaves_sentinels :
  let evs := effects (sweep shell_sed aligner_ok false makedirs_plain (unpaired_args false)
                            [2] ∅) in
  In (Attempt "x_unp_0_0_2_2" 2 2) evs /\
  In (Attempt "x_unp_0_0_2_1" 2 1) evs /\
  In (Sys "touch out/unp/x/x_unp_0_0_2_2.JOIN") evs /\
  In (Sys "touch out/unp/x/x_unp_0_0_2_2.SUCCEED") evs.
Proof.
  cbv zeta. split; [|split; [|split]].
  - apply (lookup_In _ 5). vm_compute. reflexivity.
  - apply (lookup_In _ 18). vm_compute. reflexivity.
  - apply (lookup_In _ 16). vm_compute. reflexivity.
  - apply (lookup_In _ 17). vm_compute. reflexivity.
Qed.

Lemma purge_policy_witness :
  sweep shell_sed aligner_broken false makedirs_plain (unpaired_args true) [2] ∅
  = Outcome
      (Raise (RuntimeError
                "At least one subprocess exited with non-zero exit level"))
      (fs_after (sweep_loops shell_sed aligner_broken false makedirs_plain
                             (unpaired_args true) [2] ∅))
      (effects (sweep_loops shell_sed aligner_broken false makedirs_plain
                            (unpaired_args true) [2] ∅)).
Proof.
  refine (proj2 (proj2 (purge_policy shell_sed aligner_broken false
                          makedirs_plain (unpaired_args true))) [2] ∅ _ _).
  vm_compute. reflexivity.
Defined.

(** C4 (as stated) fails: with the stop-on-fail option and an aligner that
    cannot be started, the sweep ends with the raised error, the slice of
    reads is still on disk and no removal has been performed. *)
Lemma early_stop_leaves_reads :
  let o := sweep shell_sed aligner_broken false makedirs_plain (unpaired_args true) [2] ∅ in
  res o = Raise (RuntimeError
                   "At least one subprocess exited with non-zero exit level") /\
  In (PrepareReads 2 0 "tmp/x/unp" false) (effects o) /\
  fs_after o !! "tmp/x/unp/1.fq" = Some (File 16) /\
  Forall (fun e => e <> Remove "tmp/x/unp/1.fq") (effects o).
Proof.
  cbv zeta. split; [vm_compute; reflexivity|]. split.
  - apply (lookup_In _ 3). vm_compute. reflexivity.
  - split; [vm_compute; reflexivity|].
    vm_compute. repeat (constructor; [discriminate|]). constructor.
Qed.


(** ** The size of the read set *)

Section Sizes.

Variable shell : string -> fs -> Z * fs.
Variable aligner : list string -> behaviour.
Variable darwin : bool.
Variable os_makedirs : string -> fs -> option errno * fs.

Lemma expected_slices_length a tmpdir i s l s' evs :
  runs (expected_slices a tmpdir i) s l s' evs ->
  s' = s /\ evs = [] /\ length l = mates a.
Proof.
  unfold expected_slices, mates. intros H.
  apply runs_bind_inv in H as (lab & s2 & e4 & e5 & Hl & H & ->).
  apply runs_lift_inv in Hl as (_ & -> & ->).
  apply runs_bind_inv in H as (e0 & s2 & e6 & e7 & He & H & ->).
  apply runs_exists_inv in He as (-> & -> & ->).
  destruct (negb _); [destruct (runs_raise_inv _ _ _ _ _ H)|].
  destruct (a_m2 a) as [m2|].
  - apply runs_bind_inv in H as (e1 & s2 & e8 & e9 & He & H & ->).
    apply runs_exists_inv in He as (-> & -> & ->).
    destruct (negb _); [destruct (runs_raise_inv _ _ _ _ _ H)|].
    apply runs_ret_inv in H as (-> & -> & ->). auto.
  - apply runs_ret_inv in H as (-> & -> & ->). auto.
Qed.

(** The read set [prepare_reads] returns fits the processes of the
    entry. *)
Lemma prepare_reads_fits a nthreads mp_mt tmpdir blocked s rs s' evs :
  0 <= nthreads ->
  runs (prepare_reads shell a nthreads mp_mt tmpdir blocked) s rs s' evs ->
  fits a (nprocess_of nthreads mp_mt) rs.
Proof.
  intros Hn H. unfold prepare_reads in H.
  destruct (Z.ltb_spec 0 mp_mt) as [Hmp|Hmp].
  - destruct blocked; [destruct (runs_raise_inv _ _ _ _ _ H)|].
    apply runs_bind_inv in H as ([] & s1 & e1 & e2 & _ & H & ->).
    apply runs_bind_inv in H as (q & s2 & e3 & e4 & _ & H & ->).
    apply runs_bind_inv in H as ([] & s3 & e5 & e6 & _ & H & ->).
    apply runs_bind_inv in H as ([] & s4 & e7 & e8 & _ & H & ->).
    apply runs_bind_inv in H as (rs' & s5 & e9 & e10 & Hc & H & ->).
    apply runs_bind_inv in H as (lab & s6 & e11 & e12 & _ & H & ->).
    apply runs_bind_inv in H as (extra & s7 & e13 & e14 & _ & H & ->).
    destruct extra; [destruct (runs_raise_inv _ _ _ _ _ H)|].
    apply runs_ret_inv in H as (-> & _ & _).
    apply for_collect_probe in Hc as (_ & _ & Hall).
    2:{ intros x sx b sx' ex Hx.
        apply expected_slices_length in Hx. tauto. }
    assert (Hq : 0 <= nthreads / mp_mt) by (apply Z.div_pos; lia).
    unfold int_plus_eps in Hall.
    destruct (Z.ltb_spec (nthreads / mp_mt) 0) as [|_]; [lia|].
    unfold nprocess_of.
    destruct (Z.eqb_spec mp_mt 0) as [|_]; [lia|].
    intros k Hk.
    assert (Hlen : length rs' = Z.to_nat (nthreads / mp_mt)).
    { rewrite <- (Forall2_length _ _ _ Hall).
      unfold py_range. rewrite length_map, length_seq. reflexivity. }
    destruct (lookup_lt_is_Some_2 rs' k) as [l Hl]; [lia|].
    exists l. split; [exact Hl|].
    destruct (Forall2_lookup_r _ _ _ _ _ Hall Hl) as (x & _ & Hx).
    apply expected_slices_length in Hx as (_ & _ & ->). lia.
  - assert (Hone : (Z.to_nat (nprocess_of nthreads mp_mt) <= 1)%nat).
    { unfold nprocess_of. destruct (Z.eqb_spec mp_mt 0) as [|Hne]; [lia|].
      assert (nthreads / mp_mt <= 0); [|lia].
      rewrite <- Z.div_opp_opp by lia.
      apply Z.div_le_upper_bound; lia. }
    apply runs_bind_inv in H as ([] & s1 & e1 & e2 & _ & H & ->).
    unfold fits, mates. intros k Hk.
    assert (k = 0%nat) as -> by lia.
    destruct (a_m2 a) as [m2|].
    + apply runs_bind_inv in H as ([] & s2 & e3 & e4 & _ & H & ->).
      apply runs_ret_inv in H as (-> & _ & _). eexists. split; [reflexivity|].
      cbn. lia.
    + apply runs_ret_inv in H as (-> & _ & _). eexists. split; [reflexivity|].
      cbn. lia.
Qed.

Lemma read_set_sized_ext a n st st' :
  read_set st' = read_set st -> last_mp_mt st' = last_mp_mt st ->
  read_set_sized a n st -> read_set_sized a n st'.
Proof. unfold read_set_sized. intros -> ->. auto. Qed.

Lemma regime_kept st c :
  regime_changed st c = false -> last_mp_mt st = Some (cf_mp_mt c).
Proof.
  unfold regime_changed. intros H.
  apply orb_false_iff in H as [H _].
  destruct (last_mp_mt st) as [m|]; [|discriminate].
  apply negb_false_iff, Z.eqb_eq in H. congruence.
Qed.

(** The start of a pair keeps the read set sized, and leaves an entry that
    is not skipped with a read set that fits its processes. *)
Lemma pair_prologue_sized a n st c s st' ro s' evs :
  0 <= n ->
  read_set_sized a n st ->
  runs (pair_prologue shell os_makedirs a n st c) s (st', ro) s' evs ->
  read_set_sized a n st' /\
  (ro <> None ->
   exists rs, read_set st' = Some rs
              /\ fits a (nprocess_of n (cf_mp_mt c)) rs).
Proof.
  intros Hn Hs H. unfold pair_prologue in H.
  apply runs_bind_inv in H as (ex & sa & ea & eb & _ & H & _).
  apply runs_bind_inv in H as ([] & sb & e1 & ec & _ & H & _).
  apply runs_bind_inv in H as ([st1 redo1] & sc & e3 & ed & Hver & H & _).
  assert (Hv : read_set st1 = read_set st /\ last_mp_mt st1 = last_mp_mt st).
  { destruct (decide (cf_tool c ∈ indexes_verified st)).
    - apply runs_ret_inv in Hver as ([= -> ->] & _). auto.
    - apply runs_bind_inv in Hver as (b & sd & e5 & e6 & _ & Hr & _).
      apply runs_ret_inv in Hr as ([= -> ->] & _). auto. }
  destruct Hv as [Hrs Hmm]. clear Hver.
  pose proof (read_set_sized_ext a n st st1 Hrs Hmm Hs) as Hs1.
  destruct (skipped n (cf_mp_mt c)).
  { apply runs_ret_inv in H as ([= -> ->] & _).
    split; [exact Hs1|]. intros Hne. destruct (Hne eq_refl). }
  apply runs_bind_inv in H as ([st2 redo2] & se & ee & ef & Hprep & H & _).
  apply runs_ret_inv in H as ([= -> ->] & _).
  cbn [read_set last_mp_mt].
  destruct (regime_changed st1 c) eqn:Hch.
  - apply runs_bind_inv in Hprep as ([] & sf & e7 & eg & _ & Hprep & _).
    apply runs_bind_inv in Hprep as ([] & sg & e9 & eh & _ & Hprep & _).
    apply runs_bind_inv in Hprep as ([] & sh & e11 & ei & _ & Hprep & _).
    apply runs_bind_inv in Hprep as (rs & si & e13 & ej & Hpr & Hret & _).
    apply runs_ret_inv in Hret as ([= -> ->] & _).
    apply prepare_reads_fits in Hpr; [|exact Hn].
    cbn [read_set last_mp_mt]. split.
    + unfold read_set_sized. cbn [read_set last_mp_mt].
      intros m [= <-]. eauto.
    + intros _. eauto.
  - apply runs_ret_inv in Hprep as ([= -> ->] & _).
    apply regime_kept in Hch. split.
    + unfold read_set_sized. cbn [read_set last_mp_mt]. exact Hs1.
    + intros _. exact (Hs1 _ Hch).
Qed.

Lemma runs_pair_step_inv a iostat_x n st c s st' s' evs :
  runs (pair_step shell aligner darwin os_makedirs a iostat_x n st c) s st' s' evs ->
  exists ro s1 e1, runs (pair_prologue shell os_makedirs a n st c) s (st', ro) s1 e1.
Proof.
  unfold pair_step. intros H.
  apply runs_bind_inv in H as ([st1 ro] & s1 & e1 & e2 & Hp & H & _).
  destruct ro as [redo|].
  - apply runs_bind_inv in H as ([] & s2 & e3 & e4 & _ & H & _).
    apply runs_ret_inv in H as (-> & _). eauto.
  - apply runs_ret_inv in H as (-> & _). eauto.
Qed.

Lemma fold_pair_sized a iostat_x n (cs : list config) :
  0 <= n ->
  forall st s st' s' evs,
    read_set_sized a n st ->
    runs (for_fold cs (pair_step shell aligner darwin os_makedirs a iostat_x n) st)
         s st' s' evs ->
    read_set_sized a n st'.
Proof.
  intros Hn. induction cs as [|c cs IH]; intros st s st' s' evs Hs H;
    apply runs_for_fold_inv in H.
  - destruct H as (-> & _). exact Hs.
  - destruct H as (st1 & s1 & e1 & e2 & H1 & H2 & _).
    apply runs_pair_step_inv in H1 as (ro & s2 & e3 & H1).
    apply (IH _ _ _ _ _ (proj1 (pair_prologue_sized _ _ _ _ _ _ _ _ _
                                   Hn Hs H1)) H2).
Qed.

(** X23: Throughout the entries of one number of threads, the read set an
    entry runs with fits its group of workers: whether it was prepared for
    this entry or is reused from an earlier entry of the same pair, it
    holds the files of the mates in use for each process of the entry, so
    the commands of its repetitions can be built without an index out of
    range.  [st0] is the state at the start of the number of threads, its
    tracker unset; [earlier] are the entries before [c]. *)
Theorem read_set_fits_group (a : args) (iostat_x : bool) (nthreads : Z)
    (earlier : list config) (c : config) (st0 st1 st2 : ctl_state)
    (s s1 : fs) (e1 : list effect) (redo : Z) :
  0 <= nthreads ->
  last_mp_mt st0 = None ->
  runs (for_fold earlier
          (pair_step shell aligner darwin os_makedirs a iostat_x nthreads) st0)
       s st1 s1 e1 ->
  res (pair_prologue shell os_makedirs a nthreads st1 c s1) = Ok (st2, Some redo) ->
  exists rs,
    read_set st2 = Some rs /\
    fits a (nprocess_of nthreads (cf_mp_mt c)) rs /\
    forall exe ntpp idx_rev,
      tool_exe (cf_tool c) = Ok exe ->
      exists ws,
        workers_of a c nthreads (nprocess_of nthreads (cf_mp_mt c)) ntpp rs
                   idx_rev = Ok ws.
Proof.
  intros Hn H0 Hfold Hp.
  assert (Hs0 : read_set_sized a nthreads st0).
  { intros m Hm. congruence. }
  pose proof (fold_pair_sized _ _ _ _ Hn _ _ _ _ _ Hs0 Hfold) as Hs1.
  apply res_ok_runs in Hp.
  destruct (pair_prologue_sized _ _ _ _ _ _ _ _ _ Hn Hs1 Hp) as [_ Hfit].
  destruct Hfit as (rs & Hrs & Hfits); [discriminate|].
  exists rs. split; [exact Hrs|]. split; [exact Hfits|].
  intros exe ntpp idx_rev Hexe.
  destruct (workers_of_fits a c nthreads _ ntpp rs idx_rev exe Hexe Hfits)
    as (ws & Hws & _).
  eauto.
Qed.

End Sizes.

Lemma read_set_fits_group_witness :
  match res (pair_prologue shell_sed makedirs_plain (unpaired_args false) 2
               (CtlState ∅ None None false) entry_x ∅) with
  | Ok (st2, Some _) =>
      exists rs, read_set st2 = Some rs /\ fits (unpaired_args false) 1 rs
  | _ => False
  end.
Proof.
  destruct (res (pair_prologue shell_sed makedirs_plain (unpaired_args false) 2
                   (CtlState ∅ None None false) entry_x ∅))
    as [[st2 [redo|]]|e] eqn:E.
  - destruct (read_set_fits_group shell_sed aligner_ok false makedirs_plain
                (unpaired_args false) false 2 [] entry_x
                (CtlState ∅ None None false) (CtlState ∅ None None false) st2
                ∅ ∅ [] redo) as (rs & H1 & H2 & _);
      [lia | reflexivity | reflexivity | exact E |].
    exists rs. split; [exact H1 | exact H2].
  - vm_compute in E. discriminate E.
  - vm_compute in E. discriminate E.
Defined.

(** ** The whole run *)

(** [int] has one way to fail. *)
Lemma int_raises (s : string) (e : exn) : Py.int s = Raise e -> e = ValueError.
Proof.
  unfold Py.int.
  match goal with
  | |- (let '(_, _) := ?x in _) = _ -> _ => destruct x as [neg ds]
  end.
  destruct ds as [|d ds]; [intros [= <-]; reflexivity|].
  destruct (Py.digits_val 0 (d :: ds));
    [discriminate | intros [= <-]; reflexivity].
Qed.

Lemma result_collect_int (l : list string) :
  match result_collect Py.int l with
  | Ok ys => length ys = length l
  | Raise e => e = ValueError
  end.
Proof.
  induction l as [|x l IH]; cbn [result_collect]; [reflexivity|].
  destruct (Py.int x) as [y|e] eqn:Ex; cbn [rbind];
    [|exact (int_raises _ _ Ex)].
  destruct (result_collect Py.int l) as [ys|e]; cbn [rbind length]; auto.
Qed.

Lemma split_on_length (sep : ascii) (s : string) :
  (1 <= length (Py.split_on sep s))%nat.
Proof.
  induction s as [|ch s IH]; cbn [Py.split_on length]; [lia|].
  destruct (Ascii.eqb ch sep); cbn [length]; [lia|].
  destruct (Py.split_on sep s); cbn [length]; lia.
Qed.

(** X24: The series of thread counts is never empty, and the only error of its
    parsing is the [ValueError] of [int]: the assertion [len(series) > 0]
    cannot fail, a string without a comma still being one field. *)
Theorem parse_series_errors (nthread_series : string) :
  match parse_series nthread_series with
  | Ok series => series <> []
  | Raise e => e = ValueError
  end.
Proof.
  unfold parse_series.
  pose proof (result_collect_int (Py.split_on "," nthread_series)) as H.
  pose proof (split_on_length "," nthread_series) as Hlen.
  destruct (result_collect Py.int _) as [series|e]; cbn [rbind]; [|exact H].
  destruct series as [|n series]; [cbn in H; lia|].
  cbn [length Nat.ltb Nat.leb]. discriminate.
Qed.

Lemma fold_max_ge (rest : list Z) :
  forall x, x <= fold_left Z.max rest x
            /\ forall n, In n rest -> n <= fold_left Z.max rest x.
Proof.
  induction rest as [|y rest IH]; intros x; cbn [fold_left].
  - split; [lia|]. intros n [].
  - destruct (IH (Z.max x y)) as [H1 H2]. split; [lia|].
    intros n [<-|Hin]; [lia|auto].
Qed.

Lemma py_max_ge (l : list Z) (m : Z) :
  py_max l = Ok m -> forall n, In n l -> n <= m.
Proof.
  destruct l as [|x rest]; [discriminate|]. intros [= <-] n [Hx|Hin].
  - subst n. apply (proj1 (fold_max_ge rest x)).
  - apply (proj2 (fold_max_ge rest x)), Hin.
Qed.

Section Run.

Variable shell : string -> fs -> Z * fs.
Variable aligner : list string -> behaviour.
Variable darwin : bool.
Variable os_makedirs : string -> fs -> option errno * fs.
Variable shutil_rmtree : string -> fs -> option errno * fs.

Lemma isdir_outcome p s :
  isdir p s
  = Outcome (Ok (match s !! p with Some Dir => true | _ => false end)) s [].
Proof. reflexivity. Qed.

Lemma setup_tmpdir_file (a : args) (s : fs) (n : Z) :
  s !! a_tempdir a = Some (File n) ->
  setup_tmpdir shell os_makedirs a s
  = Outcome (Raise (RuntimeError "Temporary directory isn't a directory"))
            s [].
Proof.
  intros H. unfold setup_tmpdir.
  rewrite (bind_probe _ _ _ _ (exists_outcome _ s)).
  unfold present. rewrite H. cbn [negb]. rewrite bind_ret_l.
  rewrite (bind_probe _ _ _ _ (isdir_outcome _ s)). rewrite H. reflexivity.
Qed.

(** X25: A temporary directory that is a regular file stops the run at once:
    [go] raises before it has run a command or touched a file. *)
Theorem go_tempdir_is_file (a : args) (nthread_series : string)
    (no_count : bool) (s : fs) (n : Z) :
  s !! a_tempdir a = Some (File n) ->
  go shell aligner darwin os_makedirs shutil_rmtree a nthread_series no_count s
  = Outcome (Raise (RuntimeError "Temporary directory isn't a directory"))
            s [].
Proof.
  intros H. unfold go, prepare_run.
  apply bind_raise, bind_raise, setup_tmpdir_file with (n := n), H.
Qed.

Lemma runs_verify_reads_inv fns s b s' evs :
  runs (verify_reads fns) s b s' evs ->
  forallb (regular_file s) fns = true /\ s' = s /\ evs = [].
Proof.
  unfold runs. rewrite verify_reads_outcome.
  destruct (forallb (regular_file s) fns); [|discriminate].
  intros [= _ <- <-]. auto.
Qed.

Lemma runs_count_reads_inv a series s u s' evs :
  runs (count_reads a series) s u s' evs ->
  s' = s /\ evs = [] /\
  exists lines biggest,
    s !! a_m1 a = Some (File lines) /\ py_max series = Ok biggest /\
    a_reads_per_thread a * biggest <= lines / 4.
Proof.
  unfold count_reads. intros H.
  apply runs_bind_inv in H as (lines & s1 & e1 & e2 & H1 & H & ->).
  apply runs_wcl_inv in H1 as (H1 & -> & ->).
  apply runs_bind_inv in H as (lb & s1 & e1 & e3 & H2 & H & ->).
  apply runs_wcl_inv in H2 as (_ & -> & ->).
  apply runs_bind_inv in H as (m & s1 & e1 & e4 & H3 & H & ->).
  apply runs_lift_inv in H3 as (H3 & -> & ->).
  destruct (Z.ltb_spec (lines / 4) (a_reads_per_thread a * m)) as [|Hle];
    [destruct (runs_raise_inv _ _ _ _ _ H)|].
  apply runs_ret_inv in H as (_ & -> & ->). eauto 8.
Qed.

(** X26: The sweep of [go] starts only once the input is checked: the series
    parses, every reads file that is given is a regular file, and, unless
    [--no-count] is given, the mate-1 input holds the reads of the biggest
    experiment, so of each of them: readsPerThread x nthreads is at most a
    quarter of its lines, for every number of threads of the series.  [s0]
    is the file system the sweep starts from. *)
Theorem sweep_starts_checked (a : args) (nthread_series : string)
    (no_count : bool) (s : fs) (series : list Z) :
  res (prepare_run shell os_makedirs shutil_rmtree a nthread_series no_count s) = Ok series ->
  let s0 := fs_after (prepare_run shell os_makedirs shutil_rmtree a nthread_series no_count s) in
  parse_series nthread_series = Ok series /\
  forallb (regular_file s0)
          [Some (a_m1 a); a_m2 a; Some (a_m1b a); a_m2b a] = true /\
  (no_count = false -> 0 <= a_reads_per_thread a ->
   exists lines,
     s0 !! a_m1 a = Some (File lines) /\
     forall n, In n series -> a_reads_per_thread a * n <= lines / 4).
Proof.
  intros H. cbv zeta. apply res_ok_runs in H.
  remember (fs_after (prepare_run shell os_makedirs shutil_rmtree a nthread_series no_count s)) as s0
    eqn:E0.
  remember (effects (prepare_run shell os_makedirs shutil_rmtree a nthread_series no_count s)) as evs
    eqn:E1.
  clear E0 E1. unfold prepare_run in H.
  apply runs_bind_inv in H as ([] & s1 & e1 & e2 & _ & H & ->).
  apply runs_bind_inv in H as ([] & s2 & e3 & e4 & _ & H & ->).
  apply runs_bind_inv in H as (st & s3 & e5 & e6 & _ & H & ->).
  apply runs_bind_inv in H as (series' & s4 & e7 & e8 & Hp & H & ->).
  apply runs_lift_inv in Hp as (Hp & -> & ->).
  apply runs_bind_inv in H as (b & s4 & e9 & e10 & Hv & H & ->).
  apply runs_verify_reads_inv in Hv as (Hv & -> & ->).
  apply runs_bind_inv in H as ([] & s4 & e11 & e12 & Hc & H & ->).
  apply runs_ret_inv in H as (-> & -> & ->).
  destruct no_count; cbn [negb] in Hc.
  - apply runs_ret_inv in Hc as (_ & -> & ->).
    repeat split; auto. discriminate.
  - apply runs_count_reads_inv in Hc
      as (-> & -> & lines & biggest & Hl & Hm & Hle).
    repeat split; auto. intros _ Hrpt. exists lines. split; [exact Hl|].
    intros n Hin. pose proof (py_max_ge _ _ Hm n Hin). nia.
Qed.

Lemma effects_os_system cmd s : effects (os_system shell cmd s) = [Sys cmd].
Proof. rewrite os_system_outcome. reflexivity. Qed.

Lemma setup_os_system cmd s :
  Forall setup_effect (effects (os_system shell cmd s)).
Proof. rewrite effects_os_system. repeat constructor. Qed.

Lemma setup_mkdir_quiet d s : Forall setup_effect (effects (mkdir_quiet os_makedirs d s)).
Proof. apply effects_mkdir_quiet_Forall. exact I. Qed.

Lemma setup_lift {A} (r : result A) s : Forall setup_effect (effects (lift r s)).
Proof. rewrite effects_lift. constructor. Qed.

Lemma setup_make_tool_version name tool preproc d s :
  Forall setup_effect (effects (make_tool_version shell name tool preproc d s)).
Proof.
  unfold make_tool_version.
  apply effects_bind_Forall; [apply setup_lift|]. intros exe s1.
  apply effects_bind_Forall; [apply setup_os_system|]. intros r s2.
  destruct (negb _); constructor.
Qed.

Lemma setup_setup_entry a st c s :
  Forall setup_effect (effects (setup_entry shell os_makedirs shutil_rmtree a st c s)).
Proof.
  unfold setup_entry. destruct (_ && _); [constructor|].
  apply effects_bind_Forall; [rewrite effects_assert; constructor|].
  intros _ s1.
  apply effects_bind_Forall.
  { unfold mark_entry.
    apply effects_bind_Forall; [constructor|]. intros ex s2.
    destruct (ex && _); [|destruct ex; constructor].
    apply effects_bind_Forall; [|intros; constructor].
    unfold rmtree. destruct (shutil_rmtree _ s2) as [err s3].
    repeat constructor. }
  intros [build pull] s2.
  apply effects_bind_Forall; [|intros [[[np nb] nc] nl] s3; constructor].
  destruct (pull && _).
  { apply effects_bind_Forall; [apply setup_os_system|]. intros _ s3.
    apply effects_bind_Forall; [apply setup_make_tool_version|].
    intros; constructor. }
  destruct (_ && _).
  { apply effects_bind_Forall; [apply setup_mkdir_quiet|]. intros _ s3.
    apply effects_bind_Forall; [apply setup_os_system|].
    intros; constructor. }
  destruct (_ && _).
  { apply effects_bind_Forall; [apply setup_mkdir_quiet|]. intros _ s3.
    apply effects_bind_Forall; [apply setup_os_system|]. intros _ s4.
    apply effects_bind_Forall; [apply setup_lift|]. intros exe s5.
    apply effects_bind_Forall; [apply effects_os_remove_Forall; exact I|].
    intros _ s6.
    apply effects_bind_Forall; [apply setup_make_tool_version|].
    intros; constructor. }
  destruct build; [|constructor].
  apply effects_bind_Forall; [apply setup_lift|]. intros url s3.
  apply effects_bind_Forall; [|intros; constructor].
  unfold install_tool_version.
  apply effects_bind_Forall; [apply setup_os_system|]. intros r s4.
  destruct (negb _); [constructor|apply setup_make_tool_version].
Qed.

Lemma setup_for_fold {A S} (body : S -> A -> M S) :
  (forall st x s, Forall setup_effect (effects (body st x s))) ->
  forall xs st s, Forall setup_effect (effects (for_fold xs body st s)).
Proof.
  intros Hb. induction xs as [|x xs IH]; intros st s; cbn [for_fold].
  - constructor.
  - apply effects_bind_Forall; [apply Hb|]. intros; apply IH.
Qed.

Lemma setup_prepare_run a nthread_series no_count s :
  Forall setup_effect (effects (prepare_run shell os_makedirs shutil_rmtree a nthread_series no_count s)).
Proof.
  unfold prepare_run.
  apply effects_bind_Forall.
  { unfold setup_tmpdir.
    apply effects_bind_Forall; [constructor|]. intros ex s1.
    apply effects_bind_Forall.
    { destruct (negb ex); [apply setup_mkdir_quiet|constructor]. }
    intros _ s2.
    apply effects_bind_Forall; [constructor|]. intros d s3.
    destruct (negb d); [constructor|].
    apply effects_bind_Forall; [apply setup_os_system|]. intros _ s4.
    apply effects_bind_Forall; [apply setup_os_system|].
    intros; constructor. }
  intros _ s1.
  apply effects_bind_Forall.
  { unfold setup_output_dir.
    apply effects_bind_Forall; [constructor|]. intros ex s2.
    destruct (negb ex); [apply setup_mkdir_quiet|constructor]. }
  intros _ s2.
  apply effects_bind_Forall.
  { unfold setup_binaries. destruct (get_configs (a_config a)) as [cs e].
    apply effects_bind_Forall.
    - apply setup_for_fold. intros; apply setup_setup_entry.
    - intros st s3. destruct e; constructor. }
  intros st s3.
  apply effects_bind_Forall; [apply setup_lift|]. intros series s4.
  apply effects_bind_Forall.
  { rewrite verify_reads_outcome. constructor. }
  intros _ s5.
  apply effects_bind_Forall; [|intros; constructor].
  destruct (negb no_count); [|constructor].
  unfold count_reads.
  apply effects_bind_Forall; [rewrite effects_wcl; constructor|].
  intros lines s6.
  apply effects_bind_Forall; [rewrite effects_wcl; constructor|].
  intros _ s7.
  apply effects_bind_Forall; [apply setup_lift|]. intros m s8.
  destruct (_ <? _); constructor.
Qed.

(** X27: When the set-up (temporary directory, output directory, binaries),
    the parsing of the series or a check of the input raises, [go] ends
    right there: with that error, on the file system the set-up has left
    and with the effects it has had, which are commands of the set-up and
    files and directories made or removed; no worker was started and no
    reads were prepared.  So it is when the temporary directory is missing
    and cannot be made: the run ends with [OSError] after the one call of
    [os.makedirs]. *)
Theorem go_stops_before_sweep (a : args) (nthread_series : string)
    (no_count : bool) (s : fs) :
  let setup := prepare_run shell os_makedirs shutil_rmtree a nthread_series
                           no_count s in
  let o := go shell aligner darwin os_makedirs shutil_rmtree a
              nthread_series no_count s in
  (forall e, res setup = Raise e ->
     o = Outcome (Raise e) (fs_after setup) (effects setup) /\
     Forall setup_effect (effects o)) /\
  (forall err,
     present s (a_tempdir a) = false ->
     (os_makedirs (a_tempdir a) s).1 = Some err -> err <> EEXIST ->
     o = Outcome (Raise OSError) (os_makedirs (a_tempdir a) s).2
                 [Makedirs (a_tempdir a)]).
Proof.
  cbv zeta. split.
  - intros e H. unfold go.
    rewrite (bind_raise _ _ s e _ _
               (eq_trans (outcome_eta _)
                         (f_equal (fun r => Outcome r _ _) H))).
    split; [reflexivity|]. apply setup_prepare_run.
  - intros err Hp Hmk Hne. unfold go, prepare_run.
    apply bind_raise, bind_raise. unfold setup_tmpdir.
    rewrite (bind_probe _ _ _ _ (exists_outcome _ s)). rewrite Hp.
    cbn [negb]. apply bind_raise.
    rewrite mkdir_quiet_outcome. unfold present in Hp.
    destruct (s !! a_tempdir a) as [nd|]; [discriminate Hp|].
    rewrite Hmk. destruct err; try reflexivity. destruct (Hne eq_refl).
Qed.

End Run.

Lemma go_tempdir_is_file_witness :
  go shell_idle aligner_ok false makedirs_plain rmtree_plain (unpaired_args false) "2" false
     {["tmp" := File 0]}
  = Outcome (Raise (RuntimeError "Temporary directory isn't a directory"))
            {["tmp" := File 0]} [].
Proof.
  apply (go_tempdir_is_file shell_idle aligner_ok false makedirs_plain
           rmtree_plain (unpaired_args false)
           "2" false {["tmp" := File 0]} 0).
  reflexivity.
Defined.

Lemma sweep_starts_checked_witness :
  exists lines,
    fs_after (prepare_run shell_idle makedirs_plain rmtree_plain (unpaired_args false) "2,4" false
                          fs_ready_x) !! "r1.fq" = Some (File lines) /\
    forall n, In n [2; 4] -> 2 * n <= lines / 4.
Proof.
  refine (proj2 (proj2 (sweep_starts_checked shell_idle makedirs_plain
                          rmtree_plain (unpaired_args false)
                          "2,4" false fs_ready_x [2; 4] _)) eq_refl _).
  - vm_compute. reflexivity.
  - vm_compute. discriminate.
Defined.

Lemma go_stops_before_sweep_witness :
  go shell_idle aligner_ok false makedirs_plain rmtree_plain
     (unpaired_args false) "two" false fs_ready_x
  = Outcome (Raise ValueError) fs_ready_x
            [Sys "rm -f tmp/1_???"; Sys "rm -f tmp/2_???"] /\
  go shell_idle aligner_ok false makedirs_denied rmtree_plain
     (unpaired_args false) "2" false ∅
  = Outcome (Raise OSError) ∅ [Makedirs "tmp"].
Proof.
  split.
  - rewrite (proj1 (proj1 (go_stops_before_sweep shell_idle aligner_ok false
                             makedirs_plain rmtree_plain (unpaired_args false)
                             "two" false fs_ready_x) ValueError
                      ltac:(vm_compute; reflexivity))).
    vm_compute. reflexivity.
  - apply (proj2 (go_stops_before_sweep shell_idle aligner_ok false
                    makedirs_denied rmtree_plain (unpaired_args false)
                    "2" false ∅) EACCES);
      [reflexivity | reflexivity | discriminate].
Defined.
